(** * OpenAlgo streaming client: a shallow embedding of
      [backend/app/services/websocket_client.py]

    The class [OpenAlgoWebSocket] is embedded as a record [Client] threaded
    through a small state-and-exception monad [M].  Everything the client
    does to the outside world (opening the transport, sending a wire frame,
    sleeping, logging, invoking a callback) is appended to a chronological
    event trace; everything the outside world decides (whether a connect or a
    send succeeds, whether a callback raises) is read from an environment
    [Env] whose oracles see the whole history so far.

    Scope of the model: coroutines do not interleave with another task and
    callbacks are opaque (they return or raise an [Exception], they do not
    re-enter the client).  A task can be cancelled while it awaits [ws.send]:
    the [asyncio.CancelledError] it then gets is not an [Exception], so no
    [except Exception] clause catches it, and it is the outcome [Cancelled]
    of the monad.  The other awaits ([websockets.connect], [asyncio.sleep],
    [ws.close], [recv] apart from [RecvCancelled]) run to completion. *)

From Stdlib Require Import ZArith QArith_base Ascii String.
From stdpp Require Import base option list strings gmap.

Set Warnings "-register-all".
Local Open Scope string_scope.
Local Open Scope list_scope.

(** ** Python values carried by decoded frames *)

(** What [json.loads] produces.  A [VDict] is kept as the list of its items;
    [py_get] reads the first item with a given key. *)
Inductive Value : Type :=
| VNone
| VBool (b : bool)
| VInt (z : Z)
| VFloat (q : Q)
| VStr (s : string)
| VList (l : list Value)
| VDict (items : list (string * Value)).

(** ** Python [dict] with insertion order

    The registry is iterated by [_resubscribe_all], so the order of the keys
    is observable on the wire: a dict is a list of items, a new key goes to
    the end, an existing key is updated in place. *)
Section Dict.
Context {V : Type}.

Fixpoint dict_get (k : string) (d : list (string * V)) : option V :=
  match d with
  | [] => None
  | (k', v) :: d' => if String.eqb k k' then Some v else dict_get k d'
  end.

(** [k in d] *)
Definition dict_mem (k : string) (d : list (string * V)) : bool :=
  match dict_get k d with Some _ => true | None => false end.

(** [d[k] = v] *)
Fixpoint dict_set (k : string) (v : V) (d : list (string * V)) : list (string * V) :=
  match d with
  | [] => [(k, v)]
  | (k', v') :: d' =>
      if String.eqb k k' then (k', v) :: d' else (k', v') :: dict_set k v d'
  end.

(** [del d[k]] *)
Fixpoint dict_del (k : string) (d : list (string * V)) : list (string * V) :=
  match d with
  | [] => []
  | (k', v') :: d' =>
      if String.eqb k k' then dict_del k d' else (k', v') :: dict_del k d'
  end.

(** [d.keys()] *)
Definition dict_keys (d : list (string * V)) : list string := map fst d.
End Dict.

(** [data.get(k, default)] on a decoded frame; a frame that is not a dict has
    no [get] attribute. *)
Definition py_get (k : string) (default : Value) (items : list (string * Value)) : Value :=
  match dict_get k items with Some v => v | None => default end.

(** [k in data] *)
Definition py_in (k : string) (items : list (string * Value)) : bool := dict_mem k items.

(** [v == "lit"] for a string literal: only a [str] equals a [str]. *)
Definition py_eq_str (v : Value) (lit : string) : bool :=
  match v with VStr s => String.eqb s lit | _ => false end.

(** ** [str.split(":")] *)
Fixpoint split_on (sep : ascii) (s : string) : list string :=
  match s with
  | EmptyString => [EmptyString]
  | String c rest =>
      if Ascii.eqb c sep then EmptyString :: split_on sep rest
      else match split_on sep rest with
           | hd :: tl => String c hd :: tl
           | [] => [String c EmptyString]
           end
  end.

Definition split_colon (s : string) : list string := split_on ":"%char s.

(** [c in s] for a character. *)
Fixpoint contains (c : ascii) (s : string) : bool :=
  match s with
  | EmptyString => false
  | String c' rest => Ascii.eqb c' c || contains c rest
  end.

(** ** Callbacks, kinds, events *)

(** A callback is known by its identity ([cb_id]: Python compares functions by
    identity) and by whether [asyncio.iscoroutinefunction] holds of it. *)
Record Callback : Type := mkCallback { cb_id : nat; cb_coroutine : bool }.

Global Instance Callback_eq_dec : EqDecision Callback.
Proof. solve_decision. Defined.

(** The three keys of [self.subscriptions], in the order of the dict literal. *)
Inductive SubKind : Type := LTP | QUOTE | DEPTH.

Global Instance SubKind_eq_dec : EqDecision SubKind.
Proof. solve_decision. Defined.

Definition kind_name (k : SubKind) : string :=
  match k with LTP => "ltp" | QUOTE => "quote" | DEPTH => "depth" end.

Definition all_kinds : list SubKind := [LTP; QUOTE; DEPTH].

Inductive Level : Type := DEBUG | INFO | WARNING | ERROR.

Inductive Event : Type :=
| EvLog (lvl : Level) (msg : string)
| EvOpen (url : string) (ok : bool)          (* websockets.connect *)
| EvCreateTask                               (* asyncio.create_task(_message_handler()) *)
| EvCancelTask                               (* _message_task.cancel() and its await *)
| EvClose                                    (* ws.close() *)
| EvSleep (seconds : nat)                    (* asyncio.sleep *)
| EvSend (msg : Value) (ok : bool)           (* ws.send(json.dumps(msg)) *)
| EvCall (cb : Callback) (args : list Value) (raised : bool).

(** What the outside world decides, as a function of the history. *)
Record Env : Type := mkEnv {
  connect_ok : list Event -> bool;
  send_ok : list Event -> Value -> bool;
  (* is the task cancelled while it awaits this [ws.send]? *)
  send_cancelled : list Event -> Value -> bool;
  callback_raises : list Event -> Callback -> list Value -> bool
}.

(** An environment in which no task is cancelled while it awaits a send. *)
Class uncancelled (env : Env) : Prop :=
  send_not_cancelled : forall h msg, send_cancelled env h msg = false.

(** ** The client object *)

Record Subscriptions : Type := mkSubs {
  subs_ltp : list (string * list Callback);
  subs_quote : list (string * list Callback);
  subs_depth : list (string * list Callback)
}.

(** [self.subscriptions[kind]] *)
Definition subs_get (k : SubKind) (r : Subscriptions) : list (string * list Callback) :=
  match k with LTP => subs_ltp r | QUOTE => subs_quote r | DEPTH => subs_depth r end.

Definition subs_put (k : SubKind) (d : list (string * list Callback)) (r : Subscriptions)
  : Subscriptions :=
  match k with
  | LTP => mkSubs d (subs_quote r) (subs_depth r)
  | QUOTE => mkSubs (subs_ltp r) d (subs_depth r)
  | DEPTH => mkSubs (subs_ltp r) (subs_quote r) d
  end.

Definition empty_subscriptions : Subscriptions := mkSubs [] [] [].

Record Client : Type := mkClient {
  ws_url : string;
  api_key : string;
  ws : option nat;
  connected : bool;
  reconnect_attempts : nat;
  max_reconnect_attempts : nat;
  reconnect_delay : nat;
  subscriptions : Subscriptions;
  ltp_cache : gmap string Value;
  quote_cache : gmap string Value;
  depth_cache : gmap string Value;
  _message_task : option nat;
  _running : bool
}.

(** [__init__] *)
Definition init (url key : string) : Client :=
  {| ws_url := url; api_key := key; ws := None; connected := false;
     reconnect_attempts := 0; max_reconnect_attempts := 5; reconnect_delay := 5;
     subscriptions := empty_subscriptions;
     ltp_cache := ∅; quote_cache := ∅; depth_cache := ∅;
     _message_task := None; _running := false |}.

Definition set_ws (x : option nat) (s : Client) : Client :=
  mkClient (ws_url s) (api_key s) x (connected s) (reconnect_attempts s)
    (max_reconnect_attempts s) (reconnect_delay s) (subscriptions s)
    (ltp_cache s) (quote_cache s) (depth_cache s) (_message_task s) (_running s).

Definition set_connected (x : bool) (s : Client) : Client :=
  mkClient (ws_url s) (api_key s) (ws s) x (reconnect_attempts s)
    (max_reconnect_attempts s) (reconnect_delay s) (subscriptions s)
    (ltp_cache s) (quote_cache s) (depth_cache s) (_message_task s) (_running s).

Definition set_reconnect_attempts (x : nat) (s : Client) : Client :=
  mkClient (ws_url s) (api_key s) (ws s) (connected s) x
    (max_reconnect_attempts s) (reconnect_delay s) (subscriptions s)
    (ltp_cache s) (quote_cache s) (depth_cache s) (_message_task s) (_running s).

Definition set_subscriptions (x : Subscriptions) (s : Client) : Client :=
  mkClient (ws_url s) (api_key s) (ws s) (connected s) (reconnect_attempts s)
    (max_reconnect_attempts s) (reconnect_delay s) x
    (ltp_cache s) (quote_cache s) (depth_cache s) (_message_task s) (_running s).

Definition set_ltp_cache (x : gmap string Value) (s : Client) : Client :=
  mkClient (ws_url s) (api_key s) (ws s) (connected s) (reconnect_attempts s)
    (max_reconnect_attempts s) (reconnect_delay s) (subscriptions s)
    x (quote_cache s) (depth_cache s) (_message_task s) (_running s).

Definition set_quote_cache (x : gmap string Value) (s : Client) : Client :=
  mkClient (ws_url s) (api_key s) (ws s) (connected s) (reconnect_attempts s)
    (max_reconnect_attempts s) (reconnect_delay s) (subscriptions s)
    (ltp_cache s) x (depth_cache s) (_message_task s) (_running s).

Definition set_depth_cache (x : gmap string Value) (s : Client) : Client :=
  mkClient (ws_url s) (api_key s) (ws s) (connected s) (reconnect_attempts s)
    (max_reconnect_attempts s) (reconnect_delay s) (subscriptions s)
    (ltp_cache s) (quote_cache s) x (_message_task s) (_running s).

Definition set_message_task (x : option nat) (s : Client) : Client :=
  mkClient (ws_url s) (api_key s) (ws s) (connected s) (reconnect_attempts s)
    (max_reconnect_attempts s) (reconnect_delay s) (subscriptions s)
    (ltp_cache s) (quote_cache s) (depth_cache s) x (_running s).

Definition set_running (x : bool) (s : Client) : Client :=
  mkClient (ws_url s) (api_key s) (ws s) (connected s) (reconnect_attempts s)
    (max_reconnect_attempts s) (reconnect_delay s) (subscriptions s)
    (ltp_cache s) (quote_cache s) (depth_cache s) (_message_task s) x.

(** ** The monad: state, trace, exceptions *)

Inductive Exn : Type :=
| ValueError            (* unpacking the wrong number of values *)
| KeyError              (* d[k] on a missing key *)
| AttributeError        (* .get on a frame that is not a dict *)
| JSONDecodeError       (* json.loads on a malformed frame *)
| TransportError        (* websockets.connect or ws.send failed *)
| CallbackError.        (* an Exception raised by a callback *)

(** [Raise] carries an [Exception]; [Cancelled] is [asyncio.CancelledError],
    a [BaseException] that is no [Exception]. *)
Inductive Outcome (A : Type) : Type :=
| Return (a : A)
| Raise (e : Exn)
| Cancelled
| OutOfFuel.
Arguments Return {A} a.
Arguments Raise {A} e.
Arguments Cancelled {A}.
Arguments OutOfFuel {A}.

Definition M (A : Type) : Type := Client -> list Event -> Outcome A * Client * list Event.

Definition ret {A} (a : A) : M A := fun s tr => (Return a, s, tr).

Definition bind {A B} (m : M A) (f : A -> M B) : M B :=
  fun s tr =>
    match m s tr with
    | (Return a, s', tr') => f a s' tr'
    | (Raise e, s', tr') => (Raise e, s', tr')
    | (Cancelled, s', tr') => (Cancelled, s', tr')
    | (OutOfFuel, s', tr') => (OutOfFuel, s', tr')
    end.

Definition raise {A} (e : Exn) : M A := fun s tr => (Raise e, s, tr).
Definition cancelled {A} : M A := fun s tr => (Cancelled, s, tr).
Definition out_of_fuel {A} : M A := fun s tr => (OutOfFuel, s, tr).

(** [try: m  except Exception: h]; a cancellation goes through. *)
Definition try_except {A} (m : M A) (h : Exn -> M A) : M A :=
  fun s tr =>
    match m s tr with
    | (Raise e, s', tr') => h e s' tr'
    | r => r
    end.

(** The [try] statement of the read loop around one frame: after a normal
    end and after [except Exception: h] the loop goes on ([true]);
    [except asyncio.CancelledError: break] leaves it ([false]). *)
Definition try_or_break (m : M unit) (h : Exn -> M unit) : M bool :=
  fun s tr =>
    match m s tr with
    | (Return _, s', tr') => (Return true, s', tr')
    | (Raise e, s', tr') =>
        match h e s' tr' with
        | (Return _, s'', tr'') => (Return true, s'', tr'')
        | (Raise e', s'', tr'') => (Raise e', s'', tr'')
        | (Cancelled, s'', tr'') => (Cancelled, s'', tr'')
        | (OutOfFuel, s'', tr'') => (OutOfFuel, s'', tr'')
        end
    | (Cancelled, s', tr') => (Return false, s', tr')
    | (OutOfFuel, s', tr') => (OutOfFuel, s', tr')
    end.

Definition get : M Client := fun s tr => (Return s, s, tr).
Definition modify (f : Client -> Client) : M unit := fun s tr => (Return tt, f s, tr).
Definition history : M (list Event) := fun s tr => (Return tr, s, tr).
Definition emit (e : Event) : M unit := fun s tr => (Return tt, s, tr ++ [e]).
Definition log (lvl : Level) (msg : string) : M unit := emit (EvLog lvl msg).

Global Instance M_ret : MRet M := @ret.
Global Instance M_bind : MBind M := fun A B f m => bind m f.

(** [for x in xs: body x] *)
Fixpoint for_each {A} (xs : list A) (body : A -> M unit) : M unit :=
  match xs with
  | [] => ret tt
  | x :: xs' => body x;; for_each xs' body
  end.

(** [d[k]], which raises [KeyError] on a missing key. *)
Definition getitem {V} (k : string) (d : list (string * V)) : M V :=
  match dict_get k d with Some v => ret v | None => raise KeyError end.

(** [_get_symbol_key]: the f-string [f"{exchange}:{symbol}"]. *)
Definition _get_symbol_key (exchange symbol : string) : string :=
  exchange ++ ":" ++ symbol.

(** [list.remove(x)]: drops the first occurrence. *)
Fixpoint remove_first (x : Callback) (l : list Callback) : list Callback :=
  match l with
  | [] => []
  | y :: l' => if bool_decide (x = y) then l' else y :: remove_first x l'
  end.

(** [self.subscriptions[kind]] on the client, and its updates. *)
Definition registry (k : SubKind) (s : Client) : list (string * list Callback) :=
  subs_get k (subscriptions s).

Definition update_registry (k : SubKind)
    (f : list (string * list Callback) -> list (string * list Callback)) (s : Client) : Client :=
  set_subscriptions (subs_put k (f (registry k s)) (subscriptions s)) s.

(** [self.subscriptions[kind][key]] *)
Definition registry_item (k : SubKind) (key : string) : M (list Callback) :=
  s ← get; getitem key (registry k s).

(** The outbound frame of [_send_subscribe] and [_send_unsubscribe], before
    [json.dumps]. *)
Definition wire_message (action sub_type exchange symbol : string) : Value :=
  VDict [("action", VStr action);
         ("type", VStr sub_type);
         ("instruments", VList [VDict [("exchange", VStr exchange);
                                       ("symbol", VStr symbol)]])].

(** What [recv] followed by [json.loads] yields to the read loop. *)
Inductive Recv : Type :=
| RecvFrame (data : Value)
| RecvMalformed
| RecvClosed
| RecvCancelled.

(** ** The methods of [OpenAlgoWebSocket] *)

Section Operations.
(** The outside world. *)
Variable env : Env.
(** Python's [str()] on a value that is not a [str]; only the f-string of
    [_get_symbol_key] uses it, when a frame carries a non-string exchange or
    symbol. *)
Variable py_str : Value -> string.

(** An f-string field: a [str] is inserted as it is. *)
Definition py_format (v : Value) : string :=
  match v with VStr s => s | _ => py_str v end.

(** *** Primitive effects *)

Definition ws_connect (url : string) : M nat :=
  tr ← history;
  if connect_ok env tr then emit (EvOpen url true);; mret (length tr)
  else emit (EvOpen url false);; raise TransportError.

Definition create_task : M nat :=
  tr ← history; emit EvCreateTask;; mret (length tr).

(** [await self.ws.send(json.dumps(msg))]: the frame is handed to the
    transport, and the await returns, raises an [Exception], or ends in the
    cancellation of the task. *)
Definition ws_send (msg : Value) : M unit :=
  tr ← history;
  if send_cancelled env tr msg then emit (EvSend msg false);; cancelled
  else if send_ok env tr msg then emit (EvSend msg true)
  else emit (EvSend msg false);; raise TransportError.

Definition call (callback : Callback) (args : list Value) : M unit :=
  tr ← history;
  if callback_raises env tr callback args
  then emit (EvCall callback args true);; raise CallbackError
  else emit (EvCall callback args false).

(** *** Connection *)

Definition connect : M bool :=
  s ← get;
  if connected s then mret true
  else
    try_except
      (log INFO "Connecting to OpenAlgo WebSocket";;
       sock ← ws_connect (ws_url s);
       modify (set_ws (Some sock));;
       modify (set_connected true);;
       modify (set_reconnect_attempts 0);;
       modify (set_running true);;
       task ← create_task;
       modify (set_message_task (Some task));;
       log INFO "WebSocket connected successfully";;
       mret true)
      (fun _ =>
         log ERROR "WebSocket connection failed";;
         modify (set_connected false);;
         mret false).

Definition disconnect : M unit :=
  modify (set_running false);;
  s ← get;
  match _message_task s with
  | Some _ => emit EvCancelTask
  | None => mret tt
  end;;
  s ← get;
  match ws s with
  | Some _ => emit EvClose;; modify (set_ws None)
  | None => mret tt
  end;;
  modify (set_connected false);;
  modify (set_subscriptions empty_subscriptions);;
  log INFO "WebSocket disconnected".

(** *** Wire requests *)

Definition _send_subscribe (sub_type exchange symbol : string) : M bool :=
  s ← get;
  if negb (connected s) || negb (bool_decide (is_Some (ws s))) then mret false
  else
    let message := wire_message "subscribe" sub_type exchange symbol in
    try_except
      (ws_send message;; mret true)
      (fun _ => log ERROR "Failed to send subscribe";; mret false).

Definition _send_unsubscribe (sub_type exchange symbol : string) : M bool :=
  s ← get;
  if negb (connected s) || negb (bool_decide (is_Some (ws s))) then mret false
  else
    let message := wire_message "unsubscribe" sub_type exchange symbol in
    try_except
      (ws_send message;; mret true)
      (fun _ => log ERROR "Failed to send unsubscribe";; mret false).

Definition _resubscribe_all : M unit :=
  for_each all_kinds (fun sub_type =>
    s ← get;
    for_each (dict_keys (registry sub_type s)) (fun key =>
      match split_colon key with
      | [exchange; symbol] =>
          _send_subscribe (kind_name sub_type) exchange symbol;; mret tt
      | _ => raise ValueError
      end)).

Fixpoint try_reconnect_loop (fuel : nat) : M unit :=
  s ← get;
  if bool_decide (reconnect_attempts s < max_reconnect_attempts s) && _running s then
    match fuel with
    | 0 => out_of_fuel
    | S fuel' =>
        modify (fun s => set_reconnect_attempts (reconnect_attempts s + 1) s);;
        log INFO "Reconnection attempt";;
        s ← get;
        emit (EvSleep (reconnect_delay s));;
        connect ≫= λ ok : bool,
        if ok then _resubscribe_all
        else try_reconnect_loop fuel'
    end
  else log ERROR "Max reconnection attempts reached".

(** The loop runs at most [max_reconnect_attempts - reconnect_attempts]
    times: every pass adds one to the counter and only a successful
    [connect], which leaves the loop, resets it. *)
Definition _try_reconnect : M unit :=
  s ← get;
  try_reconnect_loop (max_reconnect_attempts s - reconnect_attempts s).

(** *** Public API: subscribe and unsubscribe

    [subscribe_ltp], [subscribe_quote] and [subscribe_depth] are the same
    text up to the name of the kind, and so are the three [unsubscribe_*]:
    each is embedded once, with the kind as a parameter. *)

Definition subscribe (k : SubKind) (exchange symbol : string) (callback : Callback)
  : M bool :=
  let key := _get_symbol_key exchange symbol in
  s ← get;
  (if negb (dict_mem key (registry k s)) then
     modify (update_registry k (dict_set key []));;
     s ← get;
     if connected s
     then _send_subscribe (kind_name k) exchange symbol;; mret tt
     else mret tt
   else mret tt);;
  cbs ← registry_item k key;
  (if negb (bool_decide (callback ∈ cbs)) then
     cbs ← registry_item k key;
     modify (update_registry k (dict_set key (cbs ++ [callback])))
   else mret tt);;
  mret true.

Definition unsubscribe (k : SubKind) (exchange symbol : string)
    (callback : option Callback) : M bool :=
  let key := _get_symbol_key exchange symbol in
  s ← get;
  if negb (dict_mem key (registry k s)) then mret true
  else
    match callback with
    | Some cb =>
        cbs ← registry_item k key;
        if bool_decide (cb ∈ cbs) then
          cbs ← registry_item k key;
          modify (update_registry k (dict_set key (remove_first cb cbs)))
        else mret tt
    | None => modify (update_registry k (dict_set key []))
    end;;
    cbs ← registry_item k key;
    match cbs with
    | [] =>
        modify (update_registry k (dict_del key));;
        s ← get;
        if connected s
        then _send_unsubscribe (kind_name k) exchange symbol;; mret tt
        else mret tt
    | _ :: _ => mret tt
    end;;
    mret true.

Definition subscribe_ltp := subscribe LTP.
Definition subscribe_quote := subscribe QUOTE.
Definition subscribe_depth := subscribe DEPTH.
Definition unsubscribe_ltp := unsubscribe LTP.
Definition unsubscribe_quote := unsubscribe QUOTE.
Definition unsubscribe_depth := unsubscribe DEPTH.

(** *** Dispatch of inbound frames *)

(** The body of the [for callback in ...] loop shared by the three
    handlers: both branches of the [iscoroutinefunction] test make the same
    call, awaited or not, inside one [try]. *)
Definition notify (what : string) (args : list Value) (callback : Callback) : M unit :=
  try_except
    (if cb_coroutine callback then call callback args else call callback args)
    (fun _ => log ERROR what).

Definition _handle_ltp (data : list (string * Value)) : M unit :=
  let exchange := py_get "exchange" (VStr "") data in
  let symbol := py_get "symbol" (VStr "") data in
  let ltp := py_get "ltp" (VInt 0) data in
  let key := _get_symbol_key (py_format exchange) (py_format symbol) in
  modify (fun s => set_ltp_cache (<[key := ltp]> (ltp_cache s)) s);;
  s ← get;
  if dict_mem key (registry LTP s) then
    cbs ← registry_item LTP key;
    for_each cbs (notify "LTP callback error" [exchange; symbol; ltp; VDict data])
  else mret tt.

Definition _handle_quote (data : list (string * Value)) : M unit :=
  let exchange := py_get "exchange" (VStr "") data in
  let symbol := py_get "symbol" (VStr "") data in
  let key := _get_symbol_key (py_format exchange) (py_format symbol) in
  modify (fun s => set_quote_cache (<[key := VDict data]> (quote_cache s)) s);;
  (if py_in "ltp" data then
     ltp ← getitem "ltp" data;
     modify (fun s => set_ltp_cache (<[key := ltp]> (ltp_cache s)) s)
   else mret tt);;
  s ← get;
  if dict_mem key (registry QUOTE s) then
    cbs ← registry_item QUOTE key;
    for_each cbs (notify "Quote callback error" [exchange; symbol; VDict data])
  else mret tt.

Definition _handle_depth (data : list (string * Value)) : M unit :=
  let exchange := py_get "exchange" (VStr "") data in
  let symbol := py_get "symbol" (VStr "") data in
  let key := _get_symbol_key (py_format exchange) (py_format symbol) in
  modify (fun s => set_depth_cache (<[key := VDict data]> (depth_cache s)) s);;
  s ← get;
  if dict_mem key (registry DEPTH s) then
    cbs ← registry_item DEPTH key;
    for_each cbs (notify "Depth callback error" [exchange; symbol; VDict data])
  else mret tt.

(** [data.get]: only a dict has it. *)
Definition py_items (data : Value) : M (list (string * Value)) :=
  match data with VDict items => mret items | _ => raise AttributeError end.

Definition _process_message (data : Value) : M unit :=
  try_except
    (items ← py_items data;
     let msg_type := py_get "type" (VStr "") items in
     if py_eq_str msg_type "ltp" then _handle_ltp items
     else if py_eq_str msg_type "quote" then _handle_quote items
     else if py_eq_str msg_type "depth" then _handle_depth items
     else if py_eq_str msg_type "error" then log ERROR "WebSocket error"
     else if py_eq_str msg_type "subscribed" then log DEBUG "Subscription confirmed"
     else if py_eq_str msg_type "unsubscribed" then log DEBUG "Unsubscription confirmed"
     else mret tt)
    (fun _ => log ERROR "Error processing message").

(** The read loop, run on the frames that arrive (the loop of the source
    waits in [recv] once they are used up).  A transport closure marks the
    client as not connected, runs [_try_reconnect] and leaves the loop; what
    [_try_reconnect] raises inside that [except] clause, a cancellation
    included, is not caught by the sibling [except] clauses and leaves the
    loop too. *)
Fixpoint _message_handler (inbox : list Recv) : M unit :=
  s ← get;
  if _running s && bool_decide (is_Some (ws s)) then
    match inbox with
    | [] => mret tt
    | RecvFrame data :: rest =>
        try_or_break (_process_message data)
          (fun _ => log ERROR "Error processing WebSocket message") ≫= λ go_on : bool,
        if go_on then _message_handler rest else mret tt
    | RecvMalformed :: rest =>
        try_or_break (raise JSONDecodeError)
          (fun _ => log ERROR "Error processing WebSocket message") ≫= λ go_on : bool,
        if go_on then _message_handler rest else mret tt
    | RecvClosed :: _ =>
        log WARNING "WebSocket connection closed";;
        modify (set_connected false);;
        _try_reconnect
    | RecvCancelled :: _ => mret tt
    end
  else mret tt.
End Operations.

(** *** Cache reads: [dict.get(key)] yields [None] for a missing key. *)

Definition get_ltp (exchange symbol : string) (s : Client) : Value :=
  default VNone (ltp_cache s !! _get_symbol_key exchange symbol).

Definition get_quote (exchange symbol : string) (s : Client) : Value :=
  default VNone (quote_cache s !! _get_symbol_key exchange symbol).

Definition get_depth (exchange symbol : string) (s : Client) : Value :=
  default VNone (depth_cache s !! _get_symbol_key exchange symbol).

(** ** Observations on traces *)

(** The callback invocations of a trace, in order. *)
Definition calls_of (tr : list Event) : list (Callback * list Value) :=
  omap (fun e => match e with EvCall cb args _ => Some (cb, args) | _ => None end) tr.

(** The frames handed to [ws.send], in order, whether or not the send
    succeeded. *)
Definition sends_of (tr : list Event) : list Value :=
  omap (fun e => match e with EvSend msg _ => Some msg | _ => None end) tr.

(** A trace without its log lines. *)
Definition is_log (e : Event) : bool :=
  match e with EvLog _ _ => true | _ => false end.

Definition without_logs (tr : list Event) : list Event :=
  filter (fun e => is_log e = false) tr.

(** ** What the operations do to the registry, as functions on dicts *)

Definition subscribe_reg (key : string) (cb : Callback)
    (d : list (string * list Callback)) : list (string * list Callback) :=
  match dict_get key d with
  | None => dict_set key [cb] d
  | Some cbs => if bool_decide (cb ∈ cbs) then d else dict_set key (cbs ++ [cb]) d
  end.

Definition unsubscribe_reg (key : string) (callback : option Callback)
    (d : list (string * list Callback)) : list (string * list Callback) :=
  match dict_get key d with
  | None => d
  | Some cbs =>
      match callback with
      | Some cb =>
          match remove_first cb cbs with
          | [] => dict_del key d
          | cbs' =>
              if bool_decide (cb ∈ cbs) then dict_set key cbs' d else d
          end
      | None => dict_del key d
      end
  end.

(** Does [unsubscribe] drop the key, and so reach its [_send_unsubscribe]? *)
Definition drops_key (key : string) (callback : option Callback)
    (d : list (string * list Callback)) : bool :=
  match dict_get key d with
  | None => false
  | Some cbs =>
      match callback with
      | Some cb => match remove_first cb cbs with [] => true | _ => false end
      | None => true
      end
  end.

(** The subscribe request [_resubscribe_all] builds from a key, when the key
    splits in two. *)
Definition resubscribe_message (k : SubKind) (key : string) : option Value :=
  match split_colon key with
  | [exchange; symbol] => Some (wire_message "subscribe" (kind_name k) exchange symbol)
  | _ => None
  end.

(** The requests [_resubscribe_all] is to re-issue: one per kind and key, in
    the iteration order of the two loops. *)
Definition resubscribe_messages (s : Client) : list Value :=
  flat_map (fun k => omap (resubscribe_message k) (dict_keys (registry k s))) all_kinds.

Section Behaviour.
Variable env : Env.
Variable py_str : Value -> string.

(** The events of one [_send_subscribe] or [_send_unsubscribe] call. *)
Definition send_events (action sub_type exchange symbol : string)
    (s : Client) (tr : list Event) : list Event :=
  if connected s && bool_decide (is_Some (ws s)) then
    let msg := wire_message action sub_type exchange symbol in
    if send_ok env tr msg then [EvSend msg true]
    else [EvSend msg false; EvLog ERROR ("Failed to send " ++ action)]
  else [].

(** The events of the fan-out loop over [cbs], started after history [tr]. *)
Fixpoint notify_events (what : string) (args : list Value) (cbs : list Callback)
    (tr : list Event) : list Event :=
  match cbs with
  | [] => []
  | cb :: rest =>
      let evs := if callback_raises env tr cb args
                 then [EvCall cb args true; EvLog ERROR what]
                 else [EvCall cb args false] in
      evs ++ notify_events what args rest (tr ++ evs)
  end.

(** The events of the fan-out of one frame to the callbacks of [key]. *)
Definition fan_out_events (what : string) (k : SubKind) (key : string)
    (args : list Value) (s : Client) (tr : list Event) : list Event :=
  match dict_get key (registry k s) with
  | Some cbs => notify_events what args cbs tr
  | None => []
  end.

(** The key a handler computes from a frame. *)
Definition frame_key (data : list (string * Value)) : string :=
  _get_symbol_key (py_format py_str (py_get "exchange" (VStr "") data))
                  (py_format py_str (py_get "symbol" (VStr "") data)).

(** *** Reachable states *)

Inductive Op : Type :=
| OpConnect
| OpDisconnect
| OpSubscribe (k : SubKind) (exchange symbol : string) (callback : Callback)
| OpUnsubscribe (k : SubKind) (exchange symbol : string) (callback : option Callback)
| OpDispatch (data : Value)
| OpRead (inbox : list Recv).

Definition run_op (op : Op) : M unit :=
  match op with
  | OpConnect => connect env;; mret tt
  | OpDisconnect => disconnect
  | OpSubscribe k exchange symbol callback =>
      subscribe env k exchange symbol callback;; mret tt
  | OpUnsubscribe k exchange symbol callback =>
      unsubscribe env k exchange symbol callback;; mret tt
  | OpDispatch data => _process_message env py_str data
  | OpRead inbox => _message_handler env py_str inbox
  end.

(** The states, with their histories, that a freshly constructed client
    reaches by any sequence of operations. *)
Inductive reachable : Client -> list Event -> Prop :=
| reachable_init url key : reachable (init url key) []
| reachable_step op s tr o s' tr' :
    reachable s tr -> run_op op s tr = (o, s', tr') -> reachable s' tr'.

(** A [subscribe_*] call that ended in the cancellation of its task. *)
Definition cancelled_subscribe (op : Op) (o : Outcome unit) : Prop :=
  match op, o with
  | OpSubscribe _ _ _ _, Cancelled => True
  | _, _ => False
  end.

(** The states reached by sequences of operations in which no [subscribe_*]
    call is cancelled; any other operation may be. *)
Inductive reachable_complete : Client -> list Event -> Prop :=
| reachable_complete_init url key : reachable_complete (init url key) []
| reachable_complete_step op s tr o s' tr' :
    reachable_complete s tr -> run_op op s tr = (o, s', tr') ->
    ~ cancelled_subscribe op o -> reachable_complete s' tr'.
End Behaviour.

(** The arguments a handler passes to the callbacks of its kind:
    [(exchange, symbol, ltp, data)] for LTP, [(exchange, symbol, data)] for
    QUOTE and DEPTH. *)
Definition callback_args (k : SubKind) (data : list (string * Value)) : list Value :=
  let exchange := py_get "exchange" (VStr "") data in
  let symbol := py_get "symbol" (VStr "") data in
  match k with
  | LTP => [exchange; symbol; py_get "ltp" (VInt 0) data; VDict data]
  | QUOTE | DEPTH => [exchange; symbol; VDict data]
  end.

(** The line a handler logs when a callback raises. *)
Definition callback_error_message (k : SubKind) : string :=
  match k with
  | LTP => "LTP callback error"
  | QUOTE => "Quote callback error"
  | DEPTH => "Depth callback error"
  end.

(** The callbacks registered for [(k, key)], in registration order. *)
Definition callbacks_of (k : SubKind) (key : string) (s : Client) : list Callback :=
  default [] (dict_get key (registry k s)).

(** *** Invariants *)

Definition registry_wf (d : list (string * list Callback)) : Prop :=
  NoDup (dict_keys d) /\
  forall key cbs, (key, cbs) ∈ d -> cbs <> [] /\ NoDup cbs.

Definition connection_wf (s : Client) : Prop :=
  max_reconnect_attempts s = 5 /\ reconnect_delay s = 5 /\
  (connected s = true ->
   is_Some (ws s) /\ reconnect_attempts s = 0 /\ _running s = true).

Definition client_wf (s : Client) : Prop :=
  connection_wf s /\ forall k, registry_wf (registry k s).

(** [registry_wf] and [client_wf] with the condition on the callback lists
    as a parameter: [registry_wf] is [registry_inv (fun cbs => cbs <> [])]. *)
Definition registry_inv (P : list Callback -> Prop) (d : list (string * list Callback))
  : Prop :=
  NoDup (dict_keys d) /\
  forall key cbs, (key, cbs) ∈ d -> P cbs /\ NoDup cbs.

Definition client_inv (P : list Callback -> Prop) (s : Client) : Prop :=
  connection_wf s /\ forall k, registry_inv P (registry k s).

(** Two clients that differ at most in the connection fields ([ws],
    [connected], [reconnect_attempts], [_message_task], [_running]). *)
Definition same_data (s s' : Client) : Prop :=
  subscriptions s' = subscriptions s /\
  ltp_cache s' = ltp_cache s /\ quote_cache s' = quote_cache s /\
  depth_cache s' = depth_cache s /\
  max_reconnect_attempts s' = max_reconnect_attempts s /\
  reconnect_delay s' = reconnect_delay s /\ ws_url s' = ws_url s.

(** Two clients that differ at most in the caches. *)
Definition same_control (s s' : Client) : Prop :=
  subscriptions s' = subscriptions s /\ ws s' = ws s /\
  connected s' = connected s /\ reconnect_attempts s' = reconnect_attempts s /\
  max_reconnect_attempts s' = max_reconnect_attempts s /\
  reconnect_delay s' = reconnect_delay s /\ _running s' = _running s.

(** The client right after a successful [connect]. *)
Definition connected_client (sock task : nat) (s : Client) : Client :=
  set_message_task (Some task)
    (set_running true
       (set_reconnect_attempts 0 (set_connected true (set_ws (Some sock) s)))).

(** The events of one pass of the reconnect loop whose [connect] fails. *)
Definition failed_attempt_events (s : Client) : list Event :=
  [EvLog INFO "Reconnection attempt"; EvSleep (reconnect_delay s);
   EvLog INFO "Connecting to OpenAlgo WebSocket"; EvOpen (ws_url s) false;
   EvLog ERROR "WebSocket connection failed"].

(** ** Concrete scenarios *)

(** A network on which every connect and every send succeeds, and callbacks
    that return. *)
Definition env_up : Env :=
  mkEnv (fun _ => true) (fun _ _ => true) (fun _ _ => false) (fun _ _ _ => false).

(** A transport that opens but on which every send fails. *)
Definition env_send_fails : Env :=
  mkEnv (fun _ => true) (fun _ _ => false) (fun _ _ => false) (fun _ _ _ => false).

(** Callbacks of which the one with identity 1 always raises. *)
Definition env_cb1_raises : Env :=
  mkEnv (fun _ => true) (fun _ _ => true) (fun _ _ => false)
    (fun _ cb _ => Nat.eqb (cb_id cb) 1).

(** A network that accepts the first connection and none afterwards: the
    first [websockets.connect] is asked after one line of history. *)
Definition env_drops : Env :=
  mkEnv (fun h => Nat.ltb (length h) 2) (fun _ _ => true) (fun _ _ => false)
    (fun _ _ _ => false).

(** A network that refuses the first reconnect and accepts the second. *)
Definition env_flaky : Env :=
  mkEnv (fun h => negb (Nat.eqb (length h) 10)) (fun _ _ => true) (fun _ _ => false)
    (fun _ _ _ => false).

(** A transport that opens, on which the task is cancelled at every send. *)
Definition env_cancels : Env :=
  mkEnv (fun _ => true) (fun _ _ => true) (fun _ _ => true) (fun _ _ _ => false).

Definition py_str_none (_ : Value) : string := "None".

Definition cb1 : Callback := mkCallback 1 false.
Definition cb2 : Callback := mkCallback 2 true.

Definition fresh : Client := init "ws://127.0.0.1:8765" "".

(** [{"type":"ltp","exchange":"NSE","symbol":"INFY","ltp":1500.5}] *)
Definition infy_ltp_frame : list (string * Value) :=
  [("type", VStr "ltp"); ("exchange", VStr "NSE"); ("symbol", VStr "INFY");
   ("ltp", VFloat (Qmake 3001 2))].

(** [{"type":"quote","exchange":"NSE","symbol":"INFY","ltp":1500.5,"volume":10}] *)
Definition infy_quote_frame : list (string * Value) :=
  [("type", VStr "quote"); ("exchange", VStr "NSE"); ("symbol", VStr "INFY");
   ("ltp", VFloat (Qmake 3001 2)); ("volume", VInt 10)].

(** The state and history of a computation started on a fresh client. *)
Definition after {A} (m : M A) : Client * list Event :=
  let '(_, s, tr) := m fresh [] in (s, tr).

(** The scenarios the witnesses start from, in evaluated form. *)
Definition connected_with_ltp : Client * list Event :=
  Eval vm_compute in
    after (connect env_up;; subscribe_ltp env_up "NSE" "INFY" cb1).

Definition ltp_and_quote : Client * list Event :=
  Eval vm_compute in
    after (subscribe_ltp env_up "NSE" "INFY" cb1;;
           subscribe_quote env_up "NSE" "INFY" cb2).

Definition two_quote_callbacks : Client * list Event :=
  Eval vm_compute in
    after (connect env_cb1_raises;;
           subscribe_quote env_cb1_raises "NSE" "INFY" cb1;;
           subscribe_quote env_cb1_raises "NSE" "INFY" cb2).

Definition connected_then_dropped : Client * list Event :=
  Eval vm_compute in after (connect env_drops).

(** A connected client whose [subscribe_ltp] was cancelled at its send. *)
Definition cancelled_subscribe_scenario : Client * list Event :=
  Eval vm_compute in
    after (connect env_cancels;; subscribe_ltp env_cancels "NSE" "INFY" cb1).

(** A connected client holding one LTP and one QUOTE key. *)
Definition two_kinds_scenario : Client * list Event :=
  Eval vm_compute in
    after (connect env_flaky;;
           subscribe_ltp env_flaky "NSE" "INFY" cb1;;
           subscribe_quote env_flaky "NSE" "TCS" cb2).

(** A connected client holding a symbol with a colon in it, subscribed
    before a second, plain symbol. *)
Definition colon_scenario : Client * list Event :=
  Eval vm_compute in
    after (connect env_up;;
           subscribe_ltp env_up "NSE" "NIFTY:FUT" cb1;;
           subscribe_ltp env_up "NSE" "INFY" cb1).

(** ** The rest of the module: more observations, the shared instance *)

(** The outcomes of the [websockets.connect] calls of a trace, in order. *)
Definition opens_of (tr : list Event) : list bool :=
  omap (fun e => match e with EvOpen _ ok => Some ok | _ => None end) tr.

(** The durations of the [asyncio.sleep] calls of a trace, in order. *)
Definition sleeps_of (tr : list Event) : list nat :=
  omap (fun e => match e with EvSleep n => Some n | _ => None end) tr.

(** The sleeps and the [websockets.connect] calls of a trace, as they
    alternate. *)
Definition is_attempt (e : Event) : bool :=
  match e with EvSleep _ | EvOpen _ _ => true | _ => false end.

Definition attempts_of (tr : list Event) : list Event :=
  filter (fun e => is_attempt e = true) tr.

(** What one pass of the reconnect loop does before its [connect] asks the
    network. *)
Definition attempt_prelude (s : Client) : list Event :=
  [EvLog INFO "Reconnection attempt"; EvSleep (reconnect_delay s);
   EvLog INFO "Connecting to OpenAlgo WebSocket"].

(** The history the network sees at connect attempt [n] (from 0) of the
    reconnection that follows a closure observed after history [tr], the
    attempts before it having failed. *)
Definition reconnect_history (s : Client) (tr : list Event) (n : nat) : list Event :=
  (tr ++ [EvLog WARNING "WebSocket connection closed"]) ++
  concat (replicate n (failed_attempt_events s)) ++ attempt_prelude s.

(** What [disconnect] does to the outside world: the read task is cancelled,
    then the transport is closed, each if there is one. *)
Definition disconnect_effects (s : Client) : list Event :=
  match _message_task s with Some _ => [EvCancelTask] | None => [] end ++
  match ws s with Some _ => [EvClose] | None => [] end.

(** The number of occurrences of a character in a string. *)
Fixpoint occurrences (c : ascii) (s : string) : nat :=
  match s with
  | EmptyString => 0
  | String c' rest => (if Ascii.eqb c' c then 1 else 0) + occurrences c rest
  end.

(** The module-level [_ws_client] is an [option Client]: the object the
    global refers to, if any.  The functions below take the global and the
    history and give back the new global and the new history. *)
Definition get_websocket_client (_ws_client : option Client) : option Client :=
  _ws_client.

Section Singleton.
Variable env : Env.

(** [initialize_websocket]: the old instance, if there is one, is
    disconnected; a new one is constructed, stored in the global, connected
    (the result of [connect] is not looked at) and returned. *)
Definition initialize_websocket (url key : string) (_ws_client : option Client)
    (tr : list Event) : Outcome Client * option Client * list Event :=
  let continue (tr1 : list Event) :=
    match connect env (init url key) tr1 with
    | (Return _, c, tr2) => (Return c, Some c, tr2)
    | (Raise e, c, tr2) => (Raise e, Some c, tr2)
    | (Cancelled, c, tr2) => (Cancelled, Some c, tr2)
    | (OutOfFuel, c, tr2) => (OutOfFuel, Some c, tr2)
    end in
  match _ws_client with
  | Some old =>
      match disconnect old tr with
      | (Return _, _, tr1) => continue tr1
      | (Raise e, old', tr1) => (Raise e, Some old', tr1)
      | (Cancelled, old', tr1) => (Cancelled, Some old', tr1)
      | (OutOfFuel, old', tr1) => (OutOfFuel, Some old', tr1)
      end
  | None => continue tr
  end.

(** [shutdown_websocket] *)
Definition shutdown_websocket (_ws_client : option Client) (tr : list Event)
    : Outcome unit * option Client * list Event :=
  match _ws_client with
  | Some c =>
      match disconnect c tr with
      | (Return _, _, tr1) => (Return (), None, tr1)
      | (Raise e, c', tr1) => (Raise e, Some c', tr1)
      | (Cancelled, c', tr1) => (Cancelled, Some c', tr1)
      | (OutOfFuel, c', tr1) => (OutOfFuel, Some c', tr1)
      end
  | None => (Return (), None, tr)
  end.
End Singleton.

(** ** [backend/app/core/encryption.py]

    The key file [data/.encryption_key] is an [option string]: its content,
    if it exists.  The [cryptography] library is a parameter: whether
    [Fernet(key)] accepts a key, what [encrypt] returns for a key and a
    plaintext ([None]: it raises), what [decrypt] gives for a key and a token.
    [str.encode] and [bytes.decode] are left out: a [str] and its UTF-8 bytes
    are the same [string], and a failure of [decode] is one of the errors of
    [fernet_decrypt].  File system errors are outside the model. *)
Module Encryption.

Inductive DecryptOutcome : Type :=
| Decrypted (plaintext : string)
| InvalidToken
| DecryptError.

(** A returned value, or the [ValueError] the function raises. *)
Inductive Result (A : Type) : Type :=
| Ok (a : A)
| ValueErr (msg : string).
Arguments Ok {A} a.
Arguments ValueErr {A} msg.

Section Fernet.
Variable fernet_accepts : string -> bool.
Variable fernet_encrypt : string -> string -> option string.
Variable fernet_decrypt : string -> string -> DecryptOutcome.

(** [_get_or_create_key]; [fresh] is what [Fernet.generate_key()] returns if
    it is called. *)
Definition _get_or_create_key (fresh : string) (key_file : option string)
    : string * option string * list Event :=
  match key_file with
  | Some key => (key, key_file, [EvLog DEBUG "Loaded existing encryption key"])
  | None => (fresh, Some fresh, [EvLog INFO "Generated new encryption key"])
  end.

(** [_get_fernet]: the key of the instance, or [None] when [Fernet(key)]
    raises. *)
Definition _get_fernet (fresh : string) (key_file : option string)
    : option string * option string * list Event :=
  let '(key, key_file', logs) := _get_or_create_key fresh key_file in
  (if fernet_accepts key then Some key else None, key_file', logs).

Definition encrypt_value (fresh : string) (plaintext : string) (key_file : option string)
    : Result string * option string * list Event :=
  if String.eqb plaintext "" then (Ok "", key_file, [])
  else
    let '(fernet, key_file', logs) := _get_fernet fresh key_file in
    match fernet with
    | Some key =>
        match fernet_encrypt key plaintext with
        | Some encrypted => (Ok encrypted, key_file', logs)
        | None =>
            (ValueErr "Failed to encrypt value", key_file',
             logs ++ [EvLog ERROR "Encryption failed"])
        end
    | None =>
        (ValueErr "Failed to encrypt value", key_file',
         logs ++ [EvLog ERROR "Encryption failed"])
    end.

Definition decrypt_value (fresh : string) (encrypted : string) (key_file : option string)
    : Result string * option string * list Event :=
  if String.eqb encrypted "" then (Ok "", key_file, [])
  else
    let '(fernet, key_file', logs) := _get_fernet fresh key_file in
    match fernet with
    | Some key =>
        match fernet_decrypt key encrypted with
        | Decrypted plaintext => (Ok plaintext, key_file', logs)
        | InvalidToken =>
            (ValueErr "Failed to decrypt value - encryption key may have changed",
             key_file',
             logs ++ [EvLog ERROR "Decryption failed: Invalid token (key may have changed)"])
        | DecryptError =>
            (ValueErr "Failed to decrypt value", key_file',
             logs ++ [EvLog ERROR "Decryption failed"])
        end
    | None =>
        (ValueErr "Failed to decrypt value", key_file',
         logs ++ [EvLog ERROR "Decryption failed"])
    end.

Definition is_encrypted (value : string) : bool :=
  if String.eqb value "" then false else String.prefix "gAAAAA" value.

Definition encrypt_if_not_encrypted (fresh : string) (value : string)
    (key_file : option string) : Result string * option string * list Event :=
  if String.eqb value "" then (Ok "", key_file, [])
  else if is_encrypted value then (Ok value, key_file, [])
  else encrypt_value fresh value key_file.

(** [decrypt_safe] returns an [Optional[str]] and catches [ValueError]. *)
Definition decrypt_safe (fresh : string) (value : string) (key_file : option string)
    : option string * option string * list Event :=
  if String.eqb value "" then (None, key_file, [])
  else if negb (is_encrypted value) then
    (Some value, key_file,
     [EvLog WARNING "Value does not appear to be encrypted, returning as-is"])
  else
    match decrypt_value fresh value key_file with
    | (Ok plaintext, key_file', logs) => (Some plaintext, key_file', logs)
    | (ValueErr _, key_file', logs) =>
        (None, key_file', logs ++ [EvLog ERROR "Failed to decrypt value"])
    end.
End Fernet.

(** A toy cipher for the witnesses: a token is the marker followed by the
    plaintext, and any key is accepted. *)
Definition toy_accepts (key : string) : bool := true.

Definition toy_encrypt (key plaintext : string) : option string :=
  Some ("gAAAAA" ++ plaintext)%string.

Definition toy_decrypt (key token : string) : DecryptOutcome :=
  match token with
  | String "g" (String "A" (String "A" (String "A" (String "A" (String "A" rest))))) =>
      Decrypted rest
  | _ => InvalidToken
  end.

End Encryption.

(** ** [backend/app/core/auth.py]: the two admin dependencies

    The database row is an [option AppSettings] with the one field the code
    reads; the bearer credentials are an [option string] (the token);
    [jwt.decode] with the module's key and algorithm is a parameter, [None]
    standing for [JWTError]. *)
Module Auth.

Record AppSettings : Type := mkAppSettings { is_setup_complete : bool }.

(** The [HTTPException]s the module raises: status code and detail. *)
Inductive HTTPException : Type :=
| Http (status_code : nat) (detail : string).

Section Admin.
Variable jwt_decode : string -> option (list (string * Value)).

Definition verify_token (token : string) : option (list (string * Value)) :=
  jwt_decode token.

(** [not payload]: [None] and the empty dict are falsy. *)
Definition not_payload (payload : option (list (string * Value))) : bool :=
  match payload with
  | None | Some [] => true
  | Some (_ :: _) => false
  end.

(** [payload.get("sub") != "admin"] *)
Definition sub_is_not_admin (payload : option (list (string * Value))) : bool :=
  match payload with
  | Some items => negb (py_eq_str (py_get "sub" VNone items) "admin")
  | None => true
  end.

Definition get_current_admin (path : string) (credentials : option string)
    (settings : option AppSettings) : HTTPException + bool :=
  if match settings with
     | None => true
     | Some row => negb (is_setup_complete row)
     end
  then
    if String.eqb path "/api/auth/setup" || String.eqb path "/api/auth/status"
    then inr true
    else inl (Http 403 "Setup not complete. Please set admin password first.")
  else
    match credentials with
    | None => inl (Http 401 "Not authenticated")
    | Some token =>
        let payload := verify_token token in
        if not_payload payload then inl (Http 401 "Invalid or expired token")
        else if sub_is_not_admin payload then inl (Http 401 "Invalid token")
        else inr true
    end.

Definition get_optional_admin (credentials : option string) : bool :=
  match credentials with
  | None => false
  | Some token =>
      let payload := verify_token token in
      if not_payload payload || sub_is_not_admin payload then false else true
  end.
End Admin.

(** A decoder for the witnesses: the token ["good"] carries the admin
    subject, ["guest"] another subject, anything else does not verify. *)
Definition toy_jwt_decode (token : string) : option (list (string * Value)) :=
  if String.eqb token "good" then Some [("sub", VStr "admin")]
  else if String.eqb token "guest" then Some [("sub", VStr "guest")]
  else None.

End Auth.

(** A connected client holding two LTP callbacks for one key. *)
Definition two_ltp_callbacks : Client * list Event :=
  Eval vm_compute in
    after (connect env_up;;
           subscribe_ltp env_up "NSE" "INFY" cb1;;
           subscribe_ltp env_up "NSE" "INFY" cb2).

(** * Proofs *)

(** ** Facts about dicts *)

Section DictFacts.
Context {V : Type}.
Implicit Types (d : list (string * V)) (k : string) (v : V).

Lemma dict_get_set_eq k v d : dict_get k (dict_set k v d) = Some v.
Proof.
  induction d as [|[k' v'] d IH]; simpl.
  - by rewrite String.eqb_refl.
  - destruct (String.eqb k k') eqn:E; simpl; rewrite E; auto.
Qed.

Lemma dict_get_set_ne k k' v d : k ≠ k' → dict_get k' (dict_set k v d) = dict_get k' d.
Proof.
  intros Hne. induction d as [|[k0 v0] d IH]; simpl.
  - destruct (String.eqb_spec k' k); congruence.
  - destruct (String.eqb_spec k k0); simpl.
    + subst k0. destruct (String.eqb_spec k' k); congruence.
    + destruct (String.eqb_spec k' k0); auto.
Qed.

Lemma dict_get_del_eq k d : dict_get k (dict_del k d) = None.
Proof.
  induction d as [|[k' v'] d IH]; simpl; auto.
  destruct (String.eqb k k') eqn:E; simpl; rewrite ?E; auto.
Qed.

Lemma dict_get_del_ne k k' d : k ≠ k' → dict_get k' (dict_del k d) = dict_get k' d.
Proof.
  intros Hne. induction d as [|[k0 v0] d IH]; simpl; auto.
  destruct (String.eqb_spec k k0); simpl.
  - subst k0. destruct (String.eqb_spec k' k); congruence.
  - destruct (String.eqb_spec k' k0); auto.
Qed.

Lemma dict_set_set k v v' d : dict_set k v (dict_set k v' d) = dict_set k v d.
Proof.
  induction d as [|[k0 v0] d IH]; simpl.
  - by rewrite String.eqb_refl.
  - destruct (String.eqb k k0) eqn:E; simpl; rewrite E; congruence.
Qed.

Lemma dict_get_Some_elem k v d : dict_get k d = Some v → (k, v) ∈ d.
Proof.
  induction d as [|[k0 v0] d IH]; simpl; [done|].
  destruct (String.eqb_spec k k0).
  - intros [= ->]. subst. left.
  - intros. right. auto.
Qed.

Lemma dict_get_None_keys k d : dict_get k d = None ↔ k ∉ dict_keys d.
Proof.
  unfold dict_keys. induction d as [|[k0 v0] d IH]; simpl.
  - split; [intros _; apply not_elem_of_nil | done].
  - rewrite not_elem_of_cons. destruct (String.eqb_spec k k0).
    + split; [done | intros [? _]; done].
    + rewrite IH. tauto.
Qed.

Lemma dict_mem_keys k d : dict_mem k d = true ↔ k ∈ dict_keys d.
Proof.
  unfold dict_mem. destruct (dict_get k d) eqn:E.
  - split; [intros _ | done].
    destruct (decide (k ∈ dict_keys d)); [done|].
    apply dict_get_None_keys in n. congruence.
  - apply dict_get_None_keys in E. split; [done | intros; done].
Qed.

Lemma dict_elem_get k v d : NoDup (dict_keys d) → (k, v) ∈ d → dict_get k d = Some v.
Proof.
  unfold dict_keys. induction d as [|[k0 v0] d IH]; simpl.
  - intros _ H. by apply elem_of_nil in H.
  - intros Hnd Hin. apply NoDup_cons in Hnd as [Hk0 Hnd].
    apply elem_of_cons in Hin as [[= -> ->]|Hin].
    + by rewrite String.eqb_refl.
    + destruct (String.eqb_spec k k0); [|auto].
      subst k0. exfalso. apply Hk0.
      apply list_elem_of_fmap. by exists (k, v).
Qed.

Lemma dict_keys_set_mem k v d : dict_mem k d = true → dict_keys (dict_set k v d) = dict_keys d.
Proof.
  unfold dict_mem, dict_keys. induction d as [|[k0 v0] d IH]; simpl; [done|].
  destruct (String.eqb k k0) eqn:E; simpl; [done|]. intros. f_equal. auto.
Qed.

Lemma dict_keys_set_new k v d : dict_mem k d = false → dict_keys (dict_set k v d) = dict_keys d ++ [k].
Proof.
  unfold dict_mem, dict_keys. induction d as [|[k0 v0] d IH]; simpl; [done|].
  destruct (String.eqb k k0) eqn:E; simpl; [done|]. intros. f_equal. auto.
Qed.

Lemma dict_keys_del k d : dict_keys (dict_del k d) = filter (λ k', k' ≠ k) (dict_keys d).
Proof.
  unfold dict_keys. induction d as [|[k0 v0] d IH]; simpl; [done|].
  rewrite filter_cons. simpl. destruct (String.eqb_spec k k0).
  - subst. rewrite decide_False by tauto. done.
  - rewrite decide_True by congruence. simpl. by f_equal.
Qed.

Lemma dict_elem_set k v d kv :
  kv ∈ dict_set k v d → kv = (k, v) ∨ kv ∈ d.
Proof.
  induction d as [|[k0 v0] d IH]; simpl.
  - intros H. apply list_elem_of_singleton in H. auto.
  - destruct (String.eqb_spec k k0).
    + subst. intros H. apply elem_of_cons in H as [->|H]; [auto|]. right. by right.
    + intros H. apply elem_of_cons in H as [->|H]; [right; left|].
      destruct (IH H); [auto|]. right. by right.
Qed.

Lemma dict_elem_del k d kv : kv ∈ dict_del k d → kv ∈ d.
Proof.
  induction d as [|[k0 v0] d IH]; simpl; [done|].
  destruct (String.eqb k k0).
  - intros. right. auto.
  - intros H. apply elem_of_cons in H as [->|H]; [left | right; auto].
Qed.
Lemma dict_del_set k v d : dict_del k (dict_set k v d) = dict_del k d.
Proof.
  induction d as [|[k0 v0] d IH]; simpl.
  - by rewrite String.eqb_refl.
  - destruct (String.eqb k k0) eqn:E; simpl; rewrite E; congruence.
Qed.
End DictFacts.

Lemma remove_first_notin cb l : cb ∉ l -> remove_first cb l = l.
Proof.
  induction l as [|y l IH]; simpl; [done|].
  intros H. apply not_elem_of_cons in H as [Hne Hl].
  rewrite bool_decide_eq_false_2 by done. f_equal. auto.
Qed.

Lemma remove_first_subset cb l x : x ∈ remove_first cb l -> x ∈ l.
Proof.
  induction l as [|y l IH]; simpl; [done|].
  case_bool_decide.
  - intros. by right.
  - intros H'. apply elem_of_cons in H' as [->|H']; [left | right; auto].
Qed.

Lemma remove_first_NoDup cb l : NoDup l -> NoDup (remove_first cb l).
Proof.
  induction 1 as [|y l Hy Hl IH]; simpl; [constructor|].
  case_bool_decide; [done|].
  constructor; [|done]. intros Hin. apply Hy. eauto using remove_first_subset.
Qed.

(** ** The registry as a field of the client *)

Lemma registry_update k f s : registry k (update_registry k f s) = f (registry k s).
Proof. destruct s as [? ? ? ? ? ? ? [? ? ?] ? ? ? ? ?], k; reflexivity. Qed.

Lemma registry_update_other k k' f s :
  k <> k' -> registry k' (update_registry k f s) = registry k' s.
Proof. destruct s as [? ? ? ? ? ? ? [? ? ?] ? ? ? ? ?], k, k'; done. Qed.

Lemma update_registry_same k f s :
  f (registry k s) = registry k s -> update_registry k f s = s.
Proof.
  unfold update_registry. intros ->. unfold registry.
  destruct s as [? ? ? ? ? ? ? [? ? ?] ? ? ? ? ?], k; reflexivity.
Qed.

Lemma update_registry_twice k f g s :
  update_registry k g (update_registry k f s) = update_registry k (fun d => g (f d)) s.
Proof. destruct s as [? ? ? ? ? ? ? [? ? ?] ? ? ? ? ?], k; reflexivity. Qed.

Lemma update_registry_ext k f g s :
  f (registry k s) = g (registry k s) -> update_registry k f s = update_registry k g s.
Proof. unfold update_registry. by intros ->. Qed.

(** ** What each method computes *)

Ltac run_m :=
  cbv beta iota zeta delta
    [mbind mret M_bind M_ret bind ret raise cancelled out_of_fuel try_except
     get modify history log emit getitem registry_item py_items].

(** Running a computation one statement at a time. *)
Section Run.
Context {A B : Type}.
Implicit Types (f : A -> M B) (s : Client) (tr : list Event).

Lemma run_bind (m : M A) f s tr a s' tr' :
  m s tr = (Return a, s', tr') -> (m ≫= f) s tr = f a s' tr'.
Proof. run_m. by intros ->. Qed.

Lemma run_bind_raise (m : M A) f s tr e s' tr' :
  m s tr = (Raise e, s', tr') -> (m ≫= f) s tr = (Raise e, s', tr').
Proof. run_m. by intros ->. Qed.

Lemma run_ret_bind (a : A) f s tr : (mret a ≫= f) s tr = f a s tr.
Proof. reflexivity. Qed.

Lemma run_raise_bind e f s tr : (raise e ≫= f) s tr = (Raise e, s, tr).
Proof. reflexivity. Qed.

Lemma run_get_bind (g : Client -> M B) s tr : (get ≫= g) s tr = g s s tr.
Proof. reflexivity. Qed.

Lemma run_history_bind (g : list Event -> M B) s tr : (history ≫= g) s tr = g tr s tr.
Proof. reflexivity. Qed.

Lemma run_modify_bind (u : Client -> Client) (g : unit -> M B) s tr :
  (modify u ≫= g) s tr = g () (u s) tr.
Proof. reflexivity. Qed.

Lemma run_emit_bind ev (g : unit -> M B) s tr :
  (emit ev ≫= g) s tr = g () s (tr ++ [ev]).
Proof. reflexivity. Qed.

Lemma run_log_bind lvl msg (g : unit -> M B) s tr :
  (log lvl msg ≫= g) s tr = g () s (tr ++ [EvLog lvl msg]).
Proof. reflexivity. Qed.

Lemma run_try_except (m : M A) (h : Exn -> M A) s tr a s' tr' :
  m s tr = (Return a, s', tr') -> try_except m h s tr = (Return a, s', tr').
Proof. unfold try_except. by intros ->. Qed.

Lemma run_try_except_raise (m : M A) (h : Exn -> M A) s tr e s' tr' :
  m s tr = (Raise e, s', tr') -> try_except m h s tr = h e s' tr'.
Proof. unfold try_except. by intros ->. Qed.

Lemma run_bind_cancelled (m : M A) f s tr s' tr' :
  m s tr = (Cancelled, s', tr') -> (m ≫= f) s tr = (Cancelled, s', tr').
Proof. run_m. by intros ->. Qed.

Lemma run_try_except_cancelled (m : M A) (h : Exn -> M A) s tr s' tr' :
  m s tr = (Cancelled, s', tr') -> try_except m h s tr = (Cancelled, s', tr').
Proof. unfold try_except. by intros ->. Qed.
End Run.

Lemma run_bind_bind {A B C} (m : M A) (f : A -> M B) (g : B -> M C) s tr :
  ((m ≫= f) ≫= g) s tr = (m ≫= (fun a => f a ≫= g)) s tr.
Proof. run_m. by destruct (m s tr) as [[[a|e| |] s'] tr']. Qed.

Lemma run_try_or_break (m : M unit) (h : Exn -> M unit) s tr a s' tr' :
  m s tr = (Return a, s', tr') -> try_or_break m h s tr = (Return true, s', tr').
Proof. unfold try_or_break. by intros ->. Qed.

Lemma run_try_or_break_raise (m : M unit) (h : Exn -> M unit) s tr e s' tr' a s'' tr'' :
  m s tr = (Raise e, s', tr') -> h e s' tr' = (Return a, s'', tr'') ->
  try_or_break m h s tr = (Return true, s'', tr'').
Proof. unfold try_or_break. by intros -> ->. Qed.

Lemma run_ret {A} (a : A) s tr : (mret a : M A) s tr = (Return a, s, tr).
Proof. reflexivity. Qed.

Lemma run_log lvl msg s tr : log lvl msg s tr = (Return (), s, tr ++ [EvLog lvl msg]).
Proof. reflexivity. Qed.

Lemma run_emit ev s tr : emit ev s tr = (Return (), s, tr ++ [ev]).
Proof. reflexivity. Qed.

Lemma run_modify u s tr : modify u s tr = (Return (), u s, tr).
Proof. reflexivity. Qed.

Lemma run_registry_item k key s tr cbs :
  dict_get key (registry k s) = Some cbs ->
  registry_item k key s tr = (Return cbs, s, tr).
Proof. unfold registry_item. run_m. by intros ->. Qed.

Ltac run_step :=
  first
    [ rewrite run_get_bind | rewrite run_history_bind | rewrite run_modify_bind
    | rewrite run_emit_bind | rewrite run_log_bind | rewrite run_ret_bind
    | rewrite run_raise_bind | rewrite run_bind_bind | rewrite run_ret
    | rewrite run_log | rewrite run_emit | rewrite run_modify ].

Ltac run := repeat run_step.

Section Exec.
Variable env : Env.
Variable py_str : Value -> string.

(** *** Subscribe and unsubscribe when no send is cancelled *)

Section Uncancelled.
Context {Hnc : uncancelled env}.

Lemma _send_subscribe_exec sub_type exchange symbol s tr :
  exists b, _send_subscribe env sub_type exchange symbol s tr =
    (Return b, s, tr ++ send_events env "subscribe" sub_type exchange symbol s tr).
Proof.
  unfold _send_subscribe, send_events, ws_send. run_m.
  destruct (connected s); simpl; [|rewrite app_nil_r; eauto].
  destruct (bool_decide (is_Some (ws s))); simpl; [|rewrite app_nil_r; eauto].
  rewrite Hnc. destruct (send_ok env tr _); simpl; [eauto|].
  rewrite <- app_assoc. simpl. eauto.
Qed.

Lemma _send_unsubscribe_exec sub_type exchange symbol s tr :
  exists b, _send_unsubscribe env sub_type exchange symbol s tr =
    (Return b, s, tr ++ send_events env "unsubscribe" sub_type exchange symbol s tr).
Proof.
  unfold _send_unsubscribe, send_events, ws_send. run_m.
  destruct (connected s); simpl; [|rewrite app_nil_r; eauto].
  destruct (bool_decide (is_Some (ws s))); simpl; [|rewrite app_nil_r; eauto].
  rewrite Hnc. destruct (send_ok env tr _); simpl; [eauto|].
  rewrite <- app_assoc. simpl. eauto.
Qed.

Lemma send_events_update_registry action sub_type exchange symbol k f s tr :
  send_events env action sub_type exchange symbol (update_registry k f s) tr =
  send_events env action sub_type exchange symbol s tr.
Proof. reflexivity. Qed.

Lemma send_events_disconnected action sub_type exchange symbol s tr :
  connected s = false -> send_events env action sub_type exchange symbol s tr = [].
Proof. unfold send_events. by intros ->. Qed.

Lemma subscribe_exec k exchange symbol cb s tr :
  subscribe env k exchange symbol cb s tr =
    (Return true,
     update_registry k (subscribe_reg (_get_symbol_key exchange symbol) cb) s,
     tr ++ (if dict_mem (_get_symbol_key exchange symbol) (registry k s) then []
            else send_events env "subscribe" (kind_name k) exchange symbol s tr)).
Proof.
  unfold subscribe. set (key := _get_symbol_key exchange symbol).
  unfold subscribe_reg, dict_mem. run_m.
  destruct (dict_get key (registry k s)) as [cbs|] eqn:Hget.
  - run_m. simpl. rewrite Hget, app_nil_r.
    destruct (bool_decide (cb ∈ cbs)) eqn:Hin; simpl.
    + rewrite update_registry_same; [done|]. by rewrite Hget, Hin.
    + rewrite Hget. do 2 f_equal. apply update_registry_ext. by rewrite Hget, Hin.
  - run_m. simpl.
    destruct (connected s) eqn:Hc.
    + destruct (_send_subscribe_exec (kind_name k) exchange symbol
                  (update_registry k (dict_set key []) s) tr) as [b ->].
      rewrite registry_update, dict_get_set_eq. simpl.
      rewrite registry_update, dict_get_set_eq. simpl.
      rewrite update_registry_twice, send_events_update_registry.
      do 2 f_equal. apply update_registry_ext. by rewrite Hget, dict_set_set.
    + rewrite registry_update, dict_get_set_eq. simpl.
      rewrite registry_update, dict_get_set_eq. simpl.
      rewrite update_registry_twice.
      rewrite (send_events_disconnected _ _ _ _ s) by done. rewrite app_nil_r.
      do 2 f_equal. apply update_registry_ext. by rewrite Hget, dict_set_set.
Qed.

Lemma drop_key_exec k exchange symbol s tr :
  (modify (update_registry k (dict_del (_get_symbol_key exchange symbol)));;
   s0 ← get;
   if connected s0
   then _send_unsubscribe env (kind_name k) exchange symbol;; mret ()
   else mret ()) s tr =
  (Return (), update_registry k (dict_del (_get_symbol_key exchange symbol)) s,
   tr ++ send_events env "unsubscribe" (kind_name k) exchange symbol s tr).
Proof.
  run. destruct (connected (update_registry _ _ s)) eqn:Hc.
  - destruct (_send_unsubscribe_exec (kind_name k) exchange symbol
                (update_registry k (dict_del (_get_symbol_key exchange symbol)) s) tr)
      as [b Hb].
    by rewrite (run_bind _ _ _ _ _ _ _ Hb).
  - simpl in Hc. by rewrite (send_events_disconnected _ _ _ _ s), app_nil_r.
Qed.

Lemma unsubscribe_exec k exchange symbol callback s tr :
  unsubscribe env k exchange symbol callback s tr =
    (Return true,
     update_registry k (unsubscribe_reg (_get_symbol_key exchange symbol) callback) s,
     tr ++ (if drops_key (_get_symbol_key exchange symbol) callback (registry k s)
            then send_events env "unsubscribe" (kind_name k) exchange symbol s tr
            else [])).
Proof.
  unfold unsubscribe, unsubscribe_reg, drops_key, dict_mem.
  set (key := _get_symbol_key exchange symbol).
  run. destruct (dict_get key (registry k s)) as [cbs|] eqn:Hget; simpl.
  2: { rewrite app_nil_r, update_registry_same; [done|]. by rewrite Hget. }
  destruct callback as [cb|].
  - rewrite run_bind_bind, (run_bind _ _ _ _ _ _ _ (run_registry_item _ _ _ _ _ Hget)).
    destruct (bool_decide (cb ∈ cbs)) eqn:Hin.
    + rewrite run_bind_bind, (run_bind _ _ _ _ _ _ _ (run_registry_item _ _ _ _ _ Hget)).
      run. erewrite run_bind
        by (apply run_registry_item; by rewrite registry_update, dict_get_set_eq).
      destruct (remove_first cb cbs) as [|c0 cbs'] eqn:Hrm.
      * rewrite <- ?run_bind_bind. erewrite run_bind by apply drop_key_exec. run.
        rewrite update_registry_twice. simpl. do 2 f_equal.
        apply update_registry_ext. by rewrite Hget, Hrm, dict_del_set.
      * run. simpl. rewrite app_nil_r. do 2 f_equal.
        apply update_registry_ext. by rewrite Hget, Hrm, Hin.
    + run. rewrite (run_bind _ _ _ _ _ _ _ (run_registry_item _ _ _ _ _ Hget)).
      apply bool_decide_eq_false_1 in Hin as Hnotin.
      rewrite (remove_first_notin _ _ Hnotin).
      destruct cbs as [|c0 cbs'].
      * rewrite <- ?run_bind_bind. erewrite run_bind by apply drop_key_exec. run.
        simpl. do 2 f_equal. apply update_registry_ext. by rewrite Hget.
      * run. simpl. rewrite app_nil_r, update_registry_same; [done|].
        by rewrite Hget, (remove_first_notin _ _ Hnotin), Hin.
  - run. erewrite run_bind
      by (apply run_registry_item; by rewrite registry_update, dict_get_set_eq).
    rewrite <- ?run_bind_bind. erewrite run_bind by apply drop_key_exec. run.
    rewrite update_registry_twice. simpl. do 2 f_equal.
    apply update_registry_ext. by rewrite Hget, dict_del_set.
Qed.
End Uncancelled.

Lemma notify_exec what args cb s tr :
  notify env what args cb s tr =
    (Return (), s,
     tr ++ (if callback_raises env tr cb args
            then [EvCall cb args true; EvLog ERROR what]
            else [EvCall cb args false])).
Proof.
  unfold notify, call. run_m.
  destruct (cb_coroutine cb), (callback_raises env tr cb args); simpl;
    by rewrite <- ?app_assoc.
Qed.

Lemma notify_loop_exec what args cbs s tr :
  for_each cbs (notify env what args) s tr =
    (Return (), s, tr ++ notify_events env what args cbs tr).
Proof.
  revert tr. induction cbs as [|cb cbs IH]; intros tr; simpl.
  - by rewrite app_nil_r.
  - run_m. rewrite notify_exec. rewrite IH. by rewrite app_assoc.
Qed.

Lemma fan_out_exec what k key args s tr :
  (if dict_mem key (registry k s)
   then cbs ← registry_item k key; for_each cbs (notify env what args)
   else mret ()) s tr =
  (Return (), s, tr ++ fan_out_events env what k key args s tr).
Proof.
  unfold fan_out_events, dict_mem.
  destruct (dict_get key (registry k s)) as [cbs|] eqn:Hget.
  - rewrite (run_bind _ _ _ _ _ _ _ (run_registry_item _ _ _ _ _ Hget)).
    apply notify_loop_exec.
  - run. by rewrite app_nil_r.
Qed.

Lemma _handle_ltp_exec data s tr :
  let exchange := py_get "exchange" (VStr "") data in
  let symbol := py_get "symbol" (VStr "") data in
  let ltp := py_get "ltp" (VInt 0) data in
  let key := _get_symbol_key (py_format py_str exchange) (py_format py_str symbol) in
  _handle_ltp env py_str data s tr =
    (Return (), set_ltp_cache (<[key := ltp]> (ltp_cache s)) s,
     tr ++ fan_out_events env "LTP callback error" LTP key
             [exchange; symbol; ltp; VDict data] s tr).
Proof.
  intros. unfold _handle_ltp. run. by rewrite fan_out_exec.
Qed.

(** The LTP cache after a quote frame. *)
Lemma _handle_quote_exec data s tr :
  let exchange := py_get "exchange" (VStr "") data in
  let symbol := py_get "symbol" (VStr "") data in
  let key := _get_symbol_key (py_format py_str exchange) (py_format py_str symbol) in
  _handle_quote env py_str data s tr =
    (Return (),
     set_ltp_cache
       (match dict_get "ltp" data with
        | Some ltp => <[key := ltp]> (ltp_cache s)
        | None => ltp_cache s
        end)
       (set_quote_cache (<[key := VDict data]> (quote_cache s)) s),
     tr ++ fan_out_events env "Quote callback error" QUOTE key
             [exchange; symbol; VDict data] s tr).
Proof.
  intros. unfold _handle_quote, py_in, getitem. run.
  change (dict_mem "ltp" data)
    with (match dict_get "ltp" data with Some _ => true | None => false end).
  destruct (dict_get "ltp" data) as [ltp|] eqn:Hltp; cbv iota; run;
    by rewrite fan_out_exec.
Qed.

Lemma _handle_depth_exec data s tr :
  let exchange := py_get "exchange" (VStr "") data in
  let symbol := py_get "symbol" (VStr "") data in
  let key := _get_symbol_key (py_format py_str exchange) (py_format py_str symbol) in
  _handle_depth env py_str data s tr =
    (Return (), set_depth_cache (<[key := VDict data]> (depth_cache s)) s,
     tr ++ fan_out_events env "Depth callback error" DEPTH key
             [exchange; symbol; VDict data] s tr).
Proof.
  intros. unfold _handle_depth. run. by rewrite fan_out_exec.
Qed.

Lemma _process_message_exec data s tr :
  _process_message env py_str data s tr =
    match data with
    | VDict items =>
        let msg_type := py_get "type" (VStr "") items in
        if py_eq_str msg_type "ltp" then _handle_ltp env py_str items s tr
        else if py_eq_str msg_type "quote" then _handle_quote env py_str items s tr
        else if py_eq_str msg_type "depth" then _handle_depth env py_str items s tr
        else if py_eq_str msg_type "error"
          then (Return (), s, tr ++ [EvLog ERROR "WebSocket error"])
        else if py_eq_str msg_type "subscribed"
          then (Return (), s, tr ++ [EvLog DEBUG "Subscription confirmed"])
        else if py_eq_str msg_type "unsubscribed"
          then (Return (), s, tr ++ [EvLog DEBUG "Unsubscription confirmed"])
        else (Return (), s, tr)
    | _ => (Return (), s, tr ++ [EvLog ERROR "Error processing message"])
    end.
Proof.
  unfold _process_message, py_items.
  destruct data as [| | | | | |items]; try reflexivity.
  cbv zeta. set (msg_type := py_get "type" (VStr "") items).
  destruct (py_eq_str msg_type "ltp") eqn:E1.
  { pose proof (_handle_ltp_exec items s tr) as H. cbv zeta in H. rewrite H.
    apply run_try_except. rewrite run_ret_bind. fold msg_type. by rewrite E1. }
  destruct (py_eq_str msg_type "quote") eqn:E2.
  { pose proof (_handle_quote_exec items s tr) as H. cbv zeta in H. rewrite H.
    apply run_try_except. rewrite run_ret_bind. fold msg_type. by rewrite E1, E2. }
  destruct (py_eq_str msg_type "depth") eqn:E3.
  { pose proof (_handle_depth_exec items s tr) as H. cbv zeta in H. rewrite H.
    apply run_try_except. rewrite run_ret_bind. fold msg_type. by rewrite E1, E2, E3. }
  unfold try_except. rewrite run_ret_bind. fold msg_type. rewrite E1, E2, E3.
  by destruct (py_eq_str msg_type "error"), (py_eq_str msg_type "subscribed"),
    (py_eq_str msg_type "unsubscribed").
Qed.

(** *** Connection *)

Lemma connect_exec s tr :
  connect env s tr =
    if connected s then (Return true, s, tr)
    else
      let tr1 := tr ++ [EvLog INFO "Connecting to OpenAlgo WebSocket"] in
      if connect_ok env tr1 then
        (Return true,
         connected_client (length tr1) (length (tr1 ++ [EvOpen (ws_url s) true])) s,
         tr1 ++ [EvOpen (ws_url s) true; EvCreateTask;
                 EvLog INFO "WebSocket connected successfully"])
      else
        (Return false, set_connected false s,
         tr1 ++ [EvOpen (ws_url s) false; EvLog ERROR "WebSocket connection failed"]).
Proof.
  unfold connect, ws_connect, create_task. run.
  destruct (connected s); [done|]. cbv zeta.
  unfold try_except. run.
  destruct (connect_ok env _); run; unfold connected_client;
    by rewrite <- !app_assoc.
Qed.

Lemma disconnect_exec s tr :
  exists s' evs,
    disconnect s tr = (Return (), s', tr ++ evs) /\
    subscriptions s' = empty_subscriptions /\
    connected s' = false /\ ws s' = None /\ _running s' = false /\
    ltp_cache s' = ltp_cache s /\ quote_cache s' = quote_cache s /\
    depth_cache s' = depth_cache s /\
    max_reconnect_attempts s' = max_reconnect_attempts s /\
    reconnect_delay s' = reconnect_delay s /\
    sends_of evs = [] /\ calls_of evs = [].
Proof.
  unfold disconnect. run. simpl.
  destruct (_message_task s); run; simpl; destruct (ws s) eqn:Hws; run; simpl;
    rewrite <- ?app_assoc; simpl; do 2 eexists; (split; [reflexivity|]);
    repeat split; simpl; done.
Qed.

(** *** Resubscription and the reconnect loop *)

Lemma for_each_keeps_state {A} (xs : list A) (body : A -> M unit) :
  (forall x s tr, exists o tr', body x s tr = (o, s, tr') /\ o <> OutOfFuel) ->
  forall s tr, exists o tr', for_each xs body s tr = (o, s, tr') /\ o <> OutOfFuel.
Proof.
  intros Hbody. induction xs as [|x xs IH]; intros s tr; simpl.
  - by exists (Return ()), tr.
  - destruct (Hbody x s tr) as (o & tr1 & Hx & Ho).
    destruct o as [[]|e| |];
      [|by exists (Raise e), tr1; rewrite (run_bind_raise _ _ _ _ _ _ _ Hx)
       |by exists Cancelled, tr1; rewrite (run_bind_cancelled _ _ _ _ _ _ Hx)|done].
    rewrite (run_bind _ _ _ _ _ _ _ Hx). apply IH.
Qed.

(** Whatever the outcome of its send, a wire request leaves the client as
    it was. *)
Lemma _send_subscribe_keeps_state sub_type exchange symbol s tr :
  exists o tr', _send_subscribe env sub_type exchange symbol s tr = (o, s, tr') /\
    o <> OutOfFuel /\ (o = Cancelled -> connected s = true).
Proof.
  unfold _send_subscribe, ws_send. run_m.
  destruct (connected s); simpl; [|by eexists (Return _), _].
  destruct (bool_decide (is_Some (ws s))); simpl; [|by eexists (Return _), _].
  destruct (send_cancelled env tr _); simpl; [by eexists Cancelled, _|].
  destruct (send_ok env tr _); simpl; by eexists (Return _), _.
Qed.

Lemma _send_unsubscribe_keeps_state sub_type exchange symbol s tr :
  exists o tr', _send_unsubscribe env sub_type exchange symbol s tr = (o, s, tr') /\
    o <> OutOfFuel.
Proof.
  unfold _send_unsubscribe, ws_send. run_m.
  destruct (connected s); simpl; [|by eexists (Return _), _].
  destruct (bool_decide (is_Some (ws s))); simpl; [|by eexists (Return _), _].
  destruct (send_cancelled env tr _); simpl; [by eexists Cancelled, _|].
  destruct (send_ok env tr _); simpl; by eexists (Return _), _.
Qed.

(** *** Subscribe and unsubscribe on any network

    A wire request returns or is cancelled; it never raises. *)
Lemma _send_subscribe_outcome sub_type exchange symbol s tr :
  exists o tr', _send_subscribe env sub_type exchange symbol s tr = (o, s, tr') /\
    ((exists b, o = Return b) \/
     (o = Cancelled /\ connected s = true /\ ~ uncancelled env)).
Proof.
  unfold _send_subscribe, ws_send. run_m.
  destruct (connected s); simpl; [|eexists _, _; split; [reflexivity|eauto]].
  destruct (bool_decide (is_Some (ws s))); simpl;
    [|eexists _, _; split; [reflexivity|eauto]].
  destruct (send_cancelled env tr _) eqn:Hcan; simpl.
  { eexists _, _. split; [reflexivity|]. right. split; [done|]. split; [done|].
    intros Hnc. by rewrite Hnc in Hcan. }
  destruct (send_ok env tr _); simpl; eexists _, _; (split; [reflexivity|eauto]).
Qed.

Lemma _send_unsubscribe_outcome sub_type exchange symbol s tr :
  exists o tr', _send_unsubscribe env sub_type exchange symbol s tr = (o, s, tr') /\
    ((exists b, o = Return b) \/ o = Cancelled).
Proof.
  unfold _send_unsubscribe, ws_send. run_m.
  destruct (connected s); simpl; [|eexists _, _; split; [reflexivity|eauto]].
  destruct (bool_decide (is_Some (ws s))); simpl;
    [|eexists _, _; split; [reflexivity|eauto]].
  destruct (send_cancelled env tr _); simpl;
    [eexists _, _; split; [reflexivity|eauto]|].
  destruct (send_ok env tr _); simpl; eexists _, _; (split; [reflexivity|eauto]).
Qed.

(** [subscribe] ends in the state [subscribe_reg] describes, unless the send
    of a new key is cancelled: then the key is left with no callback. *)
Lemma subscribe_outcome k exchange symbol cb s tr :
  exists o s' tr',
    subscribe env k exchange symbol cb s tr = (o, s', tr') /\
    ((o = Return true /\
      s' = update_registry k (subscribe_reg (_get_symbol_key exchange symbol) cb) s) \/
     (o = Cancelled /\ ~ uncancelled env /\
      dict_get (_get_symbol_key exchange symbol) (registry k s) = None /\
      connected s = true /\
      s' = update_registry k (dict_set (_get_symbol_key exchange symbol) []) s)).
Proof.
  unfold subscribe. set (key := _get_symbol_key exchange symbol).
  unfold subscribe_reg, dict_mem. run_m.
  destruct (dict_get key (registry k s)) as [cbs|] eqn:Hget.
  - run_m. simpl. rewrite Hget.
    destruct (bool_decide (cb ∈ cbs)) eqn:Hin; simpl.
    + eexists _, _, _. split; [reflexivity|]. left. split; [done|].
      symmetry. apply update_registry_same. by rewrite Hget, Hin.
    + rewrite Hget. eexists _, _, _. split; [reflexivity|]. left. split; [done|].
      apply update_registry_ext. by rewrite Hget, Hin.
  - run_m. simpl.
    destruct (connected s) eqn:Hc.
    + destruct (_send_subscribe_outcome (kind_name k) exchange symbol
                  (update_registry k (dict_set key []) s) tr)
        as (o & tr' & -> & [[b ->]|(-> & _ & Hcan)]).
      * rewrite registry_update, dict_get_set_eq. simpl.
        rewrite registry_update, dict_get_set_eq. simpl.
        rewrite update_registry_twice.
        eexists _, _, _. split; [reflexivity|]. left. split; [done|].
        apply update_registry_ext. by rewrite Hget, dict_set_set.
      * eexists _, _, _. split; [reflexivity|]. right. done.
    + rewrite registry_update, dict_get_set_eq. simpl.
      rewrite registry_update, dict_get_set_eq. simpl.
      rewrite update_registry_twice.
      eexists _, _, _. split; [reflexivity|]. left. split; [done|].
      apply update_registry_ext. by rewrite Hget, dict_set_set.
Qed.

(** A [subscribe] that reaches no send (the client is not connected, or the
    key is known) leaves the history as it is, on any network. *)
Lemma subscribe_silent_exec k exchange symbol cb s tr :
  connected s = false \/ dict_mem (_get_symbol_key exchange symbol) (registry k s) = true ->
  subscribe env k exchange symbol cb s tr =
    (Return true,
     update_registry k (subscribe_reg (_get_symbol_key exchange symbol) cb) s, tr).
Proof.
  unfold subscribe. set (key := _get_symbol_key exchange symbol).
  unfold subscribe_reg, dict_mem. intros Hsilent. run_m.
  destruct (dict_get key (registry k s)) as [cbs|] eqn:Hget.
  - run_m. simpl. rewrite Hget.
    destruct (bool_decide (cb ∈ cbs)) eqn:Hin; simpl.
    + rewrite update_registry_same; [done|]. by rewrite Hget, Hin.
    + rewrite Hget. do 2 f_equal. apply update_registry_ext. by rewrite Hget, Hin.
  - destruct Hsilent as [Hc|?]; [|done]. run_m. simpl. rewrite Hc.
    rewrite registry_update, dict_get_set_eq. simpl.
    rewrite registry_update, dict_get_set_eq. simpl.
    rewrite update_registry_twice.
    do 2 f_equal. apply update_registry_ext. by rewrite Hget, dict_set_set.
Qed.

Lemma drop_key_outcome k exchange symbol s tr :
  exists o tr',
    (modify (update_registry k (dict_del (_get_symbol_key exchange symbol)));;
     s0 ← get;
     if connected s0
     then _send_unsubscribe env (kind_name k) exchange symbol;; mret ()
     else mret ()) s tr =
    (o, update_registry k (dict_del (_get_symbol_key exchange symbol)) s, tr') /\
    (o = Return () \/ o = Cancelled).
Proof.
  run. destruct (connected (update_registry _ _ s)) eqn:Hc.
  - destruct (_send_unsubscribe_outcome (kind_name k) exchange symbol
                (update_registry k (dict_del (_get_symbol_key exchange symbol)) s) tr)
      as (o & tr' & Hb & [[b ->]| ->]).
    + rewrite (run_bind _ _ _ _ _ _ _ Hb). eexists _, _. split; [reflexivity|by left].
    + rewrite (run_bind_cancelled _ _ _ _ _ _ Hb).
      eexists _, _. split; [reflexivity|by right].
  - eexists _, _. split; [reflexivity|by left].
Qed.

(** The registry update of [unsubscribe] comes before its send: it is made
    whether or not the send is cancelled. *)
Lemma unsubscribe_outcome k exchange symbol callback s tr :
  exists o tr',
    unsubscribe env k exchange symbol callback s tr =
      (o, update_registry k (unsubscribe_reg (_get_symbol_key exchange symbol) callback) s,
       tr') /\
    (o = Return true \/ o = Cancelled).
Proof.
  unfold unsubscribe, unsubscribe_reg, dict_mem.
  set (key := _get_symbol_key exchange symbol).
  assert (Hdrop : forall s0 tr0 s1,
            s1 = update_registry k (dict_del key) s0 ->
            exists o tr',
              ((modify (update_registry k (dict_del key));;
                s2 ← get;
                if connected s2
                then _send_unsubscribe env (kind_name k) exchange symbol;; mret ()
                else mret ());; mret true) s0 tr0 = (o, s1, tr') /\
              (o = Return true \/ o = Cancelled)).
  { intros s0 tr0 s1 ->.
    destruct (drop_key_outcome k exchange symbol s0 tr0) as (o & tr' & Hd & [-> | ->]).
    - rewrite (run_bind _ _ _ _ _ _ _ Hd). eexists _, _. split; [reflexivity|by left].
    - rewrite (run_bind_cancelled _ _ _ _ _ _ Hd).
      eexists _, _. split; [reflexivity|by right]. }
  run. destruct (dict_get key (registry k s)) as [cbs|] eqn:Hget; simpl.
  2: { eexists _, _. split; [|by left]. rewrite update_registry_same; [done|].
       by rewrite Hget. }
  destruct callback as [cb|].
  - rewrite run_bind_bind, (run_bind _ _ _ _ _ _ _ (run_registry_item _ _ _ _ _ Hget)).
    destruct (bool_decide (cb ∈ cbs)) eqn:Hin.
    + rewrite run_bind_bind, (run_bind _ _ _ _ _ _ _ (run_registry_item _ _ _ _ _ Hget)).
      run. erewrite run_bind
        by (apply run_registry_item; by rewrite registry_update, dict_get_set_eq).
      destruct (remove_first cb cbs) as [|c0 cbs'] eqn:Hrm.
      * rewrite <- ?run_bind_bind. apply Hdrop.
        rewrite update_registry_twice.
        apply update_registry_ext. by rewrite Hget, Hrm, dict_del_set.
      * run. eexists _, _. split; [|by left]. do 2 f_equal.
        apply update_registry_ext. by rewrite Hget, Hrm, Hin.
    + run. rewrite (run_bind _ _ _ _ _ _ _ (run_registry_item _ _ _ _ _ Hget)).
      apply bool_decide_eq_false_1 in Hin as Hnotin.
      destruct cbs as [|c0 cbs'].
      * rewrite <- ?run_bind_bind. apply Hdrop.
        apply update_registry_ext. by rewrite Hget.
      * run. eexists _, _. split; [|by left].
        rewrite update_registry_same; [done|].
        by rewrite Hget, (remove_first_notin _ _ Hnotin), Hin.
  - run. erewrite run_bind
      by (apply run_registry_item; by rewrite registry_update, dict_get_set_eq).
    rewrite <- ?run_bind_bind. apply Hdrop.
    rewrite update_registry_twice.
    apply update_registry_ext. by rewrite Hget, dict_del_set.
Qed.

Lemma _resubscribe_all_keeps_state s tr :
  exists o tr', _resubscribe_all env s tr = (o, s, tr') /\ o <> OutOfFuel.
Proof.
  unfold _resubscribe_all. apply for_each_keeps_state. clear s tr.
  intros k s tr. rewrite run_get_bind. apply for_each_keeps_state. clear s tr.
  intros key s tr.
  destruct (split_colon key) as [|exchange [|symbol [|? ?]]];
    try by (exists (Raise ValueError), tr).
  destruct (_send_subscribe_keeps_state (kind_name k) exchange symbol s tr)
    as (o & tr' & Hb & Ho & _).
  destruct o as [b|e| |]; [| | |done].
  - rewrite (run_bind _ _ _ _ _ _ _ Hb). by eexists (Return ()), _.
  - rewrite (run_bind_raise _ _ _ _ _ _ _ Hb). by eexists (Raise e), _.
  - rewrite (run_bind_cancelled _ _ _ _ _ _ Hb). by eexists Cancelled, _.
Qed.

Lemma try_reconnect_loop_stop fuel s tr :
  bool_decide (reconnect_attempts s < max_reconnect_attempts s) && _running s = false ->
  try_reconnect_loop env fuel s tr =
    (Return (), s, tr ++ [EvLog ERROR "Max reconnection attempts reached"]).
Proof. intros H. destruct fuel; simpl; rewrite run_get_bind, H; reflexivity. Qed.

Lemma try_reconnect_loop_pass fuel s tr :
  bool_decide (reconnect_attempts s < max_reconnect_attempts s) && _running s = true ->
  connected s = false ->
  let s1 := set_reconnect_attempts (reconnect_attempts s + 1) s in
  let tr1 := tr ++ [EvLog INFO "Reconnection attempt"; EvSleep (reconnect_delay s);
                    EvLog INFO "Connecting to OpenAlgo WebSocket"] in
  try_reconnect_loop env (S fuel) s tr =
    if connect_ok env tr1 then
      _resubscribe_all env
        (connected_client (length tr1) (length (tr1 ++ [EvOpen (ws_url s) true])) s1)
        (tr1 ++ [EvOpen (ws_url s) true; EvCreateTask;
                 EvLog INFO "WebSocket connected successfully"])
    else
      try_reconnect_loop env fuel (set_connected false s1)
        (tr ++ failed_attempt_events s).
Proof.
  intros Hcond Hconn s1 tr1. simpl. rewrite run_get_bind, Hcond. run.
  simpl reconnect_delay.
  assert (Hc := connect_exec s1 ((tr ++ [EvLog INFO "Reconnection attempt"]) ++
                                 [EvSleep (reconnect_delay s)])).
  change (connected s1) with (connected s) in Hc. rewrite Hconn in Hc. cbv zeta in Hc.
  rewrite <- !app_assoc in Hc. simpl in Hc.
  subst tr1. rewrite <- !app_assoc. simpl.
  destruct (connect_ok env _); rewrite (run_bind _ _ _ _ _ _ _ Hc); [done|].
  done.
Qed.

Lemma same_data_refl s : same_data s s.
Proof. by repeat split. Qed.

Lemma try_reconnect_loop_spec fuel : forall s tr,
  connected s = false ->
  exists o s' tr',
    try_reconnect_loop env fuel s tr = (o, s', tr') /\
    same_data s s' /\
    (connected s' = true ->
     is_Some (ws s') /\ reconnect_attempts s' = 0 /\ _running s' = true) /\
    (max_reconnect_attempts s - reconnect_attempts s <= fuel -> o <> OutOfFuel).
Proof.
  induction fuel as [|fuel IH]; intros s tr Hconn;
    destruct (bool_decide (reconnect_attempts s < max_reconnect_attempts s) && _running s)
      eqn:Hcond.
  - simpl. rewrite run_get_bind, Hcond. exists OutOfFuel, s, tr.
    split; [done|]. split; [apply same_data_refl|]. split; [by rewrite Hconn|].
    apply andb_true_iff in Hcond as [Hlt _]. apply bool_decide_eq_true_1 in Hlt. lia.
  - rewrite try_reconnect_loop_stop by done. do 3 eexists.
    split; [done|]. split; [apply same_data_refl|]. split; [by rewrite Hconn|done].
  - rewrite try_reconnect_loop_pass by done. cbv zeta.
    destruct (connect_ok env _).
    + edestruct _resubscribe_all_keeps_state as (o & tr' & -> & Ho).
      do 3 eexists. split; [reflexivity|]. split; [by repeat split|].
      split; [|done]. intros _. simpl. eauto.
    + destruct (IH (set_connected false
                      (set_reconnect_attempts (reconnect_attempts s + 1) s))
                  (tr ++ failed_attempt_events s) eq_refl)
        as (o & s' & tr' & -> & Hsame & Hwf & Hfuel).
      do 3 eexists. split; [reflexivity|]. split; [exact Hsame|]. split; [exact Hwf|].
      intros Hle. apply Hfuel. simpl.
      apply andb_true_iff in Hcond as [Hlt _]. apply bool_decide_eq_true_1 in Hlt. lia.
  - rewrite try_reconnect_loop_stop by done. do 3 eexists.
    split; [done|]. split; [apply same_data_refl|]. split; [by rewrite Hconn|done].
Qed.

Lemma _try_reconnect_spec s tr :
  connected s = false ->
  exists o s' tr',
    _try_reconnect env s tr = (o, s', tr') /\
    same_data s s' /\
    (connected s' = true ->
     is_Some (ws s') /\ reconnect_attempts s' = 0 /\ _running s' = true) /\
    o <> OutOfFuel.
Proof.
  intros Hconn. unfold _try_reconnect. rewrite run_get_bind.
  destruct (try_reconnect_loop_spec
              (max_reconnect_attempts s - reconnect_attempts s) s tr Hconn)
    as (o & s' & tr' & Heq & Hsame & Hwf & Hfuel).
  exists o, s', tr'. auto.
Qed.
End Exec.

(** ** Invariants of the reachable states

    The invariant is proved once, for a condition [P] on the callback lists
    that every non-empty list meets.  With [P cbs := cbs <> []] it is
    [client_wf], and needs that no [subscribe] is cancelled between the
    creation of a key and the registration of its callback; with a [P] that
    the empty list meets too it holds on every network. *)

Section Dispatch.
Variable env : Env.
Variable py_str : Value -> string.

Lemma _process_message_spec data s tr :
  exists s' evs,
    _process_message env py_str data s tr = (Return (), s', tr ++ evs) /\
    same_control s s' /\ sends_of evs = [].
Proof.
  assert (Hfan : forall what k key args s0 tr0,
            sends_of (fan_out_events env what k key args s0 tr0) = []).
  { intros. unfold fan_out_events. destruct (dict_get _ _) as [cbs|]; [|done].
    revert tr0. induction cbs as [|cb cbs IH]; intros tr0; simpl; [done|].
    unfold sends_of in *. rewrite omap_app, IH.
    by destruct (callback_raises _ _ _ _). }
  rewrite _process_message_exec.
  destruct data as [| | | | | |items];
    try by (do 2 eexists; split; [reflexivity|]; by repeat split).
  cbv zeta. set (msg_type := py_get "type" (VStr "") items).
  destruct (py_eq_str msg_type "ltp").
  { pose proof (_handle_ltp_exec env py_str items s tr) as H. cbv zeta in H.
    rewrite H. do 2 eexists. split; [reflexivity|]. split; [by repeat split|apply Hfan]. }
  destruct (py_eq_str msg_type "quote").
  { pose proof (_handle_quote_exec env py_str items s tr) as H. cbv zeta in H.
    rewrite H. do 2 eexists. split; [reflexivity|]. split; [by repeat split|apply Hfan]. }
  destruct (py_eq_str msg_type "depth").
  { pose proof (_handle_depth_exec env py_str items s tr) as H. cbv zeta in H.
    rewrite H. do 2 eexists. split; [reflexivity|]. split; [by repeat split|apply Hfan]. }
  destruct (py_eq_str msg_type "error"), (py_eq_str msg_type "subscribed"),
    (py_eq_str msg_type "unsubscribed");
    try by (do 2 eexists; split; [reflexivity|]; by repeat split).
  exists s, []. rewrite app_nil_r. by repeat split.
Qed.

End Dispatch.

Section RegistryInv.
Variable P : list Callback -> Prop.
Hypothesis P_nonempty : forall cbs, cbs <> [] -> P cbs.

Lemma registry_inv_empty : registry_inv P [].
Proof.
  split; [constructor|]. intros key cbs H. by apply elem_of_nil in H.
Qed.

Lemma subscribe_reg_inv key cb d :
  registry_inv P d -> registry_inv P (subscribe_reg key cb d).
Proof.
  intros [Hkeys Hitems]. unfold subscribe_reg.
  destruct (dict_get key d) as [cbs|] eqn:Hget.
  - case_bool_decide as Hin; [by split|].
    apply dict_get_Some_elem in Hget as Helem. destruct (Hitems _ _ Helem) as [_ Hnd].
    split.
    + rewrite dict_keys_set_mem; [done|]. unfold dict_mem. by rewrite Hget.
    + intros key' cbs' H'. apply dict_elem_set in H' as [[= -> ->]|H']; [|eauto].
      split; [apply P_nonempty; by destruct cbs|].
      apply NoDup_app. split; [done|]. split; [|apply NoDup_singleton].
      intros x Hx Hx'. apply list_elem_of_singleton in Hx'. by subst.
  - split.
    + rewrite dict_keys_set_new by (unfold dict_mem; by rewrite Hget).
      apply NoDup_app. split; [done|]. split; [|apply NoDup_singleton].
      intros x Hx Hx'. apply list_elem_of_singleton in Hx'. subst.
      by apply dict_get_None_keys in Hget.
    + intros key' cbs' H'. apply dict_elem_set in H' as [[= -> ->]|H']; [|eauto].
      split; [by apply P_nonempty|apply NoDup_singleton].
Qed.

(** The state a cancelled [subscribe] leaves: the new key with no callback. *)
Lemma dict_set_new_inv key d :
  P [] -> dict_get key d = None -> registry_inv P d -> registry_inv P (dict_set key [] d).
Proof.
  intros HP Hget [Hkeys Hitems]. split.
  - rewrite dict_keys_set_new by (unfold dict_mem; by rewrite Hget).
    apply NoDup_app. split; [done|]. split; [|apply NoDup_singleton].
    intros x Hx Hx'. apply list_elem_of_singleton in Hx'. subst.
    by apply dict_get_None_keys in Hget.
  - intros key' cbs' H'. apply dict_elem_set in H' as [[= -> ->]|H']; [|eauto].
    split; [exact HP|constructor].
Qed.

Lemma dict_del_inv key d : registry_inv P d -> registry_inv P (dict_del key d).
Proof.
  intros [Hkeys Hitems]. split.
  - rewrite dict_keys_del. by apply NoDup_filter.
  - intros key' cbs' H'. eauto using dict_elem_del.
Qed.

Lemma unsubscribe_reg_inv key callback d :
  registry_inv P d -> registry_inv P (unsubscribe_reg key callback d).
Proof.
  intros Hwf. unfold unsubscribe_reg.
  destruct (dict_get key d) as [cbs|] eqn:Hget; [|done].
  destruct callback as [cb|]; [|by apply dict_del_inv].
  destruct (remove_first cb cbs) as [|c0 cbs'] eqn:Hrm; [by apply dict_del_inv|].
  case_bool_decide as Hin; [|done].
  destruct Hwf as [Hkeys Hitems].
  apply dict_get_Some_elem in Hget as Helem. destruct (Hitems _ _ Helem) as [_ Hnd].
  split.
  - rewrite dict_keys_set_mem; [done|]. unfold dict_mem. by rewrite Hget.
  - intros key' l H'. apply dict_elem_set in H' as [[= -> ->]|H']; [|eauto].
    split; [by apply P_nonempty|]. rewrite <- Hrm. by apply remove_first_NoDup.
Qed.

Lemma client_inv_init url key : client_inv P (init url key).
Proof.
  split; [by repeat split|]. intros []; apply registry_inv_empty.
Qed.

Lemma client_inv_update_registry k f s :
  (registry_inv P (registry k s) -> registry_inv P (f (registry k s))) ->
  client_inv P s -> client_inv P (update_registry k f s).
Proof.
  intros Hf [Hconn Hreg]. split; [exact Hconn|].
  intros k'. destruct (decide (k = k')) as [<-|Hne].
  - rewrite registry_update. auto.
  - rewrite registry_update_other by done. auto.
Qed.

Lemma client_inv_same_control s s' : same_control s s' -> client_inv P s -> client_inv P s'.
Proof.
  unfold client_inv, connection_wf, registry.
  intros (Hsub & Hws & Hc & Ha & Hm & Hd & Hr) [(? & ? & Hconn) Hreg].
  rewrite Hsub, Hws, Hc, Ha, Hm, Hd, Hr. auto.
Qed.

Lemma client_inv_same_data s s' :
  same_data s s' ->
  (connected s' = true ->
   is_Some (ws s') /\ reconnect_attempts s' = 0 /\ _running s' = true) ->
  client_inv P s -> client_inv P s'.
Proof.
  unfold client_inv, connection_wf, registry.
  intros (Hsub & _ & _ & _ & Hm & Hd & _) Hconn' [(? & ? & _) Hreg].
  rewrite Hsub, Hm, Hd. auto.
Qed.

Section Invariants.
Variable env : Env.
Variable py_str : Value -> string.

Lemma _message_handler_inv inbox : forall s tr,
  client_inv P s ->
  exists o s' tr',
    _message_handler env py_str inbox s tr = (o, s', tr') /\
    client_inv P s' /\ o <> OutOfFuel.
Proof.
  induction inbox as [|r rest IH]; intros s tr Hwf; simpl; rewrite run_get_bind.
  - destruct (_running s && _); by exists (Return ()), s, tr.
  - destruct (_running s && _); [|by exists (Return ()), s, tr].
    destruct r as [data| | |].
    + destruct (_process_message_spec env py_str data s tr)
        as (s1 & evs & Hp & Hsame & _).
      erewrite run_bind by (eapply run_try_or_break, Hp).
      apply IH. eauto using client_inv_same_control.
    + erewrite run_bind by (by eapply run_try_or_break_raise).
      apply IH, Hwf.
    + run.
      destruct (_try_reconnect_spec env (set_connected false s)
                  (tr ++ [EvLog WARNING "WebSocket connection closed"]) eq_refl)
        as (o & s' & tr' & -> & Hsame & Hconn & Ho).
      exists o, s', tr'. split; [done|]. split; [|done].
      eapply client_inv_same_data; [exact Hsame|exact Hconn|].
      destruct Hwf as [(? & ? & ?) Hreg]. split; [by repeat split|exact Hreg].
    + by exists (Return ()), s, tr.
Qed.

(** Every operation keeps the invariant, a cancelled [subscribe] only when
    [P] allows the empty list. *)
Lemma run_op_inv op s tr o s' tr' :
  run_op env py_str op s tr = (o, s', tr') ->
  P [] \/ ~ cancelled_subscribe op o ->
  client_inv P s ->
  client_inv P s' /\ o <> OutOfFuel.
Proof.
  intros Hrun Hc Hwf.
  destruct op as [| |k e sym cb|k e sym cb|data|inbox]; simpl in Hrun.
  - pose proof (connect_exec env s tr) as Hconn.
    destruct (connected s) eqn:Hcs.
    + rewrite (run_bind _ _ _ _ _ _ _ Hconn) in Hrun. by injection Hrun as <- <- <-.
    + cbv zeta in Hconn. destruct (connect_ok env _);
        rewrite (run_bind _ _ _ _ _ _ _ Hconn) in Hrun; injection Hrun as <- <- <-;
        (split; [|done]).
      * eapply client_inv_same_data; [| |exact Hwf]; [by repeat split|].
        intros _. simpl. eauto.
      * eapply client_inv_same_data; [| |exact Hwf]; [by repeat split|done].
  - destruct (disconnect_exec s tr)
      as (s0 & evs & Hd & Hsub & Hcs & ? & ? & ? & ? & ? & Hm & Hdl & _).
    rewrite Hd in Hrun. injection Hrun as <- <- <-. split; [|done].
    destruct Hwf as [(? & ? & ?) ?]. split.
    + split; [congruence|]. split; [congruence|]. by rewrite Hcs.
    + intros k'. unfold registry. rewrite Hsub. destruct k'; apply registry_inv_empty.
  - destruct (subscribe_outcome env k e sym cb s tr)
      as (o0 & s0 & tr0 & Hsub & [(-> & ->)|(-> & Hcan & Hget & _ & ->)]).
    + rewrite (run_bind _ _ _ _ _ _ _ Hsub) in Hrun. injection Hrun as <- <- <-.
      split; [|done]. apply client_inv_update_registry; [|done]. apply subscribe_reg_inv.
    + rewrite (run_bind_cancelled _ _ _ _ _ _ Hsub) in Hrun. injection Hrun as <- <- <-.
      split; [|done]. destruct Hc as [HP|Hc]; [|by destruct Hc].
      apply client_inv_update_registry; [|done]. by apply dict_set_new_inv.
  - destruct (unsubscribe_outcome env k e sym cb s tr) as (o0 & tr0 & Hun & Ho).
    assert (Hinv : client_inv P
              (update_registry k (unsubscribe_reg (_get_symbol_key e sym) cb) s)).
    { apply client_inv_update_registry; [|done]. apply unsubscribe_reg_inv. }
    destruct Ho as [-> | ->].
    + rewrite (run_bind _ _ _ _ _ _ _ Hun) in Hrun. by injection Hrun as <- <- <-.
    + rewrite (run_bind_cancelled _ _ _ _ _ _ Hun) in Hrun.
      by injection Hrun as <- <- <-.
  - destruct (_process_message_spec env py_str data s tr) as (s1 & evs & Hp & Hsame & _).
    rewrite Hp in Hrun. injection Hrun as <- <- <-. split; [|done].
    eauto using client_inv_same_control.
  - destruct (_message_handler_inv inbox s tr Hwf) as (o0 & s0 & tr0 & Hm & Hinv & Ho).
    rewrite Hm in Hrun. by injection Hrun as <- <- <-.
Qed.

Lemma reachable_complete_inv s tr : reachable_complete env py_str s tr -> client_inv P s.
Proof.
  induction 1 as [url key|op s tr o s' tr' _ IH Hrun Hc].
  - apply client_inv_init.
  - by apply (run_op_inv op s tr o s' tr' Hrun); [right|].
Qed.
End Invariants.
End RegistryInv.

(** Where no send is cancelled, no [subscribe] is. *)
Lemma uncancelled_subscribe env py_str `{!uncancelled env} op s tr o s' tr' :
  run_op env py_str op s tr = (o, s', tr') -> ~ cancelled_subscribe op o.
Proof.
  intros Hrun Hc. destruct op as [| |k e sym cb| | |], o as [[]|ex| |]; try done.
  simpl in Hrun.
  destruct (subscribe_outcome env k e sym cb s tr)
    as (o0 & s0 & tr0 & Hsub & [(-> & _)|(_ & Hcan & _)]); [|done].
  by rewrite (run_bind _ _ _ _ _ _ _ Hsub) in Hrun.
Qed.

(** With no cancelled send, every key of a reachable registry has a callback. *)
Lemma reachable_wf env py_str `{!uncancelled env} s tr :
  reachable env py_str s tr -> client_wf s.
Proof.
  induction 1 as [url key|op s tr o s' tr' _ IH Hrun].
  - by apply (client_inv_init (fun cbs => cbs <> [])).
  - apply (run_op_inv (fun cbs => cbs <> []) (fun _ H => H) env py_str
             op s tr o s' tr' Hrun); [|exact IH].
    right. by eapply uncancelled_subscribe.
Qed.

(** On every network, the connection fields are consistent and neither the
    keys nor the callbacks of a key repeat. *)
Lemma reachable_distinct env py_str s tr :
  reachable env py_str s tr -> client_inv (fun _ => True) s.
Proof.
  induction 1 as [url key|op s tr o s' tr' _ IH Hrun].
  - by apply client_inv_init.
  - apply (run_op_inv (fun _ => True) (fun _ _ => I) env py_str
             op s tr o s' tr' Hrun); [by left|exact IH].
Qed.

Lemma subscribe_reg_wf key cb d : registry_wf d -> registry_wf (subscribe_reg key cb d).
Proof. by apply (subscribe_reg_inv (fun cbs => cbs <> [])). Qed.

(** * The claims *)

(** The networks of the scenarios cancel no send. *)
Global Instance env_up_uncancelled : uncancelled env_up.
Proof. by intros h msg. Qed.

Global Instance env_send_fails_uncancelled : uncancelled env_send_fails.
Proof. by intros h msg. Qed.

Global Instance env_cb1_raises_uncancelled : uncancelled env_cb1_raises.
Proof. by intros h msg. Qed.

Global Instance env_drops_uncancelled : uncancelled env_drops.
Proof. by intros h msg. Qed.

Global Instance env_flaky_uncancelled : uncancelled env_flaky.
Proof. by intros h msg. Qed.

Lemma filter_eq_notin (x : Callback) (l : list Callback) :
  x ∉ l -> filter (fun y => y = x) l = [].
Proof.
  induction l as [|y l IH]; [done|]. intros H.
  apply not_elem_of_cons in H as [Hne Hl].
  rewrite filter_cons, decide_False by congruence. auto.
Qed.

Lemma count_one_of_NoDup (x : Callback) (l : list Callback) :
  NoDup l -> x ∈ l -> length (filter (fun y => y = x) l) = 1.
Proof.
  induction 1 as [|y l Hy Hl IH]; intros Hin; [by apply elem_of_nil in Hin|].
  rewrite filter_cons. case_decide as Hyx.
  - subst y. by rewrite filter_eq_notin.
  - apply elem_of_cons in Hin as [->|Hin]; [done|auto].
Qed.

Lemma subscribe_reg_lookup key cb d :
  exists cbs, dict_get key (subscribe_reg key cb d) = Some cbs /\ cb ∈ cbs.
Proof.
  unfold subscribe_reg. destruct (dict_get key d) as [cbs|] eqn:Hget.
  - case_bool_decide as Hin.
    + by exists cbs.
    + exists (cbs ++ [cb]). rewrite dict_get_set_eq. split; [done|].
      apply elem_of_app. right. apply list_elem_of_singleton. done.
  - exists [cb]. rewrite dict_get_set_eq. split; [done|]. apply list_elem_of_singleton. done.
Qed.

(** C10: [disconnect] returns with the registries of all three kinds empty,
    and [get_ltp], [get_quote] and [get_depth] answer for every exchange and
    symbol what they answered before the call: the caches are not touched. *)
Theorem disconnect_clears_registry_keeps_caches (s : Client) (tr : list Event) :
  exists s' tr',
    disconnect s tr = (Return (), s', tr') /\
    (forall k, registry k s' = []) /\
    (forall exchange symbol,
       get_ltp exchange symbol s' = get_ltp exchange symbol s /\
       get_quote exchange symbol s' = get_quote exchange symbol s /\
       get_depth exchange symbol s' = get_depth exchange symbol s).
Proof.
  destruct (disconnect_exec s tr)
    as (s' & evs & Hrun & Hsub & _ & _ & _ & Hl & Hq & Hd & _).
  exists s', (tr ++ evs). split; [exact Hrun|]. split.
  - intros k. unfold registry. rewrite Hsub. by destruct k.
  - intros exchange symbol. unfold get_ltp, get_quote, get_depth.
    by rewrite Hl, Hq, Hd.
Qed.

(** C3: from any reachable state, [subscribe] for (K, E, S, C) returns [True];
    a second identical call returns [True] too and changes neither the client
    nor the history (no wire request); afterwards the key E:S of kind K holds
    C exactly once.  Every [subscribe] call, from any state, returns [True].
    The calls are calls that are not cancelled while they await their send. *)
Theorem subscribe_twice_registers_once
    (env : Env) (py_str : Value -> string)
    (k : SubKind) (exchange symbol : string) (cb : Callback)
    (s : Client) (tr : list Event) :
  uncancelled env ->
  reachable env py_str s tr ->
  (exists s1 tr1 cbs,
     subscribe env k exchange symbol cb s tr = (Return true, s1, tr1) /\
     subscribe env k exchange symbol cb s1 tr1 = (Return true, s1, tr1) /\
     dict_get (_get_symbol_key exchange symbol) (registry k s1) = Some cbs /\
     length (filter (fun c => c = cb) cbs) = 1) /\
  (forall s0 tr0, exists s0' tr0',
     subscribe env k exchange symbol cb s0 tr0 = (Return true, s0', tr0')).
Proof.
  intros Hnc Hreach. split; [|intros; rewrite (subscribe_exec env); eauto].
  set (key := _get_symbol_key exchange symbol).
  destruct (subscribe_reg_lookup key cb (registry k s)) as (cbs & Hget & Hin).
  eexists _, _, cbs. split; [apply (subscribe_exec env)|].
  assert (Hget1 : dict_get key
            (registry k (update_registry k (subscribe_reg key cb) s)) = Some cbs)
    by (by rewrite registry_update).
  split; [|split; [exact Hget1|]].
  - rewrite (subscribe_exec env). fold key. unfold dict_mem. rewrite Hget1, !app_nil_r.
    rewrite (update_registry_same k (subscribe_reg key cb)); [done|].
    unfold subscribe_reg at 1. rewrite Hget1. by rewrite bool_decide_eq_true_2.
  - apply count_one_of_NoDup; [|done].
    apply (reachable_wf env py_str) in Hreach as [_ Hreg].
    destruct (subscribe_reg_wf key cb _ (Hreg k)) as [_ Hitems].
    apply dict_get_Some_elem in Hget. by apply Hitems in Hget as [_ ?].
Qed.

Lemma subscribe_twice_registers_once_witness :
  reachable env_up py_str_none fresh [] /\
  exists s1 tr1 cbs,
    subscribe env_up LTP "NSE" "INFY" cb1 fresh [] = (Return true, s1, tr1) /\
    subscribe env_up LTP "NSE" "INFY" cb1 s1 tr1 = (Return true, s1, tr1) /\
    dict_get (_get_symbol_key "NSE" "INFY") (registry LTP s1) = Some cbs /\
    length (filter (fun c => c = cb1) cbs) = 1.
Proof.
  split; [apply reachable_init|].
  apply (subscribe_twice_registers_once env_up py_str_none LTP "NSE" "INFY" cb1 fresh []).
  - apply env_up_uncancelled.
  - apply reachable_init.
Defined.

(** C8, as the code has it: in every state reached from a fresh client by
    any sequence of [connect], [disconnect], [subscribe_*], [unsubscribe_*],
    frame dispatches and runs of the read loop in which no [subscribe_*] call
    is cancelled while it awaits its send, every key present in the registry
    of any kind is mapped to a non-empty callback list. *)
Theorem registry_keys_have_callbacks
    (env : Env) (py_str : Value -> string) (s : Client) (tr : list Event)
    (k : SubKind) (key : string) (cbs : list Callback) :
  reachable_complete env py_str s tr ->
  (key, cbs) ∈ registry k s ->
  cbs <> [].
Proof.
  intros Hreach Hin.
  apply (reachable_complete_inv (fun cbs => cbs <> []) (fun _ H => H)) in Hreach
    as [_ Hreg].
  destruct (Hreg k) as [_ Hitems]. by apply Hitems in Hin as [? _].
Qed.

(** On a network that cancels every send, a subscription made before the
    connection sends nothing and is not cancelled. *)
Lemma registry_keys_have_callbacks_witness :
  let '(s, tr) := after (subscribe_quote env_cancels "NSE" "INFY" cb2) in
  reachable_complete env_cancels py_str_none s tr /\
  ("NSE:INFY", [cb2]) ∈ registry QUOTE s /\
  [cb2] <> [].
Proof.
  assert (Hreach : reachable_complete env_cancels py_str_none
            (after (subscribe_quote env_cancels "NSE" "INFY" cb2)).1
            (after (subscribe_quote env_cancels "NSE" "INFY" cb2)).2).
  { eapply reachable_complete_step with (op := OpSubscribe QUOTE "NSE" "INFY" cb2)
                                        (o := Return ());
      [apply reachable_complete_init|reflexivity|by intros []]. }
  assert (Hin : ("NSE:INFY", [cb2])
                  ∈ registry QUOTE (after (subscribe_quote env_cancels "NSE" "INFY" cb2)).1)
    by (vm_compute; left).
  split; [exact Hreach|]. split; [exact Hin|].
  exact (registry_keys_have_callbacks env_cancels py_str_none _ _ QUOTE "NSE:INFY" [cb2]
           Hreach Hin).
Defined.

(** C8 as the claim states it fails: on a connected client, a
    [subscribe_ltp] for a new key stores the empty list, awaits the send of
    its request and is cancelled there; [except Exception] does not catch
    the cancellation, the callback is never appended, and the reachable
    state holds the key with no callback. *)
Lemma cancelled_subscribe_leaves_empty_callback_list :
  subscribe_ltp env_cancels "NSE" "INFY" cb1
      (after (connect env_cancels)).1 (after (connect env_cancels)).2 =
    (Cancelled, cancelled_subscribe_scenario.1, cancelled_subscribe_scenario.2) /\
  reachable env_cancels py_str_none
    cancelled_subscribe_scenario.1 cancelled_subscribe_scenario.2 /\
  registry LTP cancelled_subscribe_scenario.1 = [("NSE:INFY", [])] /\
  ~ (forall env py_str s tr k key cbs,
       reachable env py_str s tr -> (key, cbs) ∈ registry k s -> cbs <> []).
Proof.
  assert (Hreach : reachable env_cancels py_str_none
            cancelled_subscribe_scenario.1 cancelled_subscribe_scenario.2).
  { apply (reachable_step env_cancels py_str_none (OpSubscribe LTP "NSE" "INFY" cb1)
             (after (connect env_cancels)).1 (after (connect env_cancels)).2 Cancelled).
    - apply (reachable_step env_cancels py_str_none OpConnect fresh [] (Return ()));
        [apply reachable_init|vm_compute; reflexivity].
    - vm_compute; reflexivity. }
  split; [vm_compute; reflexivity|]. split; [exact Hreach|].
  split; [vm_compute; reflexivity|].
  intros H.
  apply (H env_cancels py_str_none _ _ LTP "NSE:INFY" [] Hreach); [|done].
  vm_compute. left.
Qed.

(** C9: when the client is connected, the key is new, and the wire send of
    the subscribe request fails (it raises an [Exception]; the task is not
    cancelled there), [subscribe] still returns [True]; the failed send is
    logged, and the key is in the registry with the callback registered for
    it. *)
Theorem subscribe_survives_send_failure
    (env : Env) (k : SubKind) (exchange symbol : string) (cb : Callback)
    (s : Client) (tr : list Event) :
  connected s = true ->
  is_Some (ws s) ->
  dict_get (_get_symbol_key exchange symbol) (registry k s) = None ->
  send_cancelled env tr (wire_message "subscribe" (kind_name k) exchange symbol) = false ->
  send_ok env tr (wire_message "subscribe" (kind_name k) exchange symbol) = false ->
  exists s',
    subscribe env k exchange symbol cb s tr =
      (Return true, s',
       tr ++ [EvSend (wire_message "subscribe" (kind_name k) exchange symbol) false;
              EvLog ERROR "Failed to send subscribe"]) /\
    dict_get (_get_symbol_key exchange symbol) (registry k s') = Some [cb] /\
    _get_symbol_key exchange symbol ∈ dict_keys (registry k s').
Proof.
  intros Hconn Hws Hget Hcan Hsend.
  set (key := _get_symbol_key exchange symbol) in *.
  exists (update_registry k (dict_set key [cb]) s). split; [|split].
  - unfold subscribe, _send_subscribe, ws_send, dict_mem. fold key. run_m.
    rewrite Hget. simpl. rewrite Hconn. simpl.
    rewrite bool_decide_eq_true_2 by done. simpl. rewrite Hconn. simpl.
    rewrite Hcan, Hsend. simpl. rewrite <- app_assoc. simpl.
    rewrite registry_update, dict_get_set_eq. simpl.
    rewrite registry_update, dict_get_set_eq. simpl.
    rewrite update_registry_twice. do 2 f_equal.
    apply update_registry_ext. by rewrite dict_set_set.
  - by rewrite registry_update, dict_get_set_eq.
  - apply dict_mem_keys. unfold dict_mem. by rewrite registry_update, dict_get_set_eq.
Qed.

Lemma subscribe_survives_send_failure_witness :
  let '(s, tr) := after (connect env_send_fails) in
  connected s = true /\ is_Some (ws s) /\
  dict_get (_get_symbol_key "NSE" "INFY") (registry DEPTH s) = None /\
  send_cancelled env_send_fails tr
    (wire_message "subscribe" (kind_name DEPTH) "NSE" "INFY") = false /\
  send_ok env_send_fails tr (wire_message "subscribe" (kind_name DEPTH) "NSE" "INFY")
    = false /\
  exists s',
    subscribe env_send_fails DEPTH "NSE" "INFY" cb1 s tr =
      (Return true, s',
       tr ++ [EvSend (wire_message "subscribe" (kind_name DEPTH) "NSE" "INFY") false;
              EvLog ERROR "Failed to send subscribe"]) /\
    dict_get (_get_symbol_key "NSE" "INFY") (registry DEPTH s') = Some [cb1] /\
    _get_symbol_key "NSE" "INFY" ∈ dict_keys (registry DEPTH s').
Proof.
  assert (Hws : is_Some (ws (after (connect env_send_fails)).1)) by (by eexists).
  split; [reflexivity|]. split; [exact Hws|]. split; [reflexivity|].
  split; [reflexivity|]. split; [reflexivity|].
  exact (subscribe_survives_send_failure env_send_fails DEPTH "NSE" "INFY" cb1
           (after (connect env_send_fails)).1 (after (connect env_send_fails)).2
           eq_refl Hws eq_refl eq_refl eq_refl).
Defined.

(** C4: in a reachable state where the key E:S of kind K has an entry,
    [unsubscribe] without a callback returns [True], leaves no entry and no
    key for E:S in the registry of kind K, and hands to the transport exactly
    one unsubscribe frame for (K, E, S) if the client is connected and none
    otherwise.  [unsubscribe] for a key that has no entry returns [True] and
    changes neither the client nor the history.  The operations are
    operations that are not cancelled while they await a send. *)
Theorem unsubscribe_all_drops_key
    (env : Env) (py_str : Value -> string)
    (k : SubKind) (exchange symbol : string) (s : Client) (tr : list Event) :
  uncancelled env ->
  reachable env py_str s tr ->
  (forall cbs,
     dict_get (_get_symbol_key exchange symbol) (registry k s) = Some cbs ->
     cbs <> [] /\
     exists s' evs,
       unsubscribe env k exchange symbol None s tr = (Return true, s', tr ++ evs) /\
       dict_get (_get_symbol_key exchange symbol) (registry k s') = None /\
       (_get_symbol_key exchange symbol ∉ dict_keys (registry k s')) /\
       sends_of evs =
         (if connected s
          then [wire_message "unsubscribe" (kind_name k) exchange symbol]
          else [])) /\
  (forall callback,
     dict_get (_get_symbol_key exchange symbol) (registry k s) = None ->
     unsubscribe env k exchange symbol callback s tr = (Return true, s, tr)).
Proof.
  intros Hnc Hreach. set (key := _get_symbol_key exchange symbol). split.
  - intros cbs Hget. apply (reachable_wf env py_str) in Hreach as [(_ & _ & Hconn) Hreg].
    split.
    { destruct (Hreg k) as [_ Hitems].
      apply dict_get_Some_elem in Hget. by apply Hitems in Hget as [? _]. }
    eexists _, _. split; [apply (unsubscribe_exec env)|]. fold key.
    rewrite registry_update. unfold unsubscribe_reg, drops_key. rewrite Hget.
    split; [apply dict_get_del_eq|]. split; [apply dict_get_None_keys, dict_get_del_eq|].
    unfold send_events. destruct (connected s) eqn:Hc; [|done].
    destruct (Hconn eq_refl) as (Hws & _). rewrite bool_decide_eq_true_2 by done.
    simpl. by destruct (send_ok env tr _).
  - intros callback Hget. rewrite (unsubscribe_exec env). fold key.
    unfold drops_key. rewrite Hget, app_nil_r.
    rewrite update_registry_same; [done|]. unfold unsubscribe_reg. by rewrite Hget.
Qed.

Lemma unsubscribe_all_drops_key_witness :
  reachable env_up py_str_none connected_with_ltp.1 connected_with_ltp.2 /\
  (dict_get (_get_symbol_key "NSE" "INFY") (registry LTP connected_with_ltp.1)
     = Some [cb1] /\
   exists s' evs,
     unsubscribe env_up LTP "NSE" "INFY" None connected_with_ltp.1 connected_with_ltp.2
       = (Return true, s', connected_with_ltp.2 ++ evs) /\
     dict_get (_get_symbol_key "NSE" "INFY") (registry LTP s') = None /\
     (_get_symbol_key "NSE" "INFY" ∉ dict_keys (registry LTP s')) /\
     sends_of evs = [wire_message "unsubscribe" (kind_name LTP) "NSE" "INFY"]) /\
  (dict_get (_get_symbol_key "NSE" "TCS") (registry LTP connected_with_ltp.1) = None /\
   unsubscribe env_up LTP "NSE" "TCS" (Some cb1)
       connected_with_ltp.1 connected_with_ltp.2
     = (Return true, connected_with_ltp.1, connected_with_ltp.2)).
Proof.
  assert (Hreach : reachable env_up py_str_none
                     connected_with_ltp.1 connected_with_ltp.2).
  { apply (reachable_step env_up py_str_none (OpSubscribe LTP "NSE" "INFY" cb1)
             (after (connect env_up)).1 (after (connect env_up)).2 (Return ())).
    - apply (reachable_step env_up py_str_none OpConnect fresh [] (Return ()));
        [apply reachable_init|vm_compute; reflexivity].
    - vm_compute; reflexivity. }
  split; [exact Hreach|]. split.
  - split; [vm_compute; reflexivity|].
    exact (proj2 (proj1 (unsubscribe_all_drops_key env_up py_str_none LTP "NSE" "INFY"
                           connected_with_ltp.1 connected_with_ltp.2
                           env_up_uncancelled Hreach)
                    [cb1] eq_refl)).
  - split; [vm_compute; reflexivity|].
    exact (proj2 (unsubscribe_all_drops_key env_up py_str_none LTP "NSE" "TCS"
                    connected_with_ltp.1 connected_with_ltp.2
                    env_up_uncancelled Hreach)
             (Some cb1) eq_refl).
Defined.

(** ** Fan-out *)

Section FanOut.
Variable env : Env.
Variable py_str : Value -> string.

Lemma notify_events_app what args l1 l2 tr :
  notify_events env what args (l1 ++ l2) tr =
    notify_events env what args l1 tr ++
    notify_events env what args l2 (tr ++ notify_events env what args l1 tr).
Proof.
  revert tr. induction l1 as [|cb l1 IH]; intros tr; simpl.
  - by rewrite app_nil_r.
  - rewrite IH. by rewrite <- !app_assoc.
Qed.

Lemma calls_of_app tr1 tr2 : calls_of (tr1 ++ tr2) = calls_of tr1 ++ calls_of tr2.
Proof. apply omap_app. Qed.

Lemma sends_of_app tr1 tr2 : sends_of (tr1 ++ tr2) = sends_of tr1 ++ sends_of tr2.
Proof. apply omap_app. Qed.

Lemma calls_of_notify_events what args cbs tr :
  calls_of (notify_events env what args cbs tr) = map (fun cb => (cb, args)) cbs.
Proof.
  revert tr. induction cbs as [|cb cbs IH]; intros tr; simpl; [done|].
  rewrite calls_of_app, IH. by destruct (callback_raises env tr cb args).
Qed.

Lemma calls_of_fan_out_events what k key args s tr :
  calls_of (fan_out_events env what k key args s tr) =
    map (fun cb => (cb, args)) (callbacks_of k key s).
Proof.
  unfold fan_out_events, callbacks_of.
  destruct (dict_get key (registry k s)); [apply calls_of_notify_events|done].
Qed.

(** A frame whose type is the name of a kind goes to the handler of that
    kind, which never raises. *)
Lemma dispatch_exec k data s tr :
  py_get "type" (VStr "") data = VStr (kind_name k) ->
  exists s',
    _process_message env py_str (VDict data) s tr =
      (Return (), s',
       tr ++ fan_out_events env (callback_error_message k) k (frame_key py_str data)
               (callback_args k data) s tr) /\
    same_control s s' /\
    ltp_cache s' =
      match k with
      | LTP => <[frame_key py_str data := py_get "ltp" (VInt 0) data]> (ltp_cache s)
      | QUOTE => match dict_get "ltp" data with
                 | Some ltp => <[frame_key py_str data := ltp]> (ltp_cache s)
                 | None => ltp_cache s
                 end
      | DEPTH => ltp_cache s
      end /\
    quote_cache s' =
      match k with
      | QUOTE => <[frame_key py_str data := VDict data]> (quote_cache s)
      | _ => quote_cache s
      end /\
    depth_cache s' =
      match k with
      | DEPTH => <[frame_key py_str data := VDict data]> (depth_cache s)
      | _ => depth_cache s
      end.
Proof.
  intros Hty. rewrite _process_message_exec. cbv zeta. rewrite Hty.
  destruct k; simpl.
  - pose proof (_handle_ltp_exec env py_str data s tr) as H. cbv zeta in H.
    rewrite H. eexists. split; [reflexivity|]. by repeat split.
  - pose proof (_handle_quote_exec env py_str data s tr) as H. cbv zeta in H.
    rewrite H. eexists. split; [reflexivity|]. by repeat split.
  - pose proof (_handle_depth_exec env py_str data s tr) as H. cbv zeta in H.
    rewrite H. eexists. split; [reflexivity|]. by repeat split.
Qed.
End FanOut.

Lemma py_get_Some k default data v : dict_get k data = Some v -> py_get k default data = v.
Proof. unfold py_get. by intros ->. Qed.

(** C5: when the dispatcher processes a frame of type ["ltp"] with exchange
    [E], symbol [S] and price [P], it returns normally, [get_ltp E S] then
    yields [P] whatever the cache held before, and the callbacks registered
    for (LTP, E:S) are invoked once each, in registration order, with
    [(E, S, P, frame)]; nothing else is invoked.  The scenario of the
    specification (the INFY frame with price 1500.5) is the instance proved
    right after. *)
Theorem ltp_frame_updates_cache_and_notifies
    (env : Env) (py_str : Value -> string)
    (data : list (string * Value)) (E S : string) (P : Value)
    (s : Client) (tr : list Event) :
  dict_get "type" data = Some (VStr "ltp") ->
  dict_get "exchange" data = Some (VStr E) ->
  dict_get "symbol" data = Some (VStr S) ->
  dict_get "ltp" data = Some P ->
  exists s' evs,
    _process_message env py_str (VDict data) s tr = (Return (), s', tr ++ evs) /\
    get_ltp E S s' = P /\
    calls_of evs =
      map (fun cb => (cb, [VStr E; VStr S; P; VDict data]))
          (callbacks_of LTP (_get_symbol_key E S) s) /\
    subscriptions s' = subscriptions s.
Proof.
  intros Hty HE HS HP.
  destruct (dispatch_exec env py_str LTP data s tr) as (s' & Hrun & Hsame & Hltp & _).
  { by rewrite (py_get_Some _ _ _ _ Hty). }
  assert (Hkey : frame_key py_str data = _get_symbol_key E S).
  { unfold frame_key. by rewrite (py_get_Some _ _ _ _ HE), (py_get_Some _ _ _ _ HS). }
  eexists s', _. split; [exact Hrun|]. split; [|split].
  - unfold get_ltp. rewrite Hltp, Hkey, lookup_insert_eq. simpl.
    apply (py_get_Some _ _ _ _ HP).
  - rewrite calls_of_fan_out_events, Hkey. unfold callback_args.
    by rewrite (py_get_Some _ _ _ _ HE), (py_get_Some _ _ _ _ HS),
               (py_get_Some _ _ _ _ HP).
  - apply Hsame.
Qed.

Lemma ltp_frame_updates_cache_and_notifies_witness :
  let '(s, tr) := after (subscribe_ltp env_up "NSE" "INFY" cb1) in
  dict_get "type" infy_ltp_frame = Some (VStr "ltp") /\
  dict_get "exchange" infy_ltp_frame = Some (VStr "NSE") /\
  dict_get "symbol" infy_ltp_frame = Some (VStr "INFY") /\
  dict_get "ltp" infy_ltp_frame = Some (VFloat (Qmake 3001 2)) /\
  exists s' evs,
    _process_message env_up py_str_none (VDict infy_ltp_frame) s tr =
      (Return (), s', tr ++ evs) /\
    get_ltp "NSE" "INFY" s' = VFloat (Qmake 3001 2) /\
    calls_of evs =
      [(cb1, [VStr "NSE"; VStr "INFY"; VFloat (Qmake 3001 2); VDict infy_ltp_frame])] /\
    subscriptions s' = subscriptions s.
Proof.
  do 4 (split; [reflexivity|]).
  exact (ltp_frame_updates_cache_and_notifies env_up py_str_none infy_ltp_frame
           "NSE" "INFY" (VFloat (Qmake 3001 2))
           (after (subscribe_ltp env_up "NSE" "INFY" cb1)).1
           (after (subscribe_ltp env_up "NSE" "INFY" cb1)).2
           eq_refl eq_refl eq_refl eq_refl).
Defined.

Lemma notify_events_has_call env what args cbs cb tr :
  cb ∈ cbs -> exists raised, EvCall cb args raised ∈ notify_events env what args cbs tr.
Proof.
  revert tr. induction cbs as [|c cbs IH]; intros tr Hin; [by apply elem_of_nil in Hin|].
  apply elem_of_cons in Hin as [->|Hin]; simpl.
  - exists (callback_raises env tr c args).
    apply elem_of_app. left. destruct (callback_raises env tr c args); left.
  - destruct (IH (tr ++ (if callback_raises env tr c args
                         then [EvCall c args true; EvLog ERROR what]
                         else [EvCall c args false])) Hin) as [raised Hr].
    exists raised. apply elem_of_app. by right.
Qed.

(** C6: let C1 be registered before C2 for the (kind, key) of a frame, and
    let C1 raise whenever it is invoked on that frame.  The dispatcher then
    returns normally: C1's raise is recorded and logged, C2 is invoked
    afterwards with the same arguments, every registered callback is invoked
    once in registration order, and the read loop goes on with the next
    frame. *)
Theorem raising_callback_is_isolated
    (env : Env) (py_str : Value -> string) (k : SubKind)
    (data : list (string * Value)) (c1 c2 : Callback)
    (before between behind : list Callback)
    (s : Client) (tr : list Event) (rest : list Recv) :
  py_get "type" (VStr "") data = VStr (kind_name k) ->
  dict_get (frame_key py_str data) (registry k s) =
    Some (before ++ c1 :: between ++ c2 :: behind) ->
  (forall h, callback_raises env h c1 (callback_args k data) = true) ->
  _running s = true ->
  is_Some (ws s) ->
  exists s' evs1 evs2 raised2,
    let args := callback_args k data in
    let evs := evs1 ++ [EvCall c1 args true; EvLog ERROR (callback_error_message k)]
                    ++ evs2 in
    _process_message env py_str (VDict data) s tr = (Return (), s', tr ++ evs) /\
    EvCall c2 args raised2 ∈ evs2 /\
    calls_of evs =
      map (fun cb => (cb, args)) (before ++ c1 :: between ++ c2 :: behind) /\
    _message_handler env py_str (RecvFrame (VDict data) :: rest) s tr =
      _message_handler env py_str rest s' (tr ++ evs).
Proof.
  intros Hty Hget Hraise Hrun Hws.
  destruct (dispatch_exec env py_str k data s tr Hty) as (s' & Hexec & Hsame & _).
  set (args := callback_args k data) in *.
  set (what := callback_error_message k) in *.
  assert (Hevs : fan_out_events env what k (frame_key py_str data) args s tr =
            notify_events env what args before tr ++
            [EvCall c1 args true; EvLog ERROR what] ++
            notify_events env what args (between ++ c2 :: behind)
              ((tr ++ notify_events env what args before tr) ++
               [EvCall c1 args true; EvLog ERROR what])).
  { unfold fan_out_events. rewrite Hget, notify_events_app.
    change (notify_events env what args (c1 :: between ++ c2 :: behind) ?h)
      with ((if callback_raises env h c1 args
             then [EvCall c1 args true; EvLog ERROR what]
             else [EvCall c1 args false]) ++
            notify_events env what args (between ++ c2 :: behind)
              (h ++ (if callback_raises env h c1 args
                     then [EvCall c1 args true; EvLog ERROR what]
                     else [EvCall c1 args false]))).
    by rewrite Hraise. }
  destruct (notify_events_has_call env what args (between ++ c2 :: behind) c2
              ((tr ++ notify_events env what args before tr) ++
               [EvCall c1 args true; EvLog ERROR what])) as [raised2 Hc2].
  { apply elem_of_app. right. left. }
  eexists s', _, _, raised2. cbv zeta. rewrite <- Hevs.
  split; [exact Hexec|]. split; [exact Hc2|]. split.
  - rewrite calls_of_fan_out_events. unfold callbacks_of. by rewrite Hget.
  - change (_message_handler env py_str (RecvFrame (VDict data) :: rest))
      with (s0 ← get;
            if _running s0 && bool_decide (is_Some (ws s0)) then
              try_or_break (_process_message env py_str (VDict data))
                (fun _ => log ERROR "Error processing WebSocket message")
                ≫= λ go_on : bool,
              if go_on then _message_handler env py_str rest else mret ()
            else mret ()).
    rewrite run_get_bind, Hrun, bool_decide_eq_true_2 by done.
    cbv beta iota delta [andb].
    by erewrite run_bind by (eapply run_try_or_break, Hexec).
Qed.

Lemma raising_callback_is_isolated_witness :
  py_get "type" (VStr "") infy_quote_frame = VStr (kind_name QUOTE) /\
  dict_get (frame_key py_str_none infy_quote_frame) (registry QUOTE two_quote_callbacks.1)
    = Some ([] ++ cb1 :: [] ++ cb2 :: []) /\
  (forall h, callback_raises env_cb1_raises h cb1
               (callback_args QUOTE infy_quote_frame) = true) /\
  _running two_quote_callbacks.1 = true /\
  is_Some (ws two_quote_callbacks.1) /\
  exists s' evs1 evs2 raised2,
    let args := callback_args QUOTE infy_quote_frame in
    let evs := evs1 ++ [EvCall cb1 args true; EvLog ERROR (callback_error_message QUOTE)]
                    ++ evs2 in
    _process_message env_cb1_raises py_str_none (VDict infy_quote_frame)
        two_quote_callbacks.1 two_quote_callbacks.2
      = (Return (), s', two_quote_callbacks.2 ++ evs) /\
    EvCall cb2 args raised2 ∈ evs2 /\
    calls_of evs = map (fun cb => (cb, args)) ([] ++ cb1 :: [] ++ cb2 :: []) /\
    _message_handler env_cb1_raises py_str_none
        (RecvFrame (VDict infy_quote_frame) :: [RecvCancelled])
        two_quote_callbacks.1 two_quote_callbacks.2
      = _message_handler env_cb1_raises py_str_none [RecvCancelled] s'
          (two_quote_callbacks.2 ++ evs).
Proof.
  assert (Hws : is_Some (ws two_quote_callbacks.1)) by (by eexists).
  split; [reflexivity|]. split; [vm_compute; reflexivity|]. split; [reflexivity|].
  split; [reflexivity|]. split; [exact Hws|].
  exact (raising_callback_is_isolated env_cb1_raises py_str_none QUOTE infy_quote_frame
           cb1 cb2 [] [] [] two_quote_callbacks.1 two_quote_callbacks.2 [RecvCancelled]
           eq_refl eq_refl (fun _ => eq_refl) eq_refl Hws).
Defined.

(** C7: processing a frame of type ["quote"] returns normally; it stores the
    whole frame in the quote cache under the frame's key; it writes the LTP
    cache under the same key exactly when the frame has an ["ltp"] field, with
    that field's value, and leaves the LTP cache alone otherwise; it leaves
    the depth cache and the registries alone; and its callback invocations are
    the callbacks registered for (QUOTE, key), once each in registration
    order, with [(exchange, symbol, frame)]: a callback that is registered
    under LTP but not for (QUOTE, key) is not invoked. *)
Theorem quote_frame_effects
    (env : Env) (py_str : Value -> string)
    (data : list (string * Value)) (s : Client) (tr : list Event) :
  py_get "type" (VStr "") data = VStr "quote" ->
  let key := frame_key py_str data in
  let args := [py_get "exchange" (VStr "") data; py_get "symbol" (VStr "") data;
               VDict data] in
  exists s' evs,
    _process_message env py_str (VDict data) s tr = (Return (), s', tr ++ evs) /\
    quote_cache s' = <[key := VDict data]> (quote_cache s) /\
    ltp_cache s' =
      match dict_get "ltp" data with
      | Some ltp => <[key := ltp]> (ltp_cache s)
      | None => ltp_cache s
      end /\
    depth_cache s' = depth_cache s /\
    subscriptions s' = subscriptions s /\
    calls_of evs = map (fun cb => (cb, args)) (callbacks_of QUOTE key s) /\
    (forall cb args', (cb, args') ∈ calls_of evs ->
       cb ∈ callbacks_of QUOTE key s /\ args' = args) /\
    (forall cb key', cb ∈ callbacks_of LTP key' s -> cb ∉ callbacks_of QUOTE key s ->
       forall args', (cb, args') ∉ calls_of evs).
Proof.
  intros Hty key args.
  destruct (dispatch_exec env py_str QUOTE data s tr Hty)
    as (s' & Hexec & Hsame & Hltp & Hquote & Hdepth).
  assert (Hin : forall cb args',
            (cb, args') ∈ map (fun cb => (cb, args)) (callbacks_of QUOTE key s) ->
            cb ∈ callbacks_of QUOTE key s /\ args' = args).
  { intros cb args' H. apply list_elem_of_fmap in H as (cb' & [= -> ->] & Hcb). done. }
  eexists s', _. split; [exact Hexec|]. rewrite calls_of_fan_out_events.
  fold key. change (callback_args QUOTE data) with args.
  split; [exact Hquote|]. split; [exact Hltp|].
  split; [exact Hdepth|]. split; [apply Hsame|]. split; [done|]. split.
  - apply Hin.
  - intros cb key' _ Hnot args' H. apply Hin in H as [? _]. done.
Qed.

Lemma quote_frame_effects_witness :
  py_get "type" (VStr "") infy_quote_frame = VStr "quote" /\
  exists s' evs,
    _process_message env_up py_str_none (VDict infy_quote_frame)
        ltp_and_quote.1 ltp_and_quote.2
      = (Return (), s', ltp_and_quote.2 ++ evs) /\
    get_quote "NSE" "INFY" s' = VDict infy_quote_frame /\
    get_ltp "NSE" "INFY" s' = VFloat (Qmake 3001 2) /\
    calls_of evs = [(cb2, [VStr "NSE"; VStr "INFY"; VDict infy_quote_frame])] /\
    (forall args', (cb1, args') ∉ calls_of evs).
Proof.
  split; [reflexivity|].
  destruct (quote_frame_effects env_up py_str_none infy_quote_frame
              ltp_and_quote.1 ltp_and_quote.2 eq_refl)
    as (s' & evs & Hexec & Hquote & Hltp & _ & _ & Hcalls & _ & Hnot).
  exists s', evs. split; [exact Hexec|]. split; [|split; [|split; [exact Hcalls|]]].
  - unfold get_quote. rewrite Hquote. vm_compute; reflexivity.
  - unfold get_ltp. rewrite Hltp. vm_compute; reflexivity.
  - apply (Hnot cb1 "NSE:INFY"); [vm_compute; left|].
    intros H. vm_compute in H.
    apply elem_of_cons in H as [H|H]; [discriminate H|by apply elem_of_nil in H].
Defined.

(** ** Bounded reconnection *)

Lemma without_logs_app tr1 tr2 :
  without_logs (tr1 ++ tr2) = without_logs tr1 ++ without_logs tr2.
Proof. apply filter_app. Qed.

Lemma try_reconnect_loop_all_fail env n : forall fuel s tr,
  (forall h, connect_ok env (tr ++ h) = false) ->
  connected s = false ->
  _running s = true ->
  reconnect_attempts s + n = max_reconnect_attempts s ->
  n <= fuel ->
  exists s' evs,
    try_reconnect_loop env fuel s tr = (Return (), s', tr ++ evs) /\
    without_logs evs =
      concat (replicate n [EvSleep (reconnect_delay s); EvOpen (ws_url s) false]) /\
    connected s' = false /\
    reconnect_attempts s' = max_reconnect_attempts s /\
    max_reconnect_attempts s' = max_reconnect_attempts s /\
    _running s' = true.
Proof.
  induction n as [|n IH]; intros fuel s tr Hdown Hconn Hrun Hn Hfuel.
  - rewrite try_reconnect_loop_stop.
    + exists s, [EvLog ERROR "Max reconnection attempts reached"].
      repeat split; try done. lia.
    + rewrite bool_decide_eq_false_2 by lia. done.
  - destruct fuel as [|fuel]; [lia|].
    assert (Hcond : bool_decide (reconnect_attempts s < max_reconnect_attempts s)
                    && _running s = true).
    { rewrite Hrun, bool_decide_eq_true_2; [done|lia]. }
    rewrite try_reconnect_loop_pass by done.
    cbv zeta. rewrite Hdown.
    destruct (IH fuel (set_connected false
                         (set_reconnect_attempts (reconnect_attempts s + 1) s))
                (tr ++ failed_attempt_events s))
      as (s' & evs & Hloop & Hevs & Hc & Ha & Hm & Hr).
    + intros h. rewrite <- app_assoc. apply Hdown.
    + done.
    + done.
    + simpl. lia.
    + lia.
    + exists s', (failed_attempt_events s ++ evs).
      rewrite app_assoc. split; [exact Hloop|].
      rewrite without_logs_app, Hevs. by repeat split.
Qed.

(** C2: let the read loop of a reachable, connected client observe a
    transport closure, and let every connect attempt from then on fail.  The
    read loop then returns; between the closure and its return the client
    sleeps 5 time units and tries to connect, five times over, and does
    nothing else but log; it ends not connected with the attempt counter at 5,
    and a further run of the reconnection procedure makes no attempt.
    Whenever the should-be-running flag is not set, the reconnection loop
    makes no attempt at all. *)
Theorem reconnect_gives_up_after_five
    (env : Env) (py_str : Value -> string) (s : Client) (tr : list Event)
    (rest : list Recv) :
  reachable env py_str s tr ->
  connected s = true ->
  (forall h, connect_ok env (tr ++ h) = false) ->
  (exists s' evs,
     _message_handler env py_str (RecvClosed :: rest) s tr = (Return (), s', tr ++ evs) /\
     without_logs evs = concat (replicate 5 [EvSleep 5; EvOpen (ws_url s) false]) /\
     connected s' = false /\
     reconnect_attempts s' = 5 /\
     _try_reconnect env s' (tr ++ evs) =
       (Return (), s', (tr ++ evs) ++ [EvLog ERROR "Max reconnection attempts reached"])) /\
  (forall fuel s0 tr0,
     _running s0 = false ->
     try_reconnect_loop env fuel s0 tr0 =
       (Return (), s0, tr0 ++ [EvLog ERROR "Max reconnection attempts reached"])).
Proof.
  intros Hreach Hconn Hdown. split.
  2: { intros fuel s0 tr0 Hr. apply try_reconnect_loop_stop. rewrite Hr.
       apply andb_false_r. }
  apply reachable_distinct in Hreach as [(Hmax & Hdelay & Hlive) _].
  destruct (Hlive Hconn) as (Hws & Hatt & Hrun).
  change (_message_handler env py_str (RecvClosed :: rest))
    with (s0 ← get;
          if _running s0 && bool_decide (is_Some (ws s0)) then
            log WARNING "WebSocket connection closed";;
            modify (set_connected false);;
            _try_reconnect env
          else mret ()).
  rewrite run_get_bind, Hrun, bool_decide_eq_true_2 by done.
  cbv beta iota delta [andb]. run. unfold _try_reconnect at 1. rewrite run_get_bind.
  destruct (try_reconnect_loop_all_fail env 5
              (max_reconnect_attempts (set_connected false s)
               - reconnect_attempts (set_connected false s))
              (set_connected false s)
              (tr ++ [EvLog WARNING "WebSocket connection closed"]))
    as (s' & evs & Hloop & Hevs & Hc & Ha & Hm & Hr).
  { intros h. rewrite <- app_assoc. apply Hdown. }
  { done. }
  { exact Hrun. }
  { simpl. lia. }
  { simpl. lia. }
  exists s', (EvLog WARNING "WebSocket connection closed" :: evs).
  simpl in Hevs, Ha, Hm. rewrite Hdelay in Hevs.
  split; [|split; [|split; [|split]]].
  - rewrite Hloop. by rewrite <- app_assoc.
  - exact Hevs.
  - exact Hc.
  - lia.
  - unfold _try_reconnect. rewrite run_get_bind. apply try_reconnect_loop_stop.
    rewrite bool_decide_eq_false_2 by lia. done.
Qed.

Lemma reconnect_gives_up_after_five_witness :
  reachable env_drops py_str_none connected_then_dropped.1 connected_then_dropped.2 /\
  connected connected_then_dropped.1 = true /\
  (forall h, connect_ok env_drops (connected_then_dropped.2 ++ h) = false) /\
  exists s' evs,
    _message_handler env_drops py_str_none [RecvClosed]
        connected_then_dropped.1 connected_then_dropped.2
      = (Return (), s', connected_then_dropped.2 ++ evs) /\
    without_logs evs =
      concat (replicate 5 [EvSleep 5; EvOpen (ws_url connected_then_dropped.1) false]) /\
    connected s' = false /\
    reconnect_attempts s' = 5 /\
    _try_reconnect env_drops s' (connected_then_dropped.2 ++ evs) =
      (Return (), s',
       (connected_then_dropped.2 ++ evs)
       ++ [EvLog ERROR "Max reconnection attempts reached"]).
Proof.
  assert (Hreach : reachable env_drops py_str_none
                     connected_then_dropped.1 connected_then_dropped.2).
  { apply (reachable_step env_drops py_str_none OpConnect fresh [] (Return ()));
      [apply reachable_init|vm_compute; reflexivity]. }
  assert (Hdown : forall h,
            connect_ok env_drops (connected_then_dropped.2 ++ h) = false)
    by (intros h; reflexivity).
  split; [exact Hreach|]. split; [reflexivity|]. split; [exact Hdown|].
  exact (proj1 (reconnect_gives_up_after_five env_drops py_str_none
                  connected_then_dropped.1 connected_then_dropped.2 []
                  Hreach eq_refl Hdown)).
Defined.

(** ** Resubscription after a reconnect *)

Lemma split_on_absent sep s : contains sep s = false -> split_on sep s = [s].
Proof.
  induction s as [|c s IH]; simpl; [done|].
  intros H. apply orb_false_iff in H as [Hc Hs]. rewrite Hc, IH; done.
Qed.

Lemma split_on_first sep e rest :
  contains sep e = false ->
  split_on sep (e ++ String sep rest)%string = e :: split_on sep rest.
Proof.
  induction e as [|c e IH]; simpl.
  - intros _. by rewrite Ascii.eqb_refl.
  - intros H. apply orb_false_iff in H as [Hc He]. by rewrite Hc, IH.
Qed.

Lemma resubscribe_message_colon_free k exchange symbol :
  contains ":" exchange = false ->
  contains ":" symbol = false ->
  resubscribe_message k (_get_symbol_key exchange symbol) =
    Some (wire_message "subscribe" (kind_name k) exchange symbol).
Proof.
  intros He Hs. unfold resubscribe_message, split_colon, _get_symbol_key.
  change (":" ++ symbol)%string with (String ":" symbol).
  by rewrite split_on_first, split_on_absent.
Qed.

(** ** Observations on the events of the reconnection *)

Lemma opens_of_app tr1 tr2 : opens_of (tr1 ++ tr2) = opens_of tr1 ++ opens_of tr2.
Proof. apply omap_app. Qed.

Lemma sleeps_of_app tr1 tr2 : sleeps_of (tr1 ++ tr2) = sleeps_of tr1 ++ sleeps_of tr2.
Proof. apply omap_app. Qed.

Lemma attempts_of_app tr1 tr2 :
  attempts_of (tr1 ++ tr2) = attempts_of tr1 ++ attempts_of tr2.
Proof. apply filter_app. Qed.

Lemma for_each_emits {A} (P : Event -> Prop) (xs : list A) (body : A -> M unit) :
  (forall x s tr, exists o evs,
      body x s tr = (o, s, tr ++ evs) /\ Forall P evs /\ o <> OutOfFuel) ->
  forall s tr, exists o evs,
      for_each xs body s tr = (o, s, tr ++ evs) /\ Forall P evs /\ o <> OutOfFuel.
Proof.
  intros Hbody. induction xs as [|x xs IH]; intros s tr; simpl.
  - exists (Return ()), []. by rewrite app_nil_r.
  - destruct (Hbody x s tr) as (o & evs & Hx & HP & Ho).
    destruct o as [[]|e| |]; [| | |done].
    + rewrite (run_bind _ _ _ _ _ _ _ Hx).
      destruct (IH s (tr ++ evs)) as (o' & evs' & -> & HP' & Ho').
      exists o', (evs ++ evs'). rewrite app_assoc. split; [done|].
      split; [by apply Forall_app|done].
    + rewrite (run_bind_raise _ _ _ _ _ _ _ Hx). by exists (Raise e), evs.
    + rewrite (run_bind_cancelled _ _ _ _ _ _ Hx). by exists Cancelled, evs.
Qed.

(** Whatever its outcome, [_resubscribe_all] only sends and logs. *)
Lemma _resubscribe_all_emits env s tr :
  exists o evs,
    _resubscribe_all env s tr = (o, s, tr ++ evs) /\
    opens_of evs = [] /\ sleeps_of evs = [] /\ attempts_of evs = [] /\
    o <> OutOfFuel.
Proof.
  set (P := fun e : Event =>
              match e with EvSend _ _ | EvLog _ _ => True | _ => False end).
  assert (HP : forall evs, Forall P evs ->
            opens_of evs = [] /\ sleeps_of evs = [] /\ attempts_of evs = []).
  { induction 1 as [|e evs He _ (IH1 & IH2 & IH3)]; [done|].
    destruct e; try done; unfold opens_of, sleeps_of, attempts_of in *; simpl;
      by rewrite ?IH1, ?IH2, ?IH3. }
  assert (H : exists o evs,
             _resubscribe_all env s tr = (o, s, tr ++ evs) /\ Forall P evs
             /\ o <> OutOfFuel).
  { unfold _resubscribe_all. apply for_each_emits. clear s tr.
    intros k s tr. rewrite run_get_bind. apply for_each_emits. clear s tr.
    intros key s tr.
    destruct (split_colon key) as [|exchange [|symbol [|? ?]]];
      try by (exists (Raise ValueError), []; rewrite app_nil_r).
    unfold _send_subscribe, ws_send. run_m.
    destruct (connected s); simpl;
      [|exists (Return ()), []; by rewrite app_nil_r].
    destruct (bool_decide (is_Some (ws s))); simpl;
      [|exists (Return ()), []; by rewrite app_nil_r].
    destruct (send_cancelled env tr _); simpl.
    { eexists Cancelled, _. split; [reflexivity|]. by repeat constructor. }
    destruct (send_ok env tr _); simpl.
    - eexists (Return ()), _. split; [reflexivity|]. by repeat constructor.
    - eexists (Return ()), [_; _]. rewrite <- app_assoc.
      split; [reflexivity|]. by repeat constructor. }
  destruct H as (o & evs & Hrun & Hall & Ho). destruct (HP evs Hall) as (? & ? & ?).
  by exists o, evs.
Qed.

Section Resubscribe.
Variable env : Env.
Variable py_str : Value -> string.
Context {Hnc : uncancelled env}.

Lemma sends_of_send_events action sub_type exchange symbol s tr :
  connected s = true -> is_Some (ws s) ->
  sends_of (send_events env action sub_type exchange symbol s tr) =
    [wire_message action sub_type exchange symbol].
Proof.
  intros Hc Hws. unfold send_events. rewrite Hc, bool_decide_eq_true_2 by done.
  simpl. by destruct (send_ok env tr _).
Qed.

Lemma resubscribe_keys_exec k keys s : forall tr,
  connected s = true -> is_Some (ws s) ->
  Forall (fun key => is_Some (resubscribe_message k key)) keys ->
  exists evs,
    for_each keys (fun key =>
      match split_colon key with
      | [exchange; symbol] =>
          _send_subscribe env (kind_name k) exchange symbol;; mret ()
      | _ => raise ValueError
      end) s tr = (Return (), s, tr ++ evs) /\
    sends_of evs = omap (resubscribe_message k) keys.
Proof.
  intros tr Hc Hws Hall. revert tr.
  induction Hall as [|key keys Hkey _ IH]; intros tr.
  - exists []. by rewrite app_nil_r.
  - change (for_each (key :: keys) ?body) with (body key;; for_each keys body).
    unfold resubscribe_message in Hkey |- *. simpl omap.
    destruct (split_colon key) as [|exchange [|symbol [|? ?]]];
      try by (destruct Hkey as [? [=]]).
    destruct (_send_subscribe_exec env (kind_name k) exchange symbol s tr) as [b Hb].
    rewrite run_bind_bind, (run_bind _ _ _ _ _ _ _ Hb), run_ret_bind.
    destruct (IH (tr ++ send_events env "subscribe" (kind_name k) exchange symbol s tr))
      as (evs & -> & Hsends).
    eexists (_ ++ evs). rewrite app_assoc. split; [done|].
    rewrite sends_of_app, sends_of_send_events, Hsends by done. done.
Qed.

Lemma _resubscribe_all_exec s tr :
  connected s = true -> is_Some (ws s) ->
  (forall k key, key ∈ dict_keys (registry k s) -> is_Some (resubscribe_message k key)) ->
  exists evs,
    _resubscribe_all env s tr = (Return (), s, tr ++ evs) /\
    sends_of evs = resubscribe_messages s.
Proof.
  intros Hc Hws Hall. unfold _resubscribe_all, resubscribe_messages, all_kinds.
  assert (Hk : forall k tr0, exists evs,
            (s0 ← get;
             for_each (dict_keys (registry k s0)) (fun key =>
               match split_colon key with
               | [exchange; symbol] =>
                   _send_subscribe env (kind_name k) exchange symbol;; mret ()
               | _ => raise ValueError
               end)) s tr0 = (Return (), s, tr0 ++ evs) /\
            sends_of evs = omap (resubscribe_message k) (dict_keys (registry k s))).
  { intros k tr0. rewrite run_get_bind. apply resubscribe_keys_exec; [done..|].
    apply Forall_forall. intros key Hkey. by apply Hall. }
  change (for_each [LTP; QUOTE; DEPTH] ?body)
    with (body LTP;; body QUOTE;; body DEPTH;; mret ()).
  destruct (Hk LTP tr) as (e1 & H1 & S1). rewrite (run_bind _ _ _ _ _ _ _ H1).
  destruct (Hk QUOTE (tr ++ e1)) as (e2 & H2 & S2). rewrite (run_bind _ _ _ _ _ _ _ H2).
  destruct (Hk DEPTH ((tr ++ e1) ++ e2)) as (e3 & H3 & S3).
  rewrite (run_bind _ _ _ _ _ _ _ H3), run_ret.
  exists (e1 ++ e2 ++ e3). rewrite !app_assoc. split; [done|].
  rewrite !sends_of_app, S1, S2, S3. simpl. by rewrite app_nil_r, app_assoc.
Qed.

Lemma try_reconnect_loop_resubscribes fuel : forall s tr,
  connected s = false ->
  (forall k key, key ∈ dict_keys (registry k s) -> is_Some (resubscribe_message k key)) ->
  exists o s' evs,
    try_reconnect_loop env fuel s tr = (o, s', tr ++ evs) /\
    subscriptions s' = subscriptions s /\
    (connected s' = true -> o = Return () /\ sends_of evs = resubscribe_messages s).
Proof.
  induction fuel as [|fuel IH]; intros s tr Hconn Hkeys;
    destruct (bool_decide (reconnect_attempts s < max_reconnect_attempts s) && _running s)
      eqn:Hcond.
  - simpl. rewrite run_get_bind, Hcond. exists OutOfFuel, s, [].
    rewrite app_nil_r. split; [done|]. split; [done|]. by rewrite Hconn.
  - rewrite try_reconnect_loop_stop by done. do 3 eexists.
    split; [done|]. split; [done|]. by rewrite Hconn.
  - rewrite try_reconnect_loop_pass by done. cbv zeta.
    destruct (connect_ok env _).
    + edestruct _resubscribe_all_exec as (evs & -> & Hsends); [| |exact Hkeys|].
      * reflexivity.
      * simpl. eauto.
      * eexists _, _,
          ([EvLog INFO "Reconnection attempt"; EvSleep (reconnect_delay s);
            EvLog INFO "Connecting to OpenAlgo WebSocket"; EvOpen (ws_url s) true;
            EvCreateTask; EvLog INFO "WebSocket connected successfully"] ++ evs).
        split; [by rewrite <- !app_assoc|].
        split; [done|]. intros _. split; [done|].
        rewrite sends_of_app. exact Hsends.
    + destruct (IH (set_connected false
                      (set_reconnect_attempts (reconnect_attempts s + 1) s))
                  (tr ++ failed_attempt_events s) eq_refl Hkeys)
        as (o & s' & evs & -> & Hsub & Hres).
      eexists o, s', (failed_attempt_events s ++ evs). rewrite app_assoc.
      split; [done|]. split; [exact Hsub|].
      intros Hc. destruct (Hres Hc) as [-> Hsends]. split; [done|].
      by rewrite sends_of_app.
  - rewrite try_reconnect_loop_stop by done. do 3 eexists.
    split; [done|]. split; [done|]. by rewrite Hconn.
Qed.

(** The loop on a network that refuses [n] attempts and accepts the next,
    within the budget: it ends connected after those attempts. *)
Lemma try_reconnect_loop_succeeds n : forall fuel s tr,
  connected s = false ->
  _running s = true ->
  reconnect_attempts s + n < max_reconnect_attempts s ->
  max_reconnect_attempts s - reconnect_attempts s <= fuel ->
  (forall j, j < n ->
     connect_ok env (tr ++ concat (replicate j (failed_attempt_events s))
                        ++ attempt_prelude s) = false) ->
  connect_ok env (tr ++ concat (replicate n (failed_attempt_events s))
                     ++ attempt_prelude s) = true ->
  exists o s' evs,
    try_reconnect_loop env fuel s tr = (o, s', tr ++ evs) /\
    connected s' = true /\
    opens_of evs = replicate n false ++ [true].
Proof.
  induction n as [|n IH]; intros fuel s tr Hconn Hrun Hn Hfuel Hfail Hok;
    (destruct fuel as [|fuel]; [lia|]);
    (rewrite try_reconnect_loop_pass;
       [|rewrite Hrun, bool_decide_eq_true_2; [done|lia]|done]);
    cbv zeta.
  - simpl in Hok. unfold attempt_prelude in Hok. rewrite Hok.
    edestruct _resubscribe_all_emits as (o & evs & -> & Hopens & _).
    eexists o, _,
      ([EvLog INFO "Reconnection attempt"; EvSleep (reconnect_delay s);
        EvLog INFO "Connecting to OpenAlgo WebSocket"; EvOpen (ws_url s) true;
        EvCreateTask; EvLog INFO "WebSocket connected successfully"] ++ evs).
    split; [by rewrite <- !app_assoc|]. split; [done|].
    by rewrite opens_of_app, Hopens.
  - pose proof (Hfail 0 ltac:(lia)) as H0. simpl in H0. unfold attempt_prelude in H0.
    rewrite H0.
    destruct (IH fuel (set_connected false
                         (set_reconnect_attempts (reconnect_attempts s + 1) s))
                (tr ++ failed_attempt_events s) eq_refl Hrun)
      as (o & s' & evs & -> & Hc & Hopens).
    + simpl. lia.
    + simpl. lia.
    + intros j Hj. specialize (Hfail (S j) ltac:(lia)).
      rewrite <- app_assoc. exact Hfail.
    + rewrite <- app_assoc. exact Hok.
    + exists o, s', (failed_attempt_events s ++ evs). rewrite app_assoc.
      split; [done|]. split; [exact Hc|]. by rewrite opens_of_app, Hopens.
Qed.
End Resubscribe.

(** X20: What holds of the resubscription.  A reachable, connected client
    loses its connection; every key it holds splits on [":"] into exactly
    two parts (which is so when neither the exchange nor the symbol has a
    colon in it, [resubscribe_message_colon_free]); the network refuses the
    first [n] reconnect attempts and accepts the next one, within the budget
    of five; no send is cancelled.  Then the read loop returns with the
    client connected again, after those [n + 1] attempts; the frames handed
    to the transport between the loss and the return are the subscribe
    requests of the held keys, one per kind and key in the order of the
    registry; and the registry is as it was, its keys distinct. *)
Theorem reconnect_resubscribes_two_part_keys
    (env : Env) (py_str : Value -> string) (s : Client) (tr : list Event)
    (rest : list Recv) (n : nat) :
  uncancelled env ->
  reachable env py_str s tr ->
  connected s = true ->
  (forall k key, key ∈ dict_keys (registry k s) -> is_Some (resubscribe_message k key)) ->
  n < 5 ->
  (forall j, j < n -> connect_ok env (reconnect_history s tr j) = false) ->
  connect_ok env (reconnect_history s tr n) = true ->
  exists s' evs,
    _message_handler env py_str (RecvClosed :: rest) s tr = (Return (), s', tr ++ evs) /\
    connected s' = true /\
    opens_of evs = replicate n false ++ [true] /\
    sends_of evs = resubscribe_messages s /\
    subscriptions s' = subscriptions s /\
    (forall k, NoDup (dict_keys (registry k s))).
Proof.
  intros Hnc Hreach Hconn Hkeys Hn Hfail Hok.
  apply reachable_distinct in Hreach as [(Hmax & _ & Hlive) Hreg].
  destruct (Hlive Hconn) as (Hws & Hatt & Hrun).
  change (_message_handler env py_str (RecvClosed :: rest))
    with (s0 ← get;
          if _running s0 && bool_decide (is_Some (ws s0)) then
            log WARNING "WebSocket connection closed";;
            modify (set_connected false);;
            _try_reconnect env
          else mret ()).
  rewrite run_get_bind, Hrun, bool_decide_eq_true_2 by done.
  cbv beta iota delta [andb]. run. unfold _try_reconnect. rewrite run_get_bind.
  destruct (try_reconnect_loop_resubscribes env
              (max_reconnect_attempts (set_connected false s)
               - reconnect_attempts (set_connected false s))
              (set_connected false s)
              (tr ++ [EvLog WARNING "WebSocket connection closed"]) eq_refl Hkeys)
    as (o & s' & evs & Hloop & Hsub & Hres).
  destruct (try_reconnect_loop_succeeds env n
              (max_reconnect_attempts (set_connected false s)
               - reconnect_attempts (set_connected false s))
              (set_connected false s)
              (tr ++ [EvLog WARNING "WebSocket connection closed"]) eq_refl Hrun)
    as (o2 & s2 & evs2 & Hloop2 & Hc2 & Hopens).
  { simpl. lia. }
  { done. }
  { exact Hfail. }
  { exact Hok. }
  rewrite Hloop in Hloop2. injection Hloop2 as <- <- Hevs.
  apply app_inv_head in Hevs as <-.
  destruct (Hres Hc2) as [-> Hsends].
  exists s', (EvLog WARNING "WebSocket connection closed" :: evs).
  rewrite Hloop, <- app_assoc. split; [done|]. split; [exact Hc2|].
  split; [exact Hopens|]. split; [exact Hsends|]. split; [exact Hsub|].
  intros k. by destruct (Hreg k).
Qed.

(** A run of the above: the first reconnect attempt is refused, the second
    is accepted, and the two held keys are resubscribed, once each. *)
Example reconnect_second_attempt_resubscribes :
  let '(o, s', tr') :=
    _message_handler env_flaky py_str_none [RecvClosed]
      two_kinds_scenario.1 two_kinds_scenario.2 in
  o = Return () /\
  connected s' = true /\
  without_logs (drop (length two_kinds_scenario.2) tr') =
    [EvSleep 5; EvOpen "ws://127.0.0.1:8765" false;
     EvSleep 5; EvOpen "ws://127.0.0.1:8765" true; EvCreateTask;
     EvSend (wire_message "subscribe" "ltp" "NSE" "INFY") true;
     EvSend (wire_message "subscribe" "quote" "NSE" "TCS") true].
Proof. vm_compute. repeat split. Qed.

(** C1: the resubscription fails on a key with more than one colon.  A
    connected client subscribes LTP for [("NSE", "NIFTY:FUT")] and then for
    [("NSE", "INFY")]; both subscribe requests go out.  The connection is
    lost and the first reconnect attempt succeeds.  [_resubscribe_all] then
    unpacks ["NSE:NIFTY:FUT".split(":")], three parts, into two names: it
    raises [ValueError], which leaves the read loop; both keys are still in
    the registry and no subscribe request has been re-issued for either. *)
Theorem resubscribe_all_breaks_on_colon_in_symbol :
  reachable env_up py_str_none colon_scenario.1 colon_scenario.2 /\
  connected colon_scenario.1 = true /\
  dict_keys (registry LTP colon_scenario.1) = ["NSE:NIFTY:FUT"; "NSE:INFY"] /\
  sends_of colon_scenario.2 =
    [wire_message "subscribe" "ltp" "NSE" "NIFTY:FUT";
     wire_message "subscribe" "ltp" "NSE" "INFY"] /\
  let '(o, s', tr') :=
    _message_handler env_up py_str_none [RecvClosed] colon_scenario.1 colon_scenario.2 in
  o = Raise ValueError /\
  connected s' = true /\
  dict_keys (registry LTP s') = ["NSE:NIFTY:FUT"; "NSE:INFY"] /\
  take (length colon_scenario.2) tr' = colon_scenario.2 /\
  sends_of (drop (length colon_scenario.2) tr') = [].
Proof.
  split.
  { apply (reachable_step env_up py_str_none (OpSubscribe LTP "NSE" "INFY" cb1)
             (after (connect env_up;; subscribe_ltp env_up "NSE" "NIFTY:FUT" cb1)).1
             (after (connect env_up;; subscribe_ltp env_up "NSE" "NIFTY:FUT" cb1)).2
             (Return ())); [|vm_compute; reflexivity].
    apply (reachable_step env_up py_str_none (OpSubscribe LTP "NSE" "NIFTY:FUT" cb1)
             (after (connect env_up)).1 (after (connect env_up)).2 (Return ()));
      [|vm_compute; reflexivity].
    apply (reachable_step env_up py_str_none OpConnect fresh [] (Return ()));
      [apply reachable_init|vm_compute; reflexivity]. }
  vm_compute. repeat split.
Qed.

(** * Further properties of the code *)

(** ** Symbol keys *)

Lemma length_split_on sep s : length (split_on sep s) = S (occurrences sep s).
Proof.
  induction s as [|c s IH]; simpl; [done|].
  destruct (Ascii.eqb c sep); simpl; [by rewrite IH|].
  destruct (split_on sep s); simpl in *; done.
Qed.

Lemma occurrences_app c s1 s2 :
  occurrences c (s1 ++ s2)%string = occurrences c s1 + occurrences c s2.
Proof. induction s1 as [|c1 s1 IH]; simpl; [done|]. rewrite IH. lia. Qed.

Lemma contains_occurrences c s : contains c s = false <-> occurrences c s = 0.
Proof.
  induction s as [|c' s IH]; simpl; [done|].
  destruct (Ascii.eqb c' c); simpl; [split; [done|lia]|done].
Qed.

(** X1: The key of an exchange and a symbol splits back into the two on [":"]
    exactly when neither of them has a colon in it: [_resubscribe_all]
    recovers the pair it needs from such keys and from no others. *)
Theorem symbol_key_split_round_trip (exchange symbol : string) :
  split_colon (_get_symbol_key exchange symbol) = [exchange; symbol] <->
  contains ":" exchange = false /\ contains ":" symbol = false.
Proof.
  split.
  - intros Hsplit.
    assert (Hlen : length (split_colon (_get_symbol_key exchange symbol)) = 2)
      by (by rewrite Hsplit).
    unfold split_colon, _get_symbol_key in Hlen.
    rewrite length_split_on, !occurrences_app in Hlen. simpl in Hlen.
    split; apply contains_occurrences; lia.
  - intros [He Hs]. unfold split_colon, _get_symbol_key.
    change (":" ++ symbol)%string with (String ":" symbol).
    by rewrite split_on_first, split_on_absent.
Qed.

(** X2: Two pairs whose exchanges have no colon have the same key only when they
    are the same pair: such pairs never share a registry or cache entry. *)
Theorem symbol_key_injective (exchange1 symbol1 exchange2 symbol2 : string) :
  contains ":" exchange1 = false ->
  contains ":" exchange2 = false ->
  _get_symbol_key exchange1 symbol1 = _get_symbol_key exchange2 symbol2 ->
  exchange1 = exchange2 /\ symbol1 = symbol2.
Proof.
  unfold _get_symbol_key.
  change (":" ++ symbol1)%string with (String ":" symbol1).
  change (":" ++ symbol2)%string with (String ":" symbol2).
  revert exchange2.
  induction exchange1 as [|c1 e1 IH]; intros [|c2 e2]; simpl; intros H1 H2 Heq.
  - injection Heq as Heq. by subst.
  - injection Heq as Hc _. subst c2. by rewrite Ascii.eqb_refl in H2.
  - injection Heq as Hc _. subst c1. by rewrite Ascii.eqb_refl in H1.
  - injection Heq as Hc Heq. subst c2.
    apply orb_false_iff in H1 as [_ H1]. apply orb_false_iff in H2 as [_ H2].
    destruct (IH e2 H1 H2 Heq) as [-> ->]. done.
Qed.

Lemma symbol_key_injective_witness :
  contains ":" "NSE" = false /\ contains ":" "NSE" = false /\
  _get_symbol_key "NSE" "INFY" = _get_symbol_key "NSE" "INFY" /\
  "NSE" = "NSE" /\ "INFY" = "INFY".
Proof.
  split; [reflexivity|]. split; [reflexivity|]. split; [reflexivity|].
  exact (symbol_key_injective "NSE" "INFY" "NSE" "INFY" eq_refl eq_refl eq_refl).
Defined.

(** ** [connect] and [disconnect] *)

(** X3: [connect] never raises; its result says whether the client is connected
    when it returns; it touches neither the registry nor the caches; and it
    hands nothing to [ws.send]: keys registered while the client was not
    connected are not announced by a later [connect].  A successful attempt
    leaves a socket, the running flag set and the attempt counter at 0; on a
    connected client [connect] does nothing at all. *)
Theorem connect_reports_connection_state (env : Env) (s : Client) (tr : list Event) :
  exists b s' evs,
    connect env s tr = (Return b, s', tr ++ evs) /\
    connected s' = b /\
    same_data s s' /\
    sends_of evs = [] /\
    (connected s = false -> b = true ->
     is_Some (ws s') /\ reconnect_attempts s' = 0 /\ _running s' = true) /\
    (connected s = true -> b = true /\ s' = s /\ evs = []).
Proof.
  rewrite connect_exec. destruct (connected s) eqn:Hc.
  - exists true, s, []. rewrite app_nil_r. split; [done|]. split; [done|].
    split; [apply same_data_refl|]. by repeat split.
  - cbv zeta. destruct (connect_ok env _).
    + eexists true, _,
        [EvLog INFO "Connecting to OpenAlgo WebSocket"; EvOpen (ws_url s) true;
         EvCreateTask; EvLog INFO "WebSocket connected successfully"].
      split; [by rewrite <- !app_assoc|]. split; [done|]. split; [by repeat split|].
      split; [done|]. split; [|done]. intros _ _. simpl. eauto.
    + eexists false, _,
        [EvLog INFO "Connecting to OpenAlgo WebSocket"; EvOpen (ws_url s) false;
         EvLog ERROR "WebSocket connection failed"].
      split; [by rewrite <- !app_assoc|]. split; [done|]. split; [by repeat split|].
      split; [done|]. split; done.
Qed.

Lemma connect_keeps_subscriptions env s tr :
  exists b s' evs,
    connect env s tr = (Return b, s', tr ++ evs) /\
    connected s' = b /\ subscriptions s' = subscriptions s /\ sends_of evs = [].
Proof.
  rewrite connect_exec. destruct (connected s) eqn:Hc.
  - exists true, s, []. by rewrite app_nil_r.
  - cbv zeta. destruct (connect_ok env _).
    + eexists true, _,
        [EvLog INFO "Connecting to OpenAlgo WebSocket"; EvOpen (ws_url s) true;
         EvCreateTask; EvLog INFO "WebSocket connected successfully"].
      split; [by rewrite <- !app_assoc|]. done.
    + eexists false, _,
        [EvLog INFO "Connecting to OpenAlgo WebSocket"; EvOpen (ws_url s) false;
         EvLog ERROR "WebSocket connection failed"].
      split; [by rewrite <- !app_assoc|]. done.
Qed.

(** X4: A subscription made while the client is not connected is recorded
    without any event, and a following [connect], successful or not, sends no
    subscribe request for it: the key is held locally while nothing was ever
    handed to the transport. *)
Theorem offline_subscription_is_never_sent
    (env : Env) (k : SubKind) (exchange symbol : string) (cb : Callback)
    (s : Client) (tr : list Event) :
  connected s = false ->
  exists s1 b s2 evs,
    subscribe env k exchange symbol cb s tr = (Return true, s1, tr) /\
    connect env s1 tr = (Return b, s2, tr ++ evs) /\
    connected s2 = b /\
    cb ∈ callbacks_of k (_get_symbol_key exchange symbol) s2 /\
    sends_of evs = [].
Proof.
  intros Hc. set (key := _get_symbol_key exchange symbol).
  destruct (connect_keeps_subscriptions env
              (update_registry k (subscribe_reg key cb) s) tr)
    as (b & s2 & evs & Hconn & Hb & Hsub & Hsends).
  exists (update_registry k (subscribe_reg key cb) s), b, s2, evs.
  split; [|split; [exact Hconn|split; [exact Hb|split; [|exact Hsends]]]].
  - apply subscribe_silent_exec. by left.
  - unfold callbacks_of, registry. rewrite Hsub.
    fold (registry k (update_registry k (subscribe_reg key cb) s)).
    rewrite registry_update.
    destruct (subscribe_reg_lookup key cb (registry k s)) as (cbs & -> & Hin). done.
Qed.

Lemma offline_subscription_is_never_sent_witness :
  connected fresh = false /\
  exists s1 b s2 evs,
    subscribe env_up LTP "NSE" "INFY" cb1 fresh [] = (Return true, s1, []) /\
    connect env_up s1 [] = (Return b, s2, [] ++ evs) /\
    connected s2 = b /\
    cb1 ∈ callbacks_of LTP (_get_symbol_key "NSE" "INFY") s2 /\
    sends_of evs = [].
Proof.
  split; [reflexivity|].
  exact (offline_subscription_is_never_sent env_up LTP "NSE" "INFY" cb1 fresh [] eq_refl).
Defined.

(** X5: After [disconnect] has returned, the read loop processes nothing,
    whatever arrives: no cache is written and no callback fires for a frame
    received after an explicit disconnect.  [disconnect] itself never raises
    and invokes no callback. *)
Theorem no_frame_is_processed_after_disconnect
    (env : Env) (py_str : Value -> string) (s : Client) (tr : list Event)
    (inbox : list Recv) :
  exists s' evs,
    disconnect s tr = (Return (), s', tr ++ evs) /\
    calls_of evs = [] /\
    _message_handler env py_str inbox s' (tr ++ evs) = (Return (), s', tr ++ evs).
Proof.
  destruct (disconnect_exec s tr)
    as (s' & evs & Hrun & _ & _ & _ & Hr & _ & _ & _ & _ & _ & _ & Hcalls).
  exists s', evs. split; [exact Hrun|]. split; [exact Hcalls|].
  destruct inbox as [|r rest]; simpl; rewrite run_get_bind, Hr; reflexivity.
Qed.

(** X6: [disconnect] is idempotent on the client: a second call leaves the client
    as the first left it, and closes no transport (there is none any more). *)
Theorem disconnect_twice_is_disconnect_once (s : Client) (tr : list Event) :
  exists s' evs evs',
    disconnect s tr = (Return (), s', tr ++ evs) /\
    disconnect s' (tr ++ evs) = (Return (), s', (tr ++ evs) ++ evs') /\
    EvClose ∉ evs'.
Proof.
  set (s' := set_subscriptions empty_subscriptions
               (set_connected false (set_ws None (set_running false s)))).
  assert (H1 : exists evs, disconnect s tr = (Return (), s', tr ++ evs)).
  { assert (Hnone : ws s = None ->
              set_subscriptions empty_subscriptions
                (set_connected false (set_running false s)) = s').
    { intros Hws. destruct s; simpl in *; subst; reflexivity. }
    unfold disconnect. run. simpl.
    destruct (_message_task s) eqn:Htask; run; simpl;
      destruct (ws s) eqn:Hws; run; simpl; rewrite <- ?app_assoc; simpl;
      rewrite ?Hnone by done; eexists; reflexivity. }
  destruct H1 as [evs H1]. exists s', evs.
  assert (H2 : exists evs', disconnect s' (tr ++ evs) = (Return (), s', (tr ++ evs) ++ evs')
                            /\ EvClose ∉ evs').
  { unfold disconnect. run. simpl.
    destruct (_message_task s) eqn:Htask; run; simpl; run; simpl.
    - exists [EvCancelTask; EvLog INFO "WebSocket disconnected"].
      split; [by rewrite <- !app_assoc|].
      intros H. repeat (apply elem_of_cons in H as [H|H]; [discriminate H|]).
      by apply elem_of_nil in H.
    - exists [EvLog INFO "WebSocket disconnected"]. split; [done|].
      intros H. repeat (apply elem_of_cons in H as [H|H]; [discriminate H|]).
      by apply elem_of_nil in H. }
  destruct H2 as (evs' & H2 & Hclose). exists evs'. done.
Qed.

(** ** [subscribe_*] and [unsubscribe_*] *)

Lemma dict_del_absent {V} (k : string) (d : list (string * V)) :
  dict_get k d = None -> dict_del k d = d.
Proof.
  induction d as [|[k0 v0] d IH]; simpl; [done|].
  destruct (String.eqb k k0); [done|]. intros H. f_equal. auto.
Qed.

Lemma remove_first_filter (cb : Callback) (l : list Callback) :
  NoDup l -> remove_first cb l = filter (fun c => c <> cb) l.
Proof.
  induction 1 as [|y l Hy Hl IH]; simpl; [done|].
  rewrite filter_cons. case_bool_decide as Heq.
  - subst y. rewrite decide_False by tauto. clear IH. induction l as [|z l IH]; [done|].
    apply not_elem_of_cons in Hy as [Hne Hy]. apply NoDup_cons in Hl as [_ Hl].
    rewrite filter_cons, decide_True by congruence. f_equal. auto.
  - rewrite decide_True by congruence. f_equal. exact IH.
Qed.

Lemma reachable_registry_item env py_str `{!uncancelled env} s tr k key cbs :
  reachable env py_str s tr ->
  dict_get key (registry k s) = Some cbs ->
  cbs <> [] /\ NoDup cbs.
Proof.
  intros Hreach Hget. apply (reachable_wf env py_str) in Hreach as [_ Hreg].
  destruct (Hreg k) as [_ Hitems]. apply dict_get_Some_elem in Hget.
  exact (Hitems _ _ Hget).
Qed.

Lemma reachable_registry_NoDup env py_str s tr k key cbs :
  reachable env py_str s tr ->
  dict_get key (registry k s) = Some cbs ->
  NoDup cbs.
Proof.
  intros Hreach Hget. apply reachable_distinct in Hreach as [_ Hreg].
  destruct (Hreg k) as [_ Hitems]. apply dict_get_Some_elem in Hget.
  by destruct (Hitems _ _ Hget).
Qed.

Lemma reachable_connected_has_socket env py_str s tr :
  reachable env py_str s tr -> connected s = true -> is_Some (ws s).
Proof.
  intros Hreach Hc. apply reachable_distinct in Hreach as [(_ & _ & Hlive) _].
  by destruct (Hlive Hc).
Qed.

(** X7: First-subscriber rule: in a reachable state a [subscribe] that is not
    cancelled hands a subscribe request to the transport exactly when the
    key is new and the client is connected; a callback that is new for the
    key goes to the end of the key's list, one that is already there leaves
    the list as it is. *)
Theorem subscribe_sends_only_for_new_key_when_connected
    (env : Env) (py_str : Value -> string)
    (k : SubKind) (exchange symbol : string) (cb : Callback)
    (s : Client) (tr : list Event) :
  uncancelled env ->
  reachable env py_str s tr ->
  let key := _get_symbol_key exchange symbol in
  exists s' evs,
    subscribe env k exchange symbol cb s tr = (Return true, s', tr ++ evs) /\
    sends_of evs =
      (if connected s && negb (dict_mem key (registry k s))
       then [wire_message "subscribe" (kind_name k) exchange symbol]
       else []) /\
    callbacks_of k key s' =
      (if bool_decide (cb ∈ callbacks_of k key s)
       then callbacks_of k key s
       else callbacks_of k key s ++ [cb]).
Proof.
  intros Hnc Hreach key. eexists _, _. split; [apply (subscribe_exec env)|]. fold key. split.
  - unfold dict_mem. destruct (dict_get key (registry k s)) as [cbs|] eqn:Hget.
    + by rewrite andb_false_r.
    + rewrite andb_true_r. destruct (connected s) eqn:Hc.
      * apply sends_of_send_events; [done|].
        eapply reachable_connected_has_socket; eauto.
      * by rewrite send_events_disconnected.
  - unfold callbacks_of. rewrite registry_update. unfold subscribe_reg.
    destruct (dict_get key (registry k s)) as [cbs|] eqn:Hget; simpl.
    + case_bool_decide; [by rewrite Hget|by rewrite dict_get_set_eq].
    + by rewrite dict_get_set_eq.
Qed.

Lemma subscribe_sends_only_for_new_key_when_connected_witness :
  reachable env_up py_str_none connected_with_ltp.1 connected_with_ltp.2 /\
  exists s' evs,
    subscribe env_up LTP "NSE" "INFY" cb2 connected_with_ltp.1 connected_with_ltp.2
      = (Return true, s', connected_with_ltp.2 ++ evs) /\
    sends_of evs = [] /\
    callbacks_of LTP (_get_symbol_key "NSE" "INFY") s' = [cb1; cb2].
Proof.
  assert (Hreach : reachable env_up py_str_none
                     connected_with_ltp.1 connected_with_ltp.2).
  { apply (reachable_step env_up py_str_none (OpSubscribe LTP "NSE" "INFY" cb1)
             (after (connect env_up)).1 (after (connect env_up)).2 (Return ())).
    - apply (reachable_step env_up py_str_none OpConnect fresh [] (Return ()));
        [apply reachable_init|vm_compute; reflexivity].
    - vm_compute; reflexivity. }
  split; [exact Hreach|].
  destruct (subscribe_sends_only_for_new_key_when_connected env_up py_str_none
              LTP "NSE" "INFY" cb2 connected_with_ltp.1 connected_with_ltp.2
              env_up_uncancelled Hreach)
    as (s' & evs & Hrun & Hsends & Hcbs).
  exists s', evs. split; [exact Hrun|]. split; [exact Hsends|].
  rewrite Hcbs. vm_compute. reflexivity.
Defined.

(** X8: An [unsubscribe] that is not cancelled, with a callback that is
    registered for the key, removes that callback and no other, keeping the
    order of the rest; the key leaves the registry exactly when no callback
    is left, and exactly then, if the client is connected, one unsubscribe
    request is handed to the transport. *)
Theorem unsubscribe_callback_removes_only_it
    (env : Env) (py_str : Value -> string)
    (k : SubKind) (exchange symbol : string) (cb : Callback) (cbs : list Callback)
    (s : Client) (tr : list Event) :
  uncancelled env ->
  reachable env py_str s tr ->
  let key := _get_symbol_key exchange symbol in
  dict_get key (registry k s) = Some cbs ->
  cb ∈ cbs ->
  let remaining := filter (fun c => c <> cb) cbs in
  exists s' evs,
    unsubscribe env k exchange symbol (Some cb) s tr = (Return true, s', tr ++ evs) /\
    callbacks_of k key s' = remaining /\
    dict_mem key (registry k s') = negb (bool_decide (remaining = [])) /\
    sends_of evs =
      (if connected s && bool_decide (remaining = [])
       then [wire_message "unsubscribe" (kind_name k) exchange symbol]
       else []).
Proof.
  intros Hnc Hreach key Hget Hin remaining.
  pose proof (reachable_registry_NoDup _ _ _ _ _ _ _ Hreach Hget) as Hnd.
  assert (Hrm : remove_first cb cbs = remaining) by (by apply remove_first_filter).
  eexists _, _. split; [apply (unsubscribe_exec env)|]. fold key.
  unfold callbacks_of, dict_mem, drops_key. rewrite registry_update.
  unfold unsubscribe_reg. rewrite Hget, Hrm, (bool_decide_eq_true_2 _ Hin).
  destruct remaining as [|c0 rest] eqn:Hrem.
  - rewrite dict_get_del_eq. do 2 (split; [done|]).
    rewrite (bool_decide_eq_true_2 ([] = [])) by done. rewrite andb_true_r.
    destruct (connected s) eqn:Hc.
    + apply sends_of_send_events; [done|].
      eapply reachable_connected_has_socket; eauto.
    + by rewrite send_events_disconnected.
  - rewrite dict_get_set_eq. do 2 (split; [done|]). by rewrite andb_false_r.
Qed.

Lemma unsubscribe_callback_removes_only_it_witness :
  reachable env_up py_str_none two_ltp_callbacks.1 two_ltp_callbacks.2 /\
  dict_get (_get_symbol_key "NSE" "INFY") (registry LTP two_ltp_callbacks.1)
    = Some [cb1; cb2] /\
  cb1 ∈ [cb1; cb2] /\
  exists s' evs,
    unsubscribe env_up LTP "NSE" "INFY" (Some cb1)
        two_ltp_callbacks.1 two_ltp_callbacks.2
      = (Return true, s', two_ltp_callbacks.2 ++ evs) /\
    callbacks_of LTP (_get_symbol_key "NSE" "INFY") s' = [cb2] /\
    dict_mem (_get_symbol_key "NSE" "INFY") (registry LTP s') = true /\
    sends_of evs = [].
Proof.
  assert (Hreach : reachable env_up py_str_none
                     two_ltp_callbacks.1 two_ltp_callbacks.2).
  { apply (reachable_step env_up py_str_none (OpSubscribe LTP "NSE" "INFY" cb2)
             connected_with_ltp.1 connected_with_ltp.2 (Return ()));
      [|vm_compute; reflexivity].
    apply (reachable_step env_up py_str_none (OpSubscribe LTP "NSE" "INFY" cb1)
             (after (connect env_up)).1 (after (connect env_up)).2 (Return ()));
      [|vm_compute; reflexivity].
    apply (reachable_step env_up py_str_none OpConnect fresh [] (Return ()));
      [apply reachable_init|vm_compute; reflexivity]. }
  assert (Hin : cb1 ∈ [cb1; cb2]) by left.
  split; [exact Hreach|]. split; [vm_compute; reflexivity|]. split; [exact Hin|].
  exact (unsubscribe_callback_removes_only_it env_up py_str_none LTP "NSE" "INFY"
           cb1 [cb1; cb2] two_ltp_callbacks.1 two_ltp_callbacks.2
           env_up_uncancelled Hreach eq_refl Hin).
Defined.

(** X9: [unsubscribe] with a callback that is not registered for the key changes
    nothing in a state reached without a cancelled send: the client and the
    history stay as they are, the key keeps its callbacks and nothing is
    sent. *)
Theorem unsubscribe_unregistered_callback_changes_nothing
    (env : Env) (py_str : Value -> string)
    (k : SubKind) (exchange symbol : string) (cb : Callback)
    (s : Client) (tr : list Event) :
  uncancelled env ->
  reachable env py_str s tr ->
  cb ∉ callbacks_of k (_get_symbol_key exchange symbol) s ->
  unsubscribe env k exchange symbol (Some cb) s tr = (Return true, s, tr).
Proof.
  intros Hnc Hreach Hnot. set (key := _get_symbol_key exchange symbol) in *.
  rewrite (unsubscribe_exec env). fold key. unfold callbacks_of in Hnot.
  unfold drops_key, unsubscribe_reg.
  destruct (dict_get key (registry k s)) as [cbs|] eqn:Hget; simpl in Hnot.
  - destruct (reachable_registry_item env py_str _ _ _ _ _ Hreach Hget) as [Hne _].
    rewrite (remove_first_notin _ _ Hnot).
    destruct cbs as [|c0 rest]; [done|]. rewrite app_nil_r.
    rewrite update_registry_same; [done|].
    by rewrite Hget, (remove_first_notin _ _ Hnot), bool_decide_eq_false_2.
  - rewrite app_nil_r, update_registry_same; [done|]. by rewrite Hget.
Qed.

Lemma unsubscribe_unregistered_callback_changes_nothing_witness :
  reachable env_up py_str_none connected_with_ltp.1 connected_with_ltp.2 /\
  (cb2 ∉ callbacks_of LTP (_get_symbol_key "NSE" "INFY") connected_with_ltp.1) /\
  unsubscribe env_up LTP "NSE" "INFY" (Some cb2)
      connected_with_ltp.1 connected_with_ltp.2
    = (Return true, connected_with_ltp.1, connected_with_ltp.2).
Proof.
  assert (Hreach : reachable env_up py_str_none
                     connected_with_ltp.1 connected_with_ltp.2).
  { apply (reachable_step env_up py_str_none (OpSubscribe LTP "NSE" "INFY" cb1)
             (after (connect env_up)).1 (after (connect env_up)).2 (Return ())).
    - apply (reachable_step env_up py_str_none OpConnect fresh [] (Return ()));
        [apply reachable_init|vm_compute; reflexivity].
    - vm_compute; reflexivity. }
  assert (Hnot : cb2 ∉ callbacks_of LTP (_get_symbol_key "NSE" "INFY")
                         connected_with_ltp.1).
  { vm_compute. intros H.
    apply elem_of_cons in H as [H|H]; [discriminate H|by apply elem_of_nil in H]. }
  split; [exact Hreach|]. split; [exact Hnot|].
  exact (unsubscribe_unregistered_callback_changes_nothing env_up py_str_none
           LTP "NSE" "INFY" cb2 connected_with_ltp.1 connected_with_ltp.2
           env_up_uncancelled Hreach Hnot).
Defined.

(** X10: Round trip: subscribing a callback for a key that has no entry and then
    unsubscribing it (by naming the callback or by naming none), neither
    call being cancelled, gives back the client exactly as it was; on a
    connected client the two calls hand to the transport one subscribe and
    then one unsubscribe request, on a client that is not connected
    nothing. *)
Theorem subscribe_then_unsubscribe_restores_client
    (env : Env) (py_str : Value -> string)
    (k : SubKind) (exchange symbol : string) (cb : Callback)
    (callback : option Callback) (s : Client) (tr : list Event) :
  uncancelled env ->
  reachable env py_str s tr ->
  dict_get (_get_symbol_key exchange symbol) (registry k s) = None ->
  callback = Some cb \/ callback = None ->
  exists s1 evs1 evs2,
    subscribe env k exchange symbol cb s tr = (Return true, s1, tr ++ evs1) /\
    unsubscribe env k exchange symbol callback s1 (tr ++ evs1)
      = (Return true, s, (tr ++ evs1) ++ evs2) /\
    sends_of (evs1 ++ evs2) =
      (if connected s
       then [wire_message "subscribe" (kind_name k) exchange symbol;
             wire_message "unsubscribe" (kind_name k) exchange symbol]
       else []).
Proof.
  intros Hnc Hreach Hget Hcb. set (key := _get_symbol_key exchange symbol) in *.
  assert (Hws : connected s = true -> is_Some (ws s))
    by (eapply reachable_connected_has_socket; eauto).
  assert (Hreg1 : registry k (update_registry k (subscribe_reg key cb) s)
                  = dict_set key [cb] (registry k s)).
  { rewrite registry_update. unfold subscribe_reg. by rewrite Hget. }
  eexists _, _, _. split; [apply (subscribe_exec env)|]. fold key. split.
  - rewrite (unsubscribe_exec env). fold key. f_equal. f_equal.
    rewrite update_registry_twice. apply update_registry_same.
    unfold unsubscribe_reg, subscribe_reg. rewrite Hget, dict_get_set_eq.
    destruct Hcb as [-> | ->]; simpl.
    + rewrite bool_decide_eq_true_2 by done.
      by rewrite dict_del_set, dict_del_absent.
    + by rewrite dict_del_set, dict_del_absent.
  - unfold dict_mem, drops_key. rewrite Hget, Hreg1, dict_get_set_eq.
    rewrite sends_of_app.
    assert (Hdrop : match callback with
                    | Some cb0 => match remove_first cb0 [cb] with
                                  | [] => true | _ :: _ => false end
                    | None => true
                    end = true).
    { destruct Hcb as [-> | ->]; simpl; [|done].
      by rewrite bool_decide_eq_true_2. }
    rewrite Hdrop.
    destruct (connected s) eqn:Hc.
    + rewrite !sends_of_send_events by auto. done.
    + by rewrite !send_events_disconnected.
Qed.

Lemma subscribe_then_unsubscribe_restores_client_witness :
  reachable env_up py_str_none connected_with_ltp.1 connected_with_ltp.2 /\
  dict_get (_get_symbol_key "NSE" "TCS") (registry QUOTE connected_with_ltp.1) = None /\
  (Some cb2 = Some cb2 \/ Some cb2 = None) /\
  exists s1 evs1 evs2,
    subscribe env_up QUOTE "NSE" "TCS" cb2 connected_with_ltp.1 connected_with_ltp.2
      = (Return true, s1, connected_with_ltp.2 ++ evs1) /\
    unsubscribe env_up QUOTE "NSE" "TCS" (Some cb2) s1 (connected_with_ltp.2 ++ evs1)
      = (Return true, connected_with_ltp.1, (connected_with_ltp.2 ++ evs1) ++ evs2) /\
    sends_of (evs1 ++ evs2) =
      [wire_message "subscribe" (kind_name QUOTE) "NSE" "TCS";
       wire_message "unsubscribe" (kind_name QUOTE) "NSE" "TCS"].
Proof.
  assert (Hreach : reachable env_up py_str_none
                     connected_with_ltp.1 connected_with_ltp.2).
  { apply (reachable_step env_up py_str_none (OpSubscribe LTP "NSE" "INFY" cb1)
             (after (connect env_up)).1 (after (connect env_up)).2 (Return ())).
    - apply (reachable_step env_up py_str_none OpConnect fresh [] (Return ()));
        [apply reachable_init|vm_compute; reflexivity].
    - vm_compute; reflexivity. }
  split; [exact Hreach|]. split; [vm_compute; reflexivity|]. split; [by left|].
  exact (subscribe_then_unsubscribe_restores_client env_up py_str_none
           QUOTE "NSE" "TCS" cb2 (Some cb2) connected_with_ltp.1 connected_with_ltp.2
           env_up_uncancelled Hreach eq_refl (or_introl eq_refl)).
Defined.

(** X11: The kinds are independent: [subscribe] and [unsubscribe] on one kind
    (calls that are not cancelled) leave the registries of the other two
    kinds, the three caches and the connection fields as they are. *)
Theorem other_kinds_are_untouched
    (env : Env) (k k' : SubKind) (exchange symbol : string) (cb : Callback)
    (callback : option Callback) (s : Client) (tr : list Event) :
  uncancelled env ->
  k <> k' ->
  exists s1 tr1 s2 tr2,
    subscribe env k exchange symbol cb s tr = (Return true, s1, tr1) /\
    unsubscribe env k exchange symbol callback s tr = (Return true, s2, tr2) /\
    registry k' s1 = registry k' s /\ registry k' s2 = registry k' s /\
    (ltp_cache s1, quote_cache s1, depth_cache s1)
      = (ltp_cache s, quote_cache s, depth_cache s) /\
    (ltp_cache s2, quote_cache s2, depth_cache s2)
      = (ltp_cache s, quote_cache s, depth_cache s) /\
    (connected s1, ws s1, _running s1, reconnect_attempts s1)
      = (connected s, ws s, _running s, reconnect_attempts s) /\
    (connected s2, ws s2, _running s2, reconnect_attempts s2)
      = (connected s, ws s, _running s, reconnect_attempts s).
Proof.
  intros Hnc Hne. eexists _, _, _, _.
  split; [apply (subscribe_exec env)|]. split; [apply (unsubscribe_exec env)|].
  rewrite !registry_update_other by done. by repeat split.
Qed.

Lemma other_kinds_are_untouched_witness :
  LTP <> QUOTE /\
  exists s1 tr1 s2 tr2,
    subscribe env_up LTP "NSE" "INFY" cb2 ltp_and_quote.1 ltp_and_quote.2
      = (Return true, s1, tr1) /\
    unsubscribe env_up LTP "NSE" "INFY" None ltp_and_quote.1 ltp_and_quote.2
      = (Return true, s2, tr2) /\
    registry QUOTE s1 = registry QUOTE ltp_and_quote.1 /\
    registry QUOTE s2 = registry QUOTE ltp_and_quote.1.
Proof.
  assert (Hne : LTP <> QUOTE) by discriminate.
  split; [exact Hne|].
  destruct (other_kinds_are_untouched env_up LTP QUOTE "NSE" "INFY" cb2 None
              ltp_and_quote.1 ltp_and_quote.2 env_up_uncancelled Hne)
    as (s1 & tr1 & s2 & tr2 & H1 & H2 & H3 & H4 & _).
  exists s1, tr1, s2, tr2. done.
Defined.

(** ** The dispatcher and the read loop *)

Lemma py_eq_str_true v lit : py_eq_str v lit = true -> v = VStr lit.
Proof.
  destruct v; simpl; try done. intros H. by apply String.eqb_eq in H as ->.
Qed.

(** X12: A frame of type ["depth"] is stored whole in the depth cache under its
    key and fanned out to the callbacks registered for (DEPTH, key), once
    each in registration order, with [(exchange, symbol, frame)]; the LTP and
    quote caches and the registries are left alone. *)
Theorem depth_frame_effects
    (env : Env) (py_str : Value -> string)
    (data : list (string * Value)) (s : Client) (tr : list Event) :
  py_get "type" (VStr "") data = VStr "depth" ->
  let key := frame_key py_str data in
  let args := [py_get "exchange" (VStr "") data; py_get "symbol" (VStr "") data;
               VDict data] in
  exists s' evs,
    _process_message env py_str (VDict data) s tr = (Return (), s', tr ++ evs) /\
    depth_cache s' = <[key := VDict data]> (depth_cache s) /\
    ltp_cache s' = ltp_cache s /\
    quote_cache s' = quote_cache s /\
    subscriptions s' = subscriptions s /\
    calls_of evs = map (fun cb => (cb, args)) (callbacks_of DEPTH key s).
Proof.
  intros Hty key args.
  destruct (dispatch_exec env py_str DEPTH data s tr Hty)
    as (s' & Hexec & Hsame & Hltp & Hquote & Hdepth).
  eexists s', _. split; [exact Hexec|]. rewrite calls_of_fan_out_events.
  split; [exact Hdepth|]. split; [exact Hltp|]. split; [exact Hquote|].
  split; [apply Hsame|done].
Qed.

Lemma depth_frame_effects_witness :
  py_get "type" (VStr "") [("type", VStr "depth"); ("exchange", VStr "NSE");
                           ("symbol", VStr "INFY")] = VStr "depth" /\
  exists s' evs,
    _process_message env_up py_str_none
        (VDict [("type", VStr "depth"); ("exchange", VStr "NSE");
                ("symbol", VStr "INFY")])
        ltp_and_quote.1 ltp_and_quote.2
      = (Return (), s', ltp_and_quote.2 ++ evs) /\
    get_depth "NSE" "INFY" s' =
      VDict [("type", VStr "depth"); ("exchange", VStr "NSE"); ("symbol", VStr "INFY")] /\
    calls_of evs = [].
Proof.
  split; [reflexivity|].
  destruct (depth_frame_effects env_up py_str_none
              [("type", VStr "depth"); ("exchange", VStr "NSE"); ("symbol", VStr "INFY")]
              ltp_and_quote.1 ltp_and_quote.2 eq_refl)
    as (s' & evs & Hexec & Hdepth & _ & _ & _ & Hcalls).
  exists s', evs. split; [exact Hexec|]. split; [|exact Hcalls].
  unfold get_depth. rewrite Hdepth. vm_compute; reflexivity.
Defined.

(** X13: Whatever is received, the dispatcher returns normally, hands nothing to
    the transport and leaves the registries and the connection fields alone.
    A frame that is not a dict, or whose type is none of ["ltp"], ["quote"]
    and ["depth"] (control frames and unknown types alike), changes nothing
    in the client and invokes no callback. *)
Theorem dispatch_is_confined
    (env : Env) (py_str : Value -> string) (data : Value)
    (s : Client) (tr : list Event) :
  exists s' evs,
    _process_message env py_str data s tr = (Return (), s', tr ++ evs) /\
    same_control s s' /\
    sends_of evs = [] /\
    ((forall items k, data = VDict items ->
                      py_get "type" (VStr "") items <> VStr (kind_name k)) ->
     s' = s /\ calls_of evs = []).
Proof.
  destruct (_process_message_spec env py_str data s tr) as (s' & evs & Hrun & Hsame & Hs).
  exists s', evs. split; [exact Hrun|]. split; [exact Hsame|]. split; [exact Hs|].
  intros Hother. rewrite _process_message_exec in Hrun.
  destruct data as [| | | | | |items];
    try (injection Hrun as <- Hevs; apply app_inv_head in Hevs as <-; done).
  cbv zeta in Hrun. set (msg_type := py_get "type" (VStr "") items) in *.
  destruct (py_eq_str msg_type "ltp") eqn:E1;
    [apply py_eq_str_true in E1; by destruct (Hother items LTP eq_refl)|].
  destruct (py_eq_str msg_type "quote") eqn:E2;
    [apply py_eq_str_true in E2; by destruct (Hother items QUOTE eq_refl)|].
  destruct (py_eq_str msg_type "depth") eqn:E3;
    [apply py_eq_str_true in E3; by destruct (Hother items DEPTH eq_refl)|].
  destruct (py_eq_str msg_type "error"), (py_eq_str msg_type "subscribed"),
    (py_eq_str msg_type "unsubscribed");
    injection Hrun as <- Hevs;
    try (apply app_inv_head in Hevs as <-; done).
  all: rewrite <- (app_nil_r tr) in Hevs at 1; apply app_inv_head in Hevs as <-; done.
Qed.

(** X14: An ["ltp"] frame that carries no price stores the integer 0 for its key
    and passes 0 to the callbacks: [data.get("ltp", 0)]. *)
Theorem ltp_frame_without_price_stores_zero
    (env : Env) (py_str : Value -> string)
    (data : list (string * Value)) (E S : string)
    (s : Client) (tr : list Event) :
  dict_get "type" data = Some (VStr "ltp") ->
  dict_get "exchange" data = Some (VStr E) ->
  dict_get "symbol" data = Some (VStr S) ->
  dict_get "ltp" data = None ->
  exists s' evs,
    _process_message env py_str (VDict data) s tr = (Return (), s', tr ++ evs) /\
    get_ltp E S s' = VInt 0 /\
    calls_of evs =
      map (fun cb => (cb, [VStr E; VStr S; VInt 0; VDict data]))
          (callbacks_of LTP (_get_symbol_key E S) s).
Proof.
  intros Hty HE HS HP.
  destruct (dispatch_exec env py_str LTP data s tr) as (s' & Hrun & _ & Hltp & _).
  { by rewrite (py_get_Some _ _ _ _ Hty). }
  assert (Hkey : frame_key py_str data = _get_symbol_key E S).
  { unfold frame_key. by rewrite (py_get_Some _ _ _ _ HE), (py_get_Some _ _ _ _ HS). }
  assert (Hzero : py_get "ltp" (VInt 0) data = VInt 0)
    by (unfold py_get; by rewrite HP).
  eexists s', _. split; [exact Hrun|]. split.
  - unfold get_ltp. by rewrite Hltp, Hkey, lookup_insert_eq, Hzero.
  - rewrite calls_of_fan_out_events, Hkey. unfold callback_args.
    by rewrite (py_get_Some _ _ _ _ HE), (py_get_Some _ _ _ _ HS), Hzero.
Qed.

Lemma ltp_frame_without_price_stores_zero_witness :
  let frame := [("type", VStr "ltp"); ("exchange", VStr "NSE"); ("symbol", VStr "INFY")] in
  dict_get "type" frame = Some (VStr "ltp") /\
  dict_get "exchange" frame = Some (VStr "NSE") /\
  dict_get "symbol" frame = Some (VStr "INFY") /\
  dict_get "ltp" frame = None /\
  exists s' evs,
    _process_message env_up py_str_none (VDict frame) connected_with_ltp.1
        connected_with_ltp.2
      = (Return (), s', connected_with_ltp.2 ++ evs) /\
    get_ltp "NSE" "INFY" s' = VInt 0 /\
    calls_of evs =
      map (fun cb => (cb, [VStr "NSE"; VStr "INFY"; VInt 0; VDict frame]))
          (callbacks_of LTP (_get_symbol_key "NSE" "INFY") connected_with_ltp.1).
Proof.
  cbv zeta. do 4 (split; [reflexivity|]).
  exact (ltp_frame_without_price_stores_zero env_up py_str_none
           [("type", VStr "ltp"); ("exchange", VStr "NSE"); ("symbol", VStr "INFY")]
           "NSE" "INFY" connected_with_ltp.1 connected_with_ltp.2
           eq_refl eq_refl eq_refl eq_refl).
Defined.

(** X15: A frame writes the caches under its own key only: for every exchange and
    symbol whose key is not the key of the frame, [get_ltp], [get_quote] and
    [get_depth] answer after the dispatch what they answered before. *)
Theorem dispatch_leaves_other_keys_alone
    (env : Env) (py_str : Value -> string)
    (data : list (string * Value)) (E S : string)
    (s : Client) (tr : list Event) :
  _get_symbol_key E S <> frame_key py_str data ->
  exists s' tr',
    _process_message env py_str (VDict data) s tr = (Return (), s', tr') /\
    get_ltp E S s' = get_ltp E S s /\
    get_quote E S s' = get_quote E S s /\
    get_depth E S s' = get_depth E S s.
Proof.
  intros Hne. unfold get_ltp, get_quote, get_depth.
  assert (Hkind : forall k, py_get "type" (VStr "") data = VStr (kind_name k) ->
            exists s' tr',
              _process_message env py_str (VDict data) s tr = (Return (), s', tr') /\
              ltp_cache s' !! _get_symbol_key E S = ltp_cache s !! _get_symbol_key E S /\
              quote_cache s' !! _get_symbol_key E S = quote_cache s !! _get_symbol_key E S /\
              depth_cache s' !! _get_symbol_key E S = depth_cache s !! _get_symbol_key E S).
  { intros k Hty.
    destruct (dispatch_exec env py_str k data s tr Hty)
      as (s' & Hexec & _ & Hltp & Hquote & Hdepth).
    eexists s', _. split; [exact Hexec|]. rewrite Hltp, Hquote, Hdepth.
    destruct k; [| destruct (dict_get "ltp" data) |];
      by rewrite ?lookup_insert_ne by done. }
  assert (Hrun := _process_message_exec env py_str (VDict data) s tr).
  cbv beta iota zeta in Hrun.
  set (msg_type := py_get "type" (VStr "") data) in *.
  destruct (py_eq_str msg_type "ltp") eqn:E1.
  { destruct (Hkind LTP (py_eq_str_true _ _ E1)) as (s' & tr' & Hx & H1 & H2 & H3).
    exists s', tr'. by rewrite H1, H2, H3. }
  destruct (py_eq_str msg_type "quote") eqn:E2.
  { destruct (Hkind QUOTE (py_eq_str_true _ _ E2)) as (s' & tr' & Hx & H1 & H2 & H3).
    exists s', tr'. by rewrite H1, H2, H3. }
  destruct (py_eq_str msg_type "depth") eqn:E3.
  { destruct (Hkind DEPTH (py_eq_str_true _ _ E3)) as (s' & tr' & Hx & H1 & H2 & H3).
    exists s', tr'. by rewrite H1, H2, H3. }
  rewrite Hrun.
  destruct (py_eq_str msg_type "error"), (py_eq_str msg_type "subscribed"),
    (py_eq_str msg_type "unsubscribed"); eexists s, _; (split; [reflexivity|done]).
Qed.

Lemma dispatch_leaves_other_keys_alone_witness :
  _get_symbol_key "NSE" "TCS" <> frame_key py_str_none infy_ltp_frame /\
  exists s' tr',
    _process_message env_up py_str_none (VDict infy_ltp_frame)
        connected_with_ltp.1 connected_with_ltp.2 = (Return (), s', tr') /\
    get_ltp "NSE" "TCS" s' = get_ltp "NSE" "TCS" connected_with_ltp.1 /\
    get_quote "NSE" "TCS" s' = get_quote "NSE" "TCS" connected_with_ltp.1 /\
    get_depth "NSE" "TCS" s' = get_depth "NSE" "TCS" connected_with_ltp.1.
Proof.
  assert (Hne : _get_symbol_key "NSE" "TCS" <> frame_key py_str_none infy_ltp_frame)
    by discriminate.
  split; [exact Hne|].
  exact (dispatch_leaves_other_keys_alone env_up py_str_none infy_ltp_frame
           "NSE" "TCS" connected_with_ltp.1 connected_with_ltp.2 Hne).
Defined.

(** X16: The read loop of a running client outlives bad input: a frame that does
    not decode as JSON is logged and the loop goes on with the next frame, the
    client unchanged; a cancellation ends the loop at once, the client and
    the history unchanged, whatever else has arrived. *)
Theorem read_loop_skips_malformed_frames
    (env : Env) (py_str : Value -> string) (s : Client) (tr : list Event)
    (rest : list Recv) :
  _running s = true ->
  is_Some (ws s) ->
  _message_handler env py_str (RecvMalformed :: rest) s tr =
    _message_handler env py_str rest s
      (tr ++ [EvLog ERROR "Error processing WebSocket message"]) /\
  _message_handler env py_str (RecvCancelled :: rest) s tr = (Return (), s, tr).
Proof.
  intros Hrun Hws. split.
  - change (_message_handler env py_str (RecvMalformed :: rest))
      with (s0 ← get;
            if _running s0 && bool_decide (is_Some (ws s0)) then
              try_or_break (raise JSONDecodeError)
                (fun _ => log ERROR "Error processing WebSocket message")
                ≫= λ go_on : bool,
              if go_on then _message_handler env py_str rest else mret ()
            else mret ()).
    rewrite run_get_bind, Hrun, bool_decide_eq_true_2 by done. reflexivity.
  - change (_message_handler env py_str (RecvCancelled :: rest))
      with (s0 ← get;
            if _running s0 && bool_decide (is_Some (ws s0)) then mret ()
            else mret ()).
    rewrite run_get_bind, Hrun, bool_decide_eq_true_2 by done. reflexivity.
Qed.

Lemma read_loop_skips_malformed_frames_witness :
  _running connected_with_ltp.1 = true /\
  is_Some (ws connected_with_ltp.1) /\
  _message_handler env_up py_str_none [RecvMalformed; RecvCancelled]
      connected_with_ltp.1 connected_with_ltp.2 =
    _message_handler env_up py_str_none [RecvCancelled] connected_with_ltp.1
      (connected_with_ltp.2 ++ [EvLog ERROR "Error processing WebSocket message"]) /\
  _message_handler env_up py_str_none [RecvCancelled; RecvCancelled]
      connected_with_ltp.1 connected_with_ltp.2
    = (Return (), connected_with_ltp.1, connected_with_ltp.2).
Proof.
  assert (Hws : is_Some (ws connected_with_ltp.1)) by (by eexists).
  split; [reflexivity|]. split; [exact Hws|].
  exact (read_loop_skips_malformed_frames env_up py_str_none
           connected_with_ltp.1 connected_with_ltp.2 [RecvCancelled] eq_refl Hws).
Defined.

(** ** Invariants of the reachable states, stated for a user *)



(** X18: In every reachable state no key occurs twice in the registry of a kind
    and no callback occurs twice in the list of a key: a callback is notified
    at most once per frame. *)
Theorem registry_has_no_duplicates
    (env : Env) (py_str : Value -> string) (s : Client) (tr : list Event)
    (k : SubKind) :
  reachable env py_str s tr ->
  NoDup (dict_keys (registry k s)) /\
  (forall key, NoDup (callbacks_of k key s)).
Proof.
  intros Hreach. split.
  - apply reachable_distinct in Hreach as [_ Hreg]. by destruct (Hreg k).
  - intros key. unfold callbacks_of.
    destruct (dict_get key (registry k s)) as [cbs|] eqn:Hget; [|constructor].
    exact (reachable_registry_NoDup _ _ _ _ _ _ _ Hreach Hget).
Qed.

Lemma registry_has_no_duplicates_witness :
  reachable env_up py_str_none two_ltp_callbacks.1 two_ltp_callbacks.2 /\
  NoDup (dict_keys (registry LTP two_ltp_callbacks.1)) /\
  (forall key, NoDup (callbacks_of LTP key two_ltp_callbacks.1)).
Proof.
  assert (Hreach : reachable env_up py_str_none
                     two_ltp_callbacks.1 two_ltp_callbacks.2).
  { apply (reachable_step env_up py_str_none (OpSubscribe LTP "NSE" "INFY" cb2)
             connected_with_ltp.1 connected_with_ltp.2 (Return ()));
      [|vm_compute; reflexivity].
    apply (reachable_step env_up py_str_none (OpSubscribe LTP "NSE" "INFY" cb1)
             (after (connect env_up)).1 (after (connect env_up)).2 (Return ()));
      [|vm_compute; reflexivity].
    apply (reachable_step env_up py_str_none OpConnect fresh [] (Return ()));
      [apply reachable_init|vm_compute; reflexivity]. }
  split; [exact Hreach|].
  exact (registry_has_no_duplicates env_up py_str_none
           two_ltp_callbacks.1 two_ltp_callbacks.2 LTP Hreach).
Defined.

(** ** The reconnection procedure on any network *)

Lemma try_reconnect_loop_attempts env fuel : forall s tr,
  connected s = false ->
  _running s = true ->
  max_reconnect_attempts s - reconnect_attempts s <= fuel ->
  exists o s' evs n (ok : bool),
    try_reconnect_loop env fuel s tr = (o, s', tr ++ evs) /\
    attempts_of evs =
      concat (replicate n [EvSleep (reconnect_delay s); EvOpen (ws_url s) false]) ++
      (if ok then [EvSleep (reconnect_delay s); EvOpen (ws_url s) true] else []) /\
    opens_of evs = replicate n false ++ (if ok then [true] else []) /\
    sleeps_of evs = replicate (n + (if ok then 1 else 0)) (reconnect_delay s) /\
    connected s' = ok /\
    (if ok then n < max_reconnect_attempts s - reconnect_attempts s
     else n = max_reconnect_attempts s - reconnect_attempts s) /\
    o <> OutOfFuel.
Proof.
  induction fuel as [|fuel IH]; intros s tr Hconn Hrun Hfuel;
    destruct (bool_decide (reconnect_attempts s < max_reconnect_attempts s))
      eqn:Hlt.
  - apply bool_decide_eq_true_1 in Hlt. lia.
  - apply bool_decide_eq_false_1 in Hlt.
    rewrite try_reconnect_loop_stop by (by rewrite bool_decide_eq_false_2).
    eexists (Return ()), s, _, 0, false. split; [reflexivity|].
    repeat split; try done. simpl. lia.
  - apply bool_decide_eq_true_1 in Hlt.
    rewrite try_reconnect_loop_pass;
      [|rewrite Hrun, bool_decide_eq_true_2; done|done].
    cbv zeta. destruct (connect_ok env _).
    + edestruct _resubscribe_all_emits
        as (o & evs & -> & Hopens & Hsleeps & Hatt & Ho).
      eexists o, _,
        ([EvLog INFO "Reconnection attempt"; EvSleep (reconnect_delay s);
          EvLog INFO "Connecting to OpenAlgo WebSocket"; EvOpen (ws_url s) true;
          EvCreateTask; EvLog INFO "WebSocket connected successfully"] ++ evs),
        0, true.
      split; [by rewrite <- !app_assoc|].
      rewrite attempts_of_app, opens_of_app, sleeps_of_app, Hopens, Hsleeps, Hatt.
      repeat split; try done. simpl. lia.
    + destruct (IH (set_connected false
                      (set_reconnect_attempts (reconnect_attempts s + 1) s))
                  (tr ++ failed_attempt_events s) eq_refl Hrun)
        as (o & s' & evs & n & ok & -> & Hatt & Hopens & Hsleeps & Hc & Hn & Ho).
      { simpl. lia. }
      exists o, s', (failed_attempt_events s ++ evs), (S n), ok.
      rewrite app_assoc. split; [done|].
      rewrite attempts_of_app, opens_of_app, sleeps_of_app, Hatt, Hopens, Hsleeps.
      simpl in Hn |- *. repeat split; try done.
      destruct ok; lia.
  - apply bool_decide_eq_false_1 in Hlt.
    rewrite try_reconnect_loop_stop by (by rewrite bool_decide_eq_false_2).
    eexists (Return ()), s, _, 0, false. split; [reflexivity|].
    repeat split; try done. simpl. lia.
Qed.

(** X19: On any network, when the read loop of a reachable, connected client
    observes a transport closure, what it does before it returns, as far as
    sleeps and connect attempts go, is: a sleep of 5 time units and then a
    connect attempt that fails, [n] times over, followed, if an attempt
    succeeds, by one more sleep of 5 time units and that attempt, and by
    nothing after it.  There are at most 5 attempts, exactly 5 when none
    succeeds, and the client ends connected exactly when an attempt
    succeeded. *)
Theorem reconnect_tries_until_first_success
    (env : Env) (py_str : Value -> string) (s : Client) (tr : list Event)
    (rest : list Recv) :
  reachable env py_str s tr ->
  connected s = true ->
  exists o s' evs n (ok : bool),
    _message_handler env py_str (RecvClosed :: rest) s tr = (o, s', tr ++ evs) /\
    attempts_of evs =
      concat (replicate n [EvSleep 5; EvOpen (ws_url s) false]) ++
      (if ok then [EvSleep 5; EvOpen (ws_url s) true] else []) /\
    opens_of evs = replicate n false ++ (if ok then [true] else []) /\
    sleeps_of evs = replicate (length (opens_of evs)) 5 /\
    connected s' = ok /\
    (if ok then n < 5 else n = 5) /\
    o <> OutOfFuel.
Proof.
  intros Hreach Hconn.
  apply reachable_distinct in Hreach as [(Hmax & Hdelay & Hlive) _].
  destruct (Hlive Hconn) as (Hws & Hatt & Hrun).
  change (_message_handler env py_str (RecvClosed :: rest))
    with (s0 ← get;
          if _running s0 && bool_decide (is_Some (ws s0)) then
            log WARNING "WebSocket connection closed";;
            modify (set_connected false);;
            _try_reconnect env
          else mret ()).
  rewrite run_get_bind, Hrun, bool_decide_eq_true_2 by done.
  cbv beta iota delta [andb]. run. unfold _try_reconnect. rewrite run_get_bind.
  destruct (try_reconnect_loop_attempts env
              (max_reconnect_attempts (set_connected false s)
               - reconnect_attempts (set_connected false s))
              (set_connected false s)
              (tr ++ [EvLog WARNING "WebSocket connection closed"]) eq_refl Hrun)
    as (o & s' & evs & n & ok & -> & Hattempts & Hopens & Hsleeps & Hc & Hn & Ho);
    [done|].
  simpl in Hattempts, Hsleeps, Hn. rewrite Hdelay in Hattempts, Hsleeps.
  rewrite Hmax, Hatt in Hn.
  exists o, s', (EvLog WARNING "WebSocket connection closed" :: evs), n, ok.
  split; [by rewrite <- app_assoc|].
  change (attempts_of (EvLog WARNING "WebSocket connection closed" :: evs))
    with (attempts_of evs).
  change (opens_of (EvLog WARNING "WebSocket connection closed" :: evs))
    with (opens_of evs).
  change (sleeps_of (EvLog WARNING "WebSocket connection closed" :: evs))
    with (sleeps_of evs).
  rewrite Hsleeps, Hopens, length_app, length_replicate.
  repeat split; try done. by destruct ok.
Qed.

(** The network refuses the first reconnect attempt and accepts the second. *)
Lemma reconnect_tries_until_first_success_witness :
  reachable env_flaky py_str_none two_kinds_scenario.1 two_kinds_scenario.2 /\
  connected two_kinds_scenario.1 = true /\
  exists o s' evs n (ok : bool),
    _message_handler env_flaky py_str_none [RecvClosed]
        two_kinds_scenario.1 two_kinds_scenario.2
      = (o, s', two_kinds_scenario.2 ++ evs) /\
    attempts_of evs =
      concat (replicate n [EvSleep 5; EvOpen (ws_url two_kinds_scenario.1) false]) ++
      (if ok then [EvSleep 5; EvOpen (ws_url two_kinds_scenario.1) true] else []) /\
    opens_of evs = replicate n false ++ (if ok then [true] else []) /\
    sleeps_of evs = replicate (length (opens_of evs)) 5 /\
    connected s' = ok /\
    (if ok then n < 5 else n = 5) /\
    o <> OutOfFuel.
Proof.
  assert (Hreach : reachable env_flaky py_str_none
                     two_kinds_scenario.1 two_kinds_scenario.2).
  { apply (reachable_step env_flaky py_str_none (OpSubscribe QUOTE "NSE" "TCS" cb2)
             (after (connect env_flaky;; subscribe_ltp env_flaky "NSE" "INFY" cb1)).1
             (after (connect env_flaky;; subscribe_ltp env_flaky "NSE" "INFY" cb1)).2
             (Return ())); [|vm_compute; reflexivity].
    apply (reachable_step env_flaky py_str_none (OpSubscribe LTP "NSE" "INFY" cb1)
             (after (connect env_flaky)).1 (after (connect env_flaky)).2 (Return ()));
      [|vm_compute; reflexivity].
    apply (reachable_step env_flaky py_str_none OpConnect fresh [] (Return ()));
      [apply reachable_init|vm_compute; reflexivity]. }
  split; [exact Hreach|]. split; [reflexivity|].
  exact (reconnect_tries_until_first_success env_flaky py_str_none
           two_kinds_scenario.1 two_kinds_scenario.2 [] Hreach eq_refl).
Defined.

(** ** The shared instance *)

Lemma disconnect_events s tr :
  exists s' evs,
    disconnect s tr = (Return (), s', tr ++ evs) /\
    without_logs evs = disconnect_effects s /\
    opens_of evs = [] /\ sends_of evs = [].
Proof.
  unfold disconnect, disconnect_effects. run. simpl.
  destruct (_message_task s); run; simpl; destruct (ws s) eqn:Hws; run; simpl;
    rewrite <- ?app_assoc; simpl; eexists _, _; (split; [reflexivity|]);
    by repeat split.
Qed.

(** X21: [initialize_websocket] always returns a new instance and installs it as
    the shared one, whether or not its single connect attempt succeeds: the
    instance has the given URL, empty registries and empty caches (nothing of
    an earlier instance survives, and nothing is resubscribed), and its
    connected flag is the outcome of that attempt.  Apart from log lines,
    what happens is, in this order: the read task of an earlier instance is
    cancelled and its transport closed, each if there is one; the one
    connect attempt of the new instance is made; its read task is created if
    the attempt succeeded.  Nothing is sent. *)
Theorem initialize_installs_fresh_client
    (env : Env) (url key : string) (_ws_client : option Client) (tr : list Event) :
  exists c evs,
    initialize_websocket env url key _ws_client tr = (Return c, Some c, tr ++ evs) /\
    get_websocket_client (Some c) = Some c /\
    ws_url c = url /\
    subscriptions c = empty_subscriptions /\
    (forall E S, get_ltp E S c = VNone /\ get_quote E S c = VNone /\
                 get_depth E S c = VNone) /\
    without_logs evs =
      match _ws_client with Some old => disconnect_effects old | None => [] end ++
      EvOpen url (connected c) :: (if connected c then [EvCreateTask] else []) /\
    opens_of evs = [connected c] /\
    sends_of evs = [].
Proof.
  assert (Hnew : forall tr1, exists b c evs,
            connect env (init url key) tr1 = (Return b, c, tr1 ++ evs) /\
            ws_url c = url /\ subscriptions c = empty_subscriptions /\
            (forall E S, get_ltp E S c = VNone /\ get_quote E S c = VNone /\
                         get_depth E S c = VNone) /\
            without_logs evs =
              EvOpen url (connected c) :: (if connected c then [EvCreateTask] else []) /\
            opens_of evs = [connected c] /\ sends_of evs = []).
  { intros tr1. rewrite connect_exec. simpl. destruct (connect_ok env _).
    - eexists true, _,
        [EvLog INFO "Connecting to OpenAlgo WebSocket"; EvOpen url true;
         EvCreateTask; EvLog INFO "WebSocket connected successfully"].
      split; [by rewrite <- !app_assoc|]. by repeat split.
    - eexists false, _,
        [EvLog INFO "Connecting to OpenAlgo WebSocket"; EvOpen url false;
         EvLog ERROR "WebSocket connection failed"].
      split; [by rewrite <- !app_assoc|]. by repeat split. }
  unfold initialize_websocket. destruct _ws_client as [old|].
  - destruct (disconnect_events old tr) as (old' & evs0 & -> & Hfx0 & Hopens0 & Hsends0).
    destruct (Hnew (tr ++ evs0))
      as (b & c & evs & -> & Hurl & Hsub & Hget & Hfx & Hopens & Hsends).
    exists c, (evs0 ++ evs). rewrite app_assoc. split; [done|].
    rewrite without_logs_app, opens_of_app, sends_of_app,
      Hfx0, Hfx, Hopens0, Hsends0, Hopens, Hsends.
    repeat split; try done; apply Hget.
  - destruct (Hnew tr)
      as (b & c & evs & -> & Hurl & Hsub & Hget & Hfx & Hopens & Hsends).
    exists c, evs. repeat split; try done; apply Hget.
Qed.

(** X22: [shutdown_websocket] leaves no shared instance; it makes no connect
    attempt and sends nothing; with no instance it does nothing, so a second
    shutdown is a no-op. *)
Theorem shutdown_clears_the_instance (_ws_client : option Client) (tr : list Event) :
  exists evs,
    shutdown_websocket _ws_client tr = (Return (), None, tr ++ evs) /\
    get_websocket_client None = None /\
    opens_of evs = [] /\ sends_of evs = [] /\
    (_ws_client = None -> evs = []) /\
    shutdown_websocket None (tr ++ evs) = (Return (), None, tr ++ evs).
Proof.
  unfold shutdown_websocket. destruct _ws_client as [c|].
  - destruct (disconnect_events c tr) as (c' & evs & -> & _ & Hopens & Hsends).
    exists evs. by repeat split.
  - exists []. rewrite app_nil_r. by repeat split.
Qed.

(** ** Encryption of stored values *)

Lemma prefix_nonempty (tok : string) : String.prefix "gAAAAA" tok = true -> tok <> "".
Proof. by destruct tok. Qed.

Lemma eqb_empty_false (s : string) : s <> "" -> String.eqb s "" = false.
Proof. intros H. by apply String.eqb_neq. Qed.

Lemma encrypt_value_token accepts enc fresh plaintext key_file token key_file1 logs :
  plaintext <> "" ->
  Encryption.encrypt_value accepts enc fresh plaintext key_file
    = (Encryption.Ok token, key_file1, logs) ->
  exists key,
    key_file1 = Some key /\ accepts key = true /\ enc key plaintext = Some token.
Proof.
  intros Hp. unfold Encryption.encrypt_value, Encryption._get_fernet,
    Encryption._get_or_create_key.
  rewrite (eqb_empty_false _ Hp). destruct key_file as [key|].
  - destruct (accepts key) eqn:Hacc; [|done].
    destruct (enc key plaintext) as [tok|] eqn:Henc; [|done].
    intros [= <- <- <-]. by exists key.
  - destruct (accepts fresh) eqn:Hacc; [|done].
    destruct (enc fresh plaintext) as [tok|] eqn:Henc; [|done].
    intros [= <- <- <-]. by exists fresh.
Qed.

Lemma decrypt_value_with_stored_key accepts dec fresh token key plaintext :
  token <> "" -> accepts key = true ->
  dec key token = Encryption.Decrypted plaintext ->
  Encryption.decrypt_value accepts dec fresh token (Some key)
    = (Encryption.Ok plaintext, Some key, [EvLog DEBUG "Loaded existing encryption key"]).
Proof.
  intros Hne Hacc Hdec. unfold Encryption.decrypt_value, Encryption._get_fernet,
    Encryption._get_or_create_key.
  by rewrite (eqb_empty_false _ Hne), Hacc, Hdec.
Qed.

(** X23: Round trip across calls: what [encrypt_value] returns, [decrypt_value]
    turns back into the plaintext, given that the cipher itself round-trips
    under an accepted key and makes no empty token.  The key the first call
    stored in the key file is the key the second call reads: the second
    call's own fresh key plays no part, and the key file is not rewritten. *)
Theorem decrypt_value_inverts_encrypt_value
    (accepts : string -> bool) (enc : string -> string -> option string)
    (dec : string -> string -> Encryption.DecryptOutcome)
    (fresh1 fresh2 plaintext : string) (key_file : option string)
    (token : string) (key_file1 : option string) (logs1 : list Event) :
  (forall key pl tok, accepts key = true -> enc key pl = Some tok ->
     tok <> "" /\ dec key tok = Encryption.Decrypted pl) ->
  Encryption.encrypt_value accepts enc fresh1 plaintext key_file
    = (Encryption.Ok token, key_file1, logs1) ->
  exists logs2,
    Encryption.decrypt_value accepts dec fresh2 token key_file1
      = (Encryption.Ok plaintext, key_file1, logs2).
Proof.
  intros Hlaw Henc. destruct (String.eqb_spec plaintext "") as [->|Hp].
  - unfold Encryption.encrypt_value in Henc. simpl in Henc.
    injection Henc as <- <- <-. by exists [].
  - destruct (encrypt_value_token _ _ _ _ _ _ _ _ Hp Henc) as (key & -> & Hacc & He).
    destruct (Hlaw _ _ _ Hacc He) as [Hne Hdec].
    eexists. by apply decrypt_value_with_stored_key.
Qed.

Lemma decrypt_value_inverts_encrypt_value_witness :
  (forall key pl tok, Encryption.toy_accepts key = true ->
     Encryption.toy_encrypt key pl = Some tok ->
     tok <> "" /\ Encryption.toy_decrypt key tok = Encryption.Decrypted pl) /\
  Encryption.encrypt_value Encryption.toy_accepts Encryption.toy_encrypt
      "k1" "secret" None
    = (Encryption.Ok "gAAAAAsecret", Some "k1",
       [EvLog INFO "Generated new encryption key"]) /\
  exists logs2,
    Encryption.decrypt_value Encryption.toy_accepts Encryption.toy_decrypt
        "k2" "gAAAAAsecret" (Some "k1")
      = (Encryption.Ok "secret", Some "k1", logs2).
Proof.
  assert (Hlaw : forall key pl tok, Encryption.toy_accepts key = true ->
            Encryption.toy_encrypt key pl = Some tok ->
            tok <> "" /\ Encryption.toy_decrypt key tok = Encryption.Decrypted pl).
  { intros key pl tok _ [= <-]. split; [discriminate|reflexivity]. }
  split; [exact Hlaw|]. split; [reflexivity|].
  exact (decrypt_value_inverts_encrypt_value Encryption.toy_accepts
           Encryption.toy_encrypt Encryption.toy_decrypt "k1" "k2" "secret" None
           "gAAAAAsecret" (Some "k1") [EvLog INFO "Generated new encryption key"]
           Hlaw eq_refl).
Defined.

(** X24: [decrypt_safe] gives back a non-empty plaintext that [encrypt_value]
    encrypted, given that tokens of the cipher start with the marker
    ["gAAAAA"] and decrypt under an accepted key.  The empty plaintext does
    not come back: it encrypts to the empty string, for which [decrypt_safe]
    answers [None]. *)
Theorem decrypt_safe_recovers_encrypted_values
    (accepts : string -> bool) (enc : string -> string -> option string)
    (dec : string -> string -> Encryption.DecryptOutcome)
    (fresh1 fresh2 plaintext : string) (key_file : option string)
    (token : string) (key_file1 : option string) (logs1 : list Event) :
  (forall key pl tok, accepts key = true -> enc key pl = Some tok ->
     String.prefix "gAAAAA" tok = true /\ dec key tok = Encryption.Decrypted pl) ->
  Encryption.encrypt_value accepts enc fresh1 plaintext key_file
    = (Encryption.Ok token, key_file1, logs1) ->
  (plaintext <> "" ->
   exists logs2,
     Encryption.decrypt_safe accepts dec fresh2 token key_file1
       = (Some plaintext, key_file1, logs2)) /\
  (plaintext = "" ->
   token = "" /\
   Encryption.decrypt_safe accepts dec fresh2 token key_file1 = (None, key_file1, [])).
Proof.
  intros Hlaw Henc. split.
  - intros Hp.
    destruct (encrypt_value_token _ _ _ _ _ _ _ _ Hp Henc) as (key & -> & Hacc & He).
    destruct (Hlaw _ _ _ Hacc He) as [Hpre Hdec].
    eexists. unfold Encryption.decrypt_safe, Encryption.is_encrypted.
    rewrite (eqb_empty_false _ (prefix_nonempty _ Hpre)), Hpre. simpl.
    by rewrite (decrypt_value_with_stored_key accepts dec fresh2 token key plaintext
                  (prefix_nonempty _ Hpre) Hacc Hdec).
  - intros ->. unfold Encryption.encrypt_value in Henc. simpl in Henc.
    injection Henc as <- <- <-. done.
Qed.

Lemma decrypt_safe_recovers_encrypted_values_witness :
  (forall key pl tok, Encryption.toy_accepts key = true ->
     Encryption.toy_encrypt key pl = Some tok ->
     String.prefix "gAAAAA" tok = true /\
     Encryption.toy_decrypt key tok = Encryption.Decrypted pl) /\
  Encryption.encrypt_value Encryption.toy_accepts Encryption.toy_encrypt
      "k1" "secret" None
    = (Encryption.Ok "gAAAAAsecret", Some "k1",
       [EvLog INFO "Generated new encryption key"]) /\
  "secret" <> "" /\
  exists logs2,
    Encryption.decrypt_safe Encryption.toy_accepts Encryption.toy_decrypt
        "k2" "gAAAAAsecret" (Some "k1")
      = (Some "secret", Some "k1", logs2).
Proof.
  assert (Hlaw : forall key pl tok, Encryption.toy_accepts key = true ->
            Encryption.toy_encrypt key pl = Some tok ->
            String.prefix "gAAAAA" tok = true /\
            Encryption.toy_decrypt key tok = Encryption.Decrypted pl).
  { intros key pl tok _ [= <-]. split; [by destruct pl|reflexivity]. }
  assert (Hne : "secret" <> "") by discriminate.
  split; [exact Hlaw|]. split; [reflexivity|]. split; [exact Hne|].
  exact (proj1 (decrypt_safe_recovers_encrypted_values Encryption.toy_accepts
                  Encryption.toy_encrypt Encryption.toy_decrypt "k1" "k2" "secret" None
                  "gAAAAAsecret" (Some "k1") [EvLog INFO "Generated new encryption key"]
                  Hlaw eq_refl) Hne).
Defined.

(** X25: [encrypt_if_not_encrypted] is idempotent, given that tokens of the cipher
    start with the marker ["gAAAAA"]: applied to its own result it returns
    that result, without logging and without touching the key file.  The test
    is the marker alone: any value that starts with it is returned as it is,
    encrypted or not. *)
Theorem encrypt_if_not_encrypted_is_idempotent
    (accepts : string -> bool) (enc : string -> string -> option string)
    (fresh1 fresh2 value : string) (key_file : option string)
    (token : string) (key_file1 : option string) (logs1 : list Event) :
  (forall key pl tok, accepts key = true -> enc key pl = Some tok ->
     String.prefix "gAAAAA" tok = true) ->
  Encryption.encrypt_if_not_encrypted accepts enc fresh1 value key_file
    = (Encryption.Ok token, key_file1, logs1) ->
  Encryption.encrypt_if_not_encrypted accepts enc fresh2 token key_file1
    = (Encryption.Ok token, key_file1, []) /\
  (String.prefix "gAAAAA" value = true -> token = value /\ key_file1 = key_file).
Proof.
  intros Hlaw. unfold Encryption.encrypt_if_not_encrypted, Encryption.is_encrypted.
  destruct (String.eqb_spec value "") as [->|Hv].
  - intros [= <- <- <-]. by split.
  - destruct (String.prefix "gAAAAA" value) eqn:Hpre.
    + intros [= <- <- <-]. rewrite (eqb_empty_false _ Hv), Hpre. by split.
    + unfold Encryption.encrypt_value, Encryption._get_fernet,
        Encryption._get_or_create_key.
      rewrite (eqb_empty_false _ Hv).
      assert (Hdone : forall tok, String.prefix "gAAAAA" tok = true ->
                (if String.eqb tok "" then (Encryption.Ok "", key_file1, [])
                 else if (if String.eqb tok "" then false else String.prefix "gAAAAA" tok)
                      then (Encryption.Ok tok, key_file1, [])
                      else Encryption.encrypt_value accepts enc fresh2 tok key_file1)
                = (Encryption.Ok tok, key_file1, [])).
      { intros tok Ht. by rewrite (eqb_empty_false _ (prefix_nonempty _ Ht)), Ht. }
      destruct key_file as [key|].
      * destruct (accepts key) eqn:Hacc; [|done].
        destruct (enc key value) as [tok|] eqn:He; [|done].
        intros [= <- <- <-]. split; [|done]. apply Hdone. eauto.
      * destruct (accepts fresh1) eqn:Hacc; [|done].
        destruct (enc fresh1 value) as [tok|] eqn:He; [|done].
        intros [= <- <- <-]. split; [|done]. apply Hdone. eauto.
Qed.

Lemma encrypt_if_not_encrypted_is_idempotent_witness :
  (forall key pl tok, Encryption.toy_accepts key = true ->
     Encryption.toy_encrypt key pl = Some tok -> String.prefix "gAAAAA" tok = true) /\
  Encryption.encrypt_if_not_encrypted Encryption.toy_accepts Encryption.toy_encrypt
      "k1" "secret" None
    = (Encryption.Ok "gAAAAAsecret", Some "k1",
       [EvLog INFO "Generated new encryption key"]) /\
  Encryption.encrypt_if_not_encrypted Encryption.toy_accepts Encryption.toy_encrypt
      "k2" "gAAAAAsecret" (Some "k1")
    = (Encryption.Ok "gAAAAAsecret", Some "k1", []).
Proof.
  assert (Hlaw : forall key pl tok, Encryption.toy_accepts key = true ->
            Encryption.toy_encrypt key pl = Some tok ->
            String.prefix "gAAAAA" tok = true).
  { intros key pl tok _ [= <-]. by destruct pl. }
  split; [exact Hlaw|]. split; [reflexivity|].
  exact (proj1 (encrypt_if_not_encrypted_is_idempotent Encryption.toy_accepts
                  Encryption.toy_encrypt "k1" "k2" "secret" None
                  "gAAAAAsecret" (Some "k1") [EvLog INFO "Generated new encryption key"]
                  Hlaw eq_refl)).
Defined.

(** ** Admin authentication *)

(** X26: Once setup is complete, [get_current_admin] lets a request through
    exactly when [get_optional_admin] answers [True] for the same
    credentials, whatever the path, and raises 401 otherwise; and
    [get_current_admin] never returns [False], in any situation. *)
Theorem admin_access_agrees_with_optional_admin
    (jwt_decode : string -> option (list (string * Value)))
    (path : string) (credentials : option string) (row : Auth.AppSettings) :
  Auth.is_setup_complete row = true ->
  (Auth.get_current_admin jwt_decode path credentials (Some row) = inr true <->
   Auth.get_optional_admin jwt_decode credentials = true) /\
  (Auth.get_optional_admin jwt_decode credentials = false ->
   exists detail,
     Auth.get_current_admin jwt_decode path credentials (Some row)
       = inl (Auth.Http 401 detail)) /\
  (forall path' settings,
     Auth.get_current_admin jwt_decode path' credentials settings <> inr false).
Proof.
  intros Hsetup. unfold Auth.get_current_admin, Auth.get_optional_admin.
  rewrite Hsetup. simpl. split; [|split].
  - destruct credentials as [token|]; [|done]. cbv zeta.
    destruct (Auth.not_payload (Auth.verify_token jwt_decode token)),
      (Auth.sub_is_not_admin (Auth.verify_token jwt_decode token)); simpl; done.
  - destruct credentials as [token|]; [|by eexists]. cbv zeta.
    destruct (Auth.not_payload (Auth.verify_token jwt_decode token)),
      (Auth.sub_is_not_admin (Auth.verify_token jwt_decode token)); simpl;
      try done; by eexists.
  - intros path' settings.
    destruct (match settings with
              | Some row0 => negb (Auth.is_setup_complete row0)
              | None => true
              end).
    + by destruct (_ || _).
    + destruct credentials as [token|]; [|done]. cbv zeta.
      destruct (Auth.not_payload (Auth.verify_token jwt_decode token)); [done|].
      by destruct (Auth.sub_is_not_admin (Auth.verify_token jwt_decode token)).
Qed.

Lemma admin_access_agrees_with_optional_admin_witness :
  Auth.is_setup_complete (Auth.mkAppSettings true) = true /\
  (Auth.get_current_admin Auth.toy_jwt_decode "/api/settings" (Some "good")
     (Some (Auth.mkAppSettings true)) = inr true <->
   Auth.get_optional_admin Auth.toy_jwt_decode (Some "good") = true) /\
  Auth.get_optional_admin Auth.toy_jwt_decode (Some "good") = true.
Proof.
  split; [reflexivity|]. split; [|reflexivity].
  exact (proj1 (admin_access_agrees_with_optional_admin Auth.toy_jwt_decode
                  "/api/settings" (Some "good") (Auth.mkAppSettings true) eq_refl)).
Defined.

(** ** The resubscription at work

    The network refuses the first reconnect attempt and accepts the second. *)

Lemma reconnect_resubscribes_two_part_keys_witness :
  reachable env_flaky py_str_none two_kinds_scenario.1 two_kinds_scenario.2 /\
  connected two_kinds_scenario.1 = true /\
  (forall k key, key ∈ dict_keys (registry k two_kinds_scenario.1) ->
                 is_Some (resubscribe_message k key)) /\
  connect_ok env_flaky
    (reconnect_history two_kinds_scenario.1 two_kinds_scenario.2 0) = false /\
  connect_ok env_flaky
    (reconnect_history two_kinds_scenario.1 two_kinds_scenario.2 1) = true /\
  exists s' evs,
    _message_handler env_flaky py_str_none [RecvClosed]
        two_kinds_scenario.1 two_kinds_scenario.2
      = (Return (), s', two_kinds_scenario.2 ++ evs) /\
    connected s' = true /\
    opens_of evs = replicate 1 false ++ [true] /\
    sends_of evs = resubscribe_messages two_kinds_scenario.1 /\
    subscriptions s' = subscriptions two_kinds_scenario.1 /\
    (forall k, NoDup (dict_keys (registry k two_kinds_scenario.1))).
Proof.
  assert (Hreach : reachable env_flaky py_str_none
                     two_kinds_scenario.1 two_kinds_scenario.2).
  { apply (reachable_step env_flaky py_str_none (OpSubscribe QUOTE "NSE" "TCS" cb2)
             (after (connect env_flaky;; subscribe_ltp env_flaky "NSE" "INFY" cb1)).1
             (after (connect env_flaky;; subscribe_ltp env_flaky "NSE" "INFY" cb1)).2
             (Return ())); [|vm_compute; reflexivity].
    apply (reachable_step env_flaky py_str_none (OpSubscribe LTP "NSE" "INFY" cb1)
             (after (connect env_flaky)).1 (after (connect env_flaky)).2 (Return ()));
      [|vm_compute; reflexivity].
    apply (reachable_step env_flaky py_str_none OpConnect fresh [] (Return ()));
      [apply reachable_init|vm_compute; reflexivity]. }
  assert (Hkeys : forall k key, key ∈ dict_keys (registry k two_kinds_scenario.1) ->
                                is_Some (resubscribe_message k key)).
  { intros k key Hin. destruct k; vm_compute in Hin.
    - apply list_elem_of_singleton in Hin as ->. by eexists.
    - apply list_elem_of_singleton in Hin as ->. by eexists.
    - by apply elem_of_nil in Hin. }
  assert (Hfail : forall j, j < 1 ->
            connect_ok env_flaky
              (reconnect_history two_kinds_scenario.1 two_kinds_scenario.2 j) = false).
  { intros [|j] Hj; [reflexivity|lia]. }
  split; [exact Hreach|]. split; [reflexivity|]. split; [exact Hkeys|].
  split; [reflexivity|]. split; [reflexivity|].
  exact (reconnect_resubscribes_two_part_keys env_flaky py_str_none
           two_kinds_scenario.1 two_kinds_scenario.2 [] 1
           env_flaky_uncancelled Hreach eq_refl Hkeys ltac:(lia) Hfail eq_refl).
Defined.
